(** * dstack-devops-playground: signature proofs and the distributed counter

    A shallow embedding of [signature_proof.py] and of the counter service
    of [counter.py], followed by the properties of the specification that
    were checked against them.

    Layout:
    - [Py]: the fragment of Python the two files rely on (dynamic values,
      exceptions, [len], truthiness, [bytes.fromhex], [str.replace],
      slicing, [bytes.ljust]) and a state-and-exception monad;
    - [signature_proof]: [SignatureProof], [RegistrationData] and the
      three methods of [SignatureProofGenerator];
    - [counter]: the state of [DistributedCounter], the leader monitor,
      the vote submission and the [/increment] handler;
    - the theorems. *)

From Stdlib Require Import ZArith NArith Ascii String List Lia.
From Stdlib Require Import Strings.Byte.
From stdpp Require Import base decidable option list gmap strings.

Local Open Scope string_scope.
Local Open Scope list_scope.

(** ** The Python fragment *)

Module Py.

(** Exceptions.  The two [RuntimeError]s raised by [signature_proof.py]
    carry f-string messages; they are kept apart by constructor, with the
    interpolated value as argument.  [ExternalError] stands for whatever an
    external collaborator (dstack socket, JSON-RPC endpoint, eth_account,
    aiohttp) raises. *)
Inductive exn : Type :=
| NameError (name : string)          (* name 'x' is not defined *)
| AttributeError (attr : string)     (* object has no attribute 'x' *)
| TypeError
| ValueError
| IndexError
| InsufficientChain (n : nat)
    (* RuntimeError(f"Insufficient signature chain length: {n}") *)
| NoNFTFound (wallet : string)
    (* RuntimeError(f"No NFT found for wallet {wallet}") *)
| ExternalError (what : string).

Inductive result (A : Type) : Type :=
| Ok (a : A)
| Raise (e : exn).
Arguments Ok {A} a.
Arguments Raise {A} e.

(** What an external call does: it returns, or it fails with an error of
    its own (never with one of the exceptions this repository raises). *)
Inductive outcome (A : Type) : Type :=
| Returns (a : A)
| Fails (what : string).
Arguments Returns {A} a.
Arguments Fails {A} what.

Definition of_outcome {A} (o : outcome A) : result A :=
  match o with
  | Returns a => Ok a
  | Fails what => Raise (ExternalError what)
  end.

Definition result_map {A B} (f : A -> B) (r : result A) : result B :=
  match r with
  | Ok a => Ok (f a)
  | Raise e => Raise e
  end.

Definition result_bind {A B} (r : result A) (f : A -> result B) : result B :=
  match r with
  | Ok a => f a
  | Raise e => Raise e
  end.

Definition is_ok {A} (r : result A) : bool :=
  match r with
  | Ok _ => true
  | Raise _ => false
  end.

(** Dynamic values: a dataclass field is not checked against its
    annotation, so a field may hold any of these.  A [str] is modelled by
    a [string] with one character per code point. *)
Inductive value : Type :=
| VBytes (b : list byte)
| VStr (s : string)
| VInt (z : Z)
| VNone.

(** [len(v)] *)
Definition len (v : value) : result nat :=
  match v with
  | VBytes b => Ok (length b)
  | VStr s => Ok (String.length s)
  | VInt _ | VNone => Raise TypeError
  end.

(** [bool(v)], as used by [not v] *)
Definition truthy (v : value) : bool :=
  match v with
  | VBytes b => negb (Nat.eqb (length b) 0)
  | VStr s => negb (Nat.eqb (String.length s) 0)
  | VInt z => negb (Z.eqb z 0)
  | VNone => false
  end.

(** [isinstance(v, str)] *)
Definition isinstance_str (v : value) : bool :=
  match v with VStr _ => true | _ => false end.

(** [s[n:]] on a [str] *)
Fixpoint str_from (n : nat) (s : string) : string :=
  match n, s with
  | O, _ => s
  | S n', String _ rest => str_from n' rest
  | S _, EmptyString => EmptyString
  end.

(** [s.replace('0x', '')]: every non-overlapping occurrence, scanning from
    the left. *)
Fixpoint replace_0x (s : string) : string :=
  match s with
  | EmptyString => EmptyString
  | String c rest =>
      match rest with
      | String d rest' =>
          if (Ascii.eqb c "0" && Ascii.eqb d "x")%bool
          then replace_0x rest'
          else String c (replace_0x rest)
      | EmptyString => String c EmptyString
      end
  end.

(** The value of a hexadecimal digit. *)
Definition hex_digit (c : ascii) : option N :=
  let n := N_of_ascii c in
  if ((48 <=? n) && (n <=? 57))%N then Some (n - 48)%N
  else if ((97 <=? n) && (n <=? 102))%N then Some (n - 87)%N
  else if ((65 <=? n) && (n <=? 70))%N then Some (n - 55)%N
  else None.

(** ASCII whitespace, which [bytes.fromhex] skips between bytes. *)
Definition is_space (c : ascii) : bool :=
  let n := N_of_ascii c in
  ((n =? 32) || ((9 <=? n) && (n <=? 13)))%N.

Definition byte_of_nibbles (hi lo : N) : byte :=
  byte_of_ascii (ascii_of_N (16 * hi + lo)).

(** [bytes.fromhex(s)]: two digits per byte, whitespace allowed between
    bytes only; [None] is [ValueError]. *)
Fixpoint fromhex (s : string) : option (list byte) :=
  match s with
  | EmptyString => Some []
  | String c rest =>
      if is_space c then fromhex rest
      else
        match hex_digit c, rest with
        | Some hi, String d rest' =>
            match hex_digit d with
            | Some lo => cons (byte_of_nibbles hi lo) <$> fromhex rest'
            | None => None
            end
        | _, _ => None
        end
  end.

Arguments str_from : simpl never.
Arguments replace_0x : simpl never.
Arguments fromhex : simpl never.

Definition bytes_fromhex (s : string) : result (list byte) :=
  match fromhex s with
  | Some b => Ok b
  | None => Raise ValueError
  end.

(** [b.ljust(width, fill)]: pads on the right, returns [b] itself when it
    is already [width] long or longer. *)
Definition ljust (width : nat) (fill : byte) (b : list byte) : list byte :=
  b ++ replicate (width - length b) fill.

Arguments ljust : simpl never.

(** Computations: a state [S] (object attributes, trace of observable
    events) is threaded through; an exception keeps the state reached
    when it was raised. *)
Definition M (S A : Type) : Type := S -> result A * S.

Definition ret {S A} (a : A) : M S A := fun s => (Ok a, s).

Definition raise {S A} (e : exn) : M S A := fun s => (Raise e, s).

Definition bind {S A B} (m : M S A) (k : A -> M S B) : M S B :=
  fun s =>
    match m s with
    | (Ok a, s') => k a s'
    | (Raise e, s') => (Raise e, s')
    end.

(** [try: m  except Exception as e: h e] *)
Definition try_except {S A} (m : M S A) (h : exn -> M S A) : M S A :=
  fun s =>
    match m s with
    | (Ok a, s') => (Ok a, s')
    | (Raise e, s') => h e s'
    end.

Definition lift {S A} (r : result A) : M S A := fun s => (r, s).

Definition get {S} : M S S := fun s => (Ok s, s).

Definition modify {S} (f : S -> S) : M S unit := fun s => (Ok tt, f s).

End Py.

Export Py.

Notation "'let!' x ':=' m 'in' k" := (bind m (fun x => k))
  (at level 10, x name, m at level 100, k at level 200).
Notation "'do!' m 'in' k" := (bind m (fun _ => k))
  (at level 10, m at level 100, k at level 200).

(** ** signature_proof.py *)

Module signature_proof.

(** [@dataclass class SignatureProof] *)
Module SignatureProof.
Record t : Type := mk {
  instance_id_bytes32 : value;
  derived_public_key : value;
  app_signature : value;
  kms_signature : value;
  purpose : value;
  app_id : value
}.
End SignatureProof.

(** [@dataclass class RegistrationData].  [token_id] is what the ledger
    returns for a [uint256]. *)
Module RegistrationData.
Record t : Type := mk {
  token_id : N;
  instance_id_bytes32 : value;
  derived_public_key : value;
  app_signature : value;
  kms_signature : value;
  purpose : value
}.
End RegistrationData.

(** What [logger.error] is called with in [verify_proof_format]. *)
Inductive log_record : Type :=
| InvalidInstanceIdLength (n : nat)
| InvalidPublicKeyLength (n : nat)
| AppSignatureTooShort (n : nat)
| KmsSignatureTooShort (n : nat)
| PurposeEmpty
| AppIdEmpty
| VerificationFailed (e : exn).

(** Observable actions, in the order they happen. *)
Inductive event : Type :=
| GetKey (key_path key_purpose : string)   (* dstack_client.get_key(..) *)
| Info                                     (* dstack_client.info() *)
| WalletToTokenId (wallet : string)        (* walletToTokenId(..).call() *)
| LogError (r : log_record).

Definition trace : Type := list event.

(** The KeyProvider's answer to [get_key]. *)
Record KeyResponse : Type := {
  key : value;
  signature_chain : list value
}.

(** The collaborators of [SignatureProofGenerator]: the text encoding and
    digest of the standard library, [eth_account], the dstack client and
    the contract handle. *)
Record Env : Type := {
  encode : string -> list byte;             (* str.encode() *)
  sha256 : list byte -> list byte;          (* hashlib.sha256(b).digest() *)
  Account_from_key : value -> outcome string;
                                            (* Account.from_key(k).address *)
  dstack_get_key : string -> string -> outcome KeyResponse;
  dstack_info_app_id : outcome string;      (* dstack_client.info().app_id *)
  walletToTokenId : string -> outcome N
}.

(** An external call: recorded in the trace, then its outcome. *)
Definition call {A} (ev : event) (o : outcome A) : M trace A :=
  fun tr => (of_outcome o, tr ++ [ev]).

Definition log_error (r : log_record) : M trace unit :=
  fun tr => (Ok tt, tr ++ [LogError r]).

(** [bytes32] is [bytes] after the import fallbacks: a copy. *)
Definition bytes32 (b : list byte) : list byte := b.

(** [l[i]] *)
Definition subscript {S} (l : list value) (i : nat) : M S value :=
  match l !! i with
  | Some v => ret v
  | None => raise IndexError
  end.

(** [if isinstance(sig, str): sig = bytes.fromhex(sig.replace('0x', ''))] *)
Definition ensure_bytes (sig : value) : result value :=
  if isinstance_str sig
  then
    match sig with
    | VStr s =>
        match bytes_fromhex (replace_0x s) with
        | Ok b => Ok (VBytes b)
        | Raise e => Raise e
        end
    | _ => Ok sig
    end
  else Ok sig.

Section Generator.

Variable E : Env.

Definition generate_proof (instance_id key_path key_purpose : string)
  : M trace SignatureProof.t :=
  let instance_hash := sha256 E (encode E instance_id) in
  let instance_id_bytes32 := bytes32 instance_hash in
  let! key_response :=
    call (GetKey key_path key_purpose) (dstack_get_key E key_path key_purpose) in
  let derived_private_key := key key_response in
  let signature_chain := signature_chain key_response in
  if (length signature_chain <? 2)%nat
  then raise (InsufficientChain (length signature_chain))
  else
    let! app_signature := subscript signature_chain 0 in
    let! kms_signature := subscript signature_chain 1 in
    let! app_signature := lift (ensure_bytes app_signature) in
    let! kms_signature := lift (ensure_bytes kms_signature) in
    let! address := lift (of_outcome (Account_from_key E derived_private_key)) in
    let! derived_public_key_bytes := lift (bytes_fromhex (str_from 2 address)) in
    let! app_id := call Info (dstack_info_app_id E) in
    let! app_id_bytes := lift (bytes_fromhex (str_from 2 app_id)) in
    let app_id_bytes32 := ljust 32 x00 app_id_bytes in
    ret (SignatureProof.mk
           (VBytes instance_id_bytes32)
           (VBytes derived_public_key_bytes)
           app_signature
           kms_signature
           (VStr key_purpose)
           (VBytes app_id_bytes32)).

Definition get_registration_data
    (wallet_address instance_id key_path key_purpose : string)
  : M trace RegistrationData.t :=
  let! token_id :=
    call (WalletToTokenId wallet_address) (walletToTokenId E wallet_address) in
  if (token_id =? 0)%N
  then raise (NoNFTFound wallet_address)
  else
    let! proof := generate_proof instance_id key_path key_purpose in
    ret (RegistrationData.mk
           token_id
           (SignatureProof.instance_id_bytes32 proof)
           (SignatureProof.derived_public_key proof)
           (SignatureProof.app_signature proof)
           (SignatureProof.kms_signature proof)
           (SignatureProof.purpose proof)).

End Generator.

(** [not v or len(v) == 0] *)
Definition is_empty (v : value) : M trace bool :=
  if negb (truthy v) then ret true
  else
    let! n := lift (len v) in
    ret (n =? 0)%nat.

Definition verify_proof_format (proof : SignatureProof.t) : M trace bool :=
  try_except
    (let! n := lift (len (SignatureProof.instance_id_bytes32 proof)) in
     if negb (n =? 32)%nat
     then do! log_error (InvalidInstanceIdLength n) in ret false
     else
       let! n := lift (len (SignatureProof.derived_public_key proof)) in
       if negb (n =? 20)%nat
       then do! log_error (InvalidPublicKeyLength n) in ret false
       else
         let! n := lift (len (SignatureProof.app_signature proof)) in
         if (n <? 65)%nat
         then do! log_error (AppSignatureTooShort n) in ret false
         else
           let! n := lift (len (SignatureProof.kms_signature proof)) in
           if (n <? 65)%nat
           then do! log_error (KmsSignatureTooShort n) in ret false
           else
             let! e := is_empty (SignatureProof.purpose proof) in
             if e
             then do! log_error PurposeEmpty in ret false
             else
               let! e := is_empty (SignatureProof.app_id proof) in
               if e
               then do! log_error AppIdEmpty in ret false
               else ret true)
    (fun e => do! log_error (VerificationFailed e) in ret false).

End signature_proof.

(** ** counter.py *)

Module counter.

(** The names bound at module level when [counter.py] has been imported:
    its [import] statements (the [try] blocks with their fallbacks), the
    [logger] assignment, the class and [main].  A global name that is not
    here (and is not a builtin) raises [NameError] when it is looked up. *)
Definition counter_py_globals : gset string :=
  list_to_set
    [ "asyncio"; "logging"; "argparse"; "json";
      "Dict"; "Any"; "Optional";
      "DstackClient"; "DSTACK_AVAILABLE";
      "Web3"; "geth_poa_middleware"; "Account"; "bytes32";
      "SignatureProofGenerator"; "RegistrationData";
      "logger"; "DistributedCounter"; "main" ].

(** A reading of [time.time()]; only its identity matters here. *)
Definition timestamp : Type := Z.

(** An entry of [operation_log]: the dict built in [increment_counter]. *)
Record Operation : Type := {
  op_timestamp : timestamp;       (* 'timestamp' *)
  op_operation : string;          (* 'operation' *)
  op_new_value : Z;               (* 'new_value' *)
  op_leader : string              (* 'leader' *)
}.

(** The attributes of a [DistributedCounter] that the monitor, the vote
    submission and the handlers read or write.  [wallet_private_key] and
    [http_client] are [None] when the object has no such attribute or
    holds Python's [None]. *)
Record DistributedCounter : Type := {
  instance_id : string;
  wallet_address : string;
  counter_value : Z;
  operation_log : list Operation;
  is_leader : bool;
  last_leader_heartbeat : timestamp;
  http_client : option unit;
  wallet_private_key : option value
}.

(** [__init__]: the wallet address is what [_init_dstack_wallet] derived.
    No statement of the class assigns [self.wallet_private_key]. *)
Definition init (instance_id wallet_address : string) : DistributedCounter :=
  {| instance_id := instance_id;
     wallet_address := wallet_address;
     counter_value := 0%Z;
     operation_log := [];
     is_leader := false;
     last_leader_heartbeat := 0%Z;
     http_client := None;
     wallet_private_key := None |}.

(** Ledger transactions. *)
Inductive ContractCall : Type :=
| castVote (target : string) (no_confidence : bool).

Record TxParams : Type := {
  tx_from : string;       (* 'from' *)
  tx_nonce : Z;           (* 'nonce' *)
  tx_gas : Z;             (* 'gas' *)
  tx_gasPrice : Z         (* 'gasPrice' *)
}.

Record Transaction : Type := {
  tx_call : ContractCall;
  tx_params : TxParams
}.

Record SignedTransaction : Type := {
  signed_payload : Transaction;
  signed_signature : list byte
}.

Inductive level : Type := Debug | Info | Error.

Inductive log_record : Type :=
| NowLeader                                   (* "I am now the leader!" *)
| NoLongerLeader                              (* "I am no longer the leader" *)
| LeaderUnresponsive (leader : string)
| VotedNoConfidence (target tx_hash : string)
| ErrorVotingNoConfidence (e : exn)
| VotedConfidence (target tx_hash : string)
| ErrorVotingConfidence (e : exn)
| LeaderPingFailed (e : exn)
| ErrorCheckingLeaderStatus (e : exn)
| ErrorInLeaderMonitoring (e : exn)
| LeaderHeartbeat
| ErrorInLeaderHeartbeat (e : exn)
| CounterIncremented (n : Z).

(** Observable actions: ledger reads, the liveness probe, the steps of a
    vote submission, log records and sleeps. *)
Inductive event : Type :=
| CurrentLeader
| GetActiveInstances
| HttpGet (url : string)
| GetTransactionCount (account : string)
| GasPrice
| BuildTransaction (c : ContractCall) (p : TxParams)
| SendRawTransaction (raw : SignedTransaction)
| Log (l : level) (r : log_record)
| Sleep (seconds : Z).

(** What the collaborators answer during one step of the service. *)
Record World : Type := {
  currentLeader : outcome string;
  getActiveInstances : outcome (list (list byte));
  http_get : string -> outcome Z;                  (* response.status *)
  get_transaction_count : string -> outcome Z;
  gas_price : outcome Z;
  build_transaction : ContractCall -> TxParams -> outcome unit;
  sign_transaction : Transaction -> value -> outcome (list byte);
  send_raw_transaction : SignedTransaction -> outcome string;
  time : timestamp                                 (* time.time() *)
}.

Record state : Type := {
  self : DistributedCounter;
  events : list event
}.

Definition call {A} (ev : event) (o : outcome A) : M state A :=
  fun st => (of_outcome o, {| self := self st; events := events st ++ [ev] |}).

Definition log (l : level) (r : log_record) : M state unit :=
  fun st => (Ok tt, {| self := self st; events := events st ++ [Log l r] |}).

Definition sleep (seconds : Z) : M state unit :=
  fun st => (Ok tt, {| self := self st; events := events st ++ [Sleep seconds] |}).

Definition update (f : DistributedCounter -> DistributedCounter) : M state unit :=
  modify (fun st => {| self := f (self st); events := events st |}).

Definition read {A} (f : DistributedCounter -> A) : M state A :=
  fun st => (Ok (f (self st)), st).

(** [self.name] for an attribute that may be missing. *)
Definition getattr {A} (name : string) (f : DistributedCounter -> option A)
  : M state A :=
  fun st =>
    match f (self st) with
    | Some a => (Ok a, st)
    | None => (Raise (AttributeError name), st)
    end.

Definition set_is_leader (b : bool) (c : DistributedCounter) : DistributedCounter :=
  {| instance_id := instance_id c;
     wallet_address := wallet_address c;
     counter_value := counter_value c;
     operation_log := operation_log c;
     is_leader := b;
     last_leader_heartbeat := last_leader_heartbeat c;
     http_client := http_client c;
     wallet_private_key := wallet_private_key c |}.

Definition set_last_leader_heartbeat (t : timestamp) (c : DistributedCounter)
  : DistributedCounter :=
  {| instance_id := instance_id c;
     wallet_address := wallet_address c;
     counter_value := counter_value c;
     operation_log := operation_log c;
     is_leader := is_leader c;
     last_leader_heartbeat := t;
     http_client := http_client c;
     wallet_private_key := wallet_private_key c |}.

Definition set_counter_value (n : Z) (c : DistributedCounter) : DistributedCounter :=
  {| instance_id := instance_id c;
     wallet_address := wallet_address c;
     counter_value := n;
     operation_log := operation_log c;
     is_leader := is_leader c;
     last_leader_heartbeat := last_leader_heartbeat c;
     http_client := http_client c;
     wallet_private_key := wallet_private_key c |}.

(** [self.operation_log.append(op)] *)
Definition append_operation (op : Operation) (c : DistributedCounter)
  : DistributedCounter :=
  {| instance_id := instance_id c;
     wallet_address := wallet_address c;
     counter_value := counter_value c;
     operation_log := operation_log c ++ [op];
     is_leader := is_leader c;
     last_leader_heartbeat := last_leader_heartbeat c;
     http_client := http_client c;
     wallet_private_key := wallet_private_key c |}.

Definition zero_address : string :=
  "0x0000000000000000000000000000000000000000".

(** The body passed to [web.json_response] by [increment_counter], and
    the response built from it. *)
Inductive json_body : Type :=
| ErrorBody (error : string)
| IncrementBody (success : bool) (new_value : Z) (operation_id : nat).

Record Response : Type := {
  body : json_body;
  status : Z
}.

Section Service.

(** The module namespace the methods run in. *)
Variable G : gset string.

(** Looking up a global name. *)
Definition load_global (name : string) : M state unit :=
  if decide (name ∈ G) then ret tt else raise (NameError name).

Variable W : World.

(** [async with aiohttp.ClientTimeout(total=timeout):] once the name
    [aiohttp] has been found.  A [ClientTimeout] is a plain record of
    numbers with no [__aenter__]: entering it raises [TypeError] (an
    [AttributeError] before Python 3.11, caught by the same handler), and
    the body of the statement is never run. *)
Definition async_with_ClientTimeout {A} (body : M state A) : M state A :=
  raise TypeError.

(** [ping_leader]: the probed URL is fixed; [leader_address] and the
    instances read from the ledger are not used. *)
Definition ping_leader (leader_address : string) : M state bool :=
  try_except
    (let! active_instances := call GetActiveInstances (getActiveInstances W) in
     let leader_url := "http://localhost:8080/health" in
     do! load_global "aiohttp" in
     async_with_ClientTimeout
       (let! client := getattr "get" http_client in
        let! response_status := call (HttpGet leader_url) (http_get W leader_url) in
        ret (response_status =? 200)%Z))
    (fun e => do! log Debug (LeaderPingFailed e) in ret false).

(** The [try] body shared, statement for statement, by
    [vote_no_confidence] ([no_confidence = True]) and [vote_confidence]
    ([False]): build, sign, send.  The result is the transaction hash. *)
Definition submit_vote (target_leader : string) (no_confidence : bool)
  : M state string :=
  let! from := read wallet_address in
  let! nonce := call (GetTransactionCount from) (get_transaction_count W from) in
  let! gasPrice := call GasPrice (gas_price W) in
  let params :=
    {| tx_from := from; tx_nonce := nonce; tx_gas := 200000; tx_gasPrice := gasPrice |} in
  let vote := castVote target_leader no_confidence in
  do! call (BuildTransaction vote params) (build_transaction W vote params) in
  let tx := {| tx_call := vote; tx_params := params |} in
  let! private_key := getattr "wallet_private_key" wallet_private_key in
  let! signature := lift (of_outcome (sign_transaction W tx private_key)) in
  let raw_tx := {| signed_payload := tx; signed_signature := signature |} in
  call (SendRawTransaction raw_tx) (send_raw_transaction W raw_tx).

Definition vote_no_confidence (target_leader : string) : M state unit :=
  try_except
    (let! tx_hash := submit_vote target_leader true in
     log Info (VotedNoConfidence target_leader tx_hash))
    (fun e => log Error (ErrorVotingNoConfidence e)).

Definition vote_confidence (target_leader : string) : M state unit :=
  try_except
    (let! tx_hash := submit_vote target_leader false in
     log Debug (VotedConfidence target_leader tx_hash))
    (fun e => log Error (ErrorVotingConfidence e)).

Definition check_leader_status : M state unit :=
  try_except
    (let! current_leader := call CurrentLeader (currentLeader W) in
     let! me := read wallet_address in
     let! leading := read is_leader in
     if String.eqb current_leader me
     then
       if negb leading
       then do! log Info NowLeader in update (set_is_leader true)
       else ret tt
     else
       do! (if leading
            then do! log Info NoLongerLeader in update (set_is_leader false)
            else ret tt) in
       if negb (String.eqb current_leader zero_address)
       then
         let! is_responsive := ping_leader current_leader in
         if negb is_responsive
         then
           do! log Info (LeaderUnresponsive current_leader) in
           vote_no_confidence current_leader
         else vote_confidence current_leader
       else ret tt)
    (fun e => log Error (ErrorCheckingLeaderStatus e)).

(** One turn of the [while True] loop of [monitor_leader_health]. *)
Definition monitor_leader_health_turn : M state unit :=
  try_except
    (do! check_leader_status in sleep 10)
    (fun e => do! log Error (ErrorInLeaderMonitoring e) in sleep 5).

(** One turn of the [while True] loop of [leader_heartbeat]. *)
Definition leader_heartbeat_turn : M state unit :=
  try_except
    (let! leading := read is_leader in
     do! (if leading
          then
            do! log Debug LeaderHeartbeat in
            do! load_global "time" in
            update (set_last_leader_heartbeat (time W))
          else ret tt) in
     sleep 30)
    (fun e => do! log Error (ErrorInLeaderHeartbeat e) in sleep 5).

(** The [POST /increment] handler.  It has no [await]: under asyncio it
    runs without interleaving. *)
Definition increment_counter : M state Response :=
  let! leading := read is_leader in
  if negb leading
  then
    do! load_global "web" in
    ret {| body := ErrorBody "Only leader can increment counter"; status := 403 |}
  else
    let! n := read counter_value in
    do! update (set_counter_value (n + 1)) in
    do! load_global "time" in
    let! new_value := read counter_value in
    let! leader := read wallet_address in
    let operation :=
      {| op_timestamp := time W;
         op_operation := "increment";
         op_new_value := new_value;
         op_leader := leader |} in
    do! update (append_operation operation) in
    let! value := read counter_value in
    do! log Info (CounterIncremented value) in
    do! load_global "web" in
    let! new_value := read counter_value in
    let! log_now := read operation_log in
    ret {| body := IncrementBody true new_value (length log_now); status := 200 |}.

End Service.

(** The monitor loop over the answers of successive turns. *)
Fixpoint monitor_leader_health (G : gset string) (turns : list World)
  : M state unit :=
  match turns with
  | [] => ret tt
  | W :: later =>
      do! monitor_leader_health_turn G W in
      monitor_leader_health G later
  end.

(** What can happen to a running service: a turn of either background
    loop, or an increment request. *)
Inductive activity : Type :=
| MonitorTurn
| HeartbeatTurn
| IncrementRequest.

Definition step (G : gset string) (W : World) (a : activity) (st : state) : state :=
  match a with
  | MonitorTurn => snd (monitor_leader_health_turn G W st)
  | HeartbeatTurn => snd (leader_heartbeat_turn G W st)
  | IncrementRequest => snd (increment_counter G W st)
  end.

Definition boot (instance_id wallet_address : string) : state :=
  {| self := init instance_id wallet_address; events := [] |}.

Inductive reachable (G : gset string) : state -> Prop :=
| reachable_boot instance_id wallet_address :
    reachable G (boot instance_id wallet_address)
| reachable_step W a st :
    reachable G st -> reachable G (step G W a st).

(** The vote transactions among the events. *)
Definition votes_sent (evs : list event) : list ContractCall :=
  omap (fun ev =>
          match ev with
          | SendRawTransaction raw => Some (tx_call (signed_payload raw))
          | _ => None
          end) evs.

End counter.

(** ** The format rules, as the specification words them

    A rule about a length holds of a field when the field has a length
    and that length meets the constraint. *)

Module format_rules.

Import signature_proof.

Definition length_is (P : nat -> bool) (v : value) : bool :=
  match len v with
  | Ok n => P n
  | Raise _ => false
  end.

Definition rule_instance_id_hash (p : SignatureProof.t) : bool :=
  length_is (fun n => n =? 32)%nat (SignatureProof.instance_id_bytes32 p).

Definition rule_derived_public_key (p : SignatureProof.t) : bool :=
  length_is (fun n => n =? 20)%nat (SignatureProof.derived_public_key p).

Definition rule_app_signature (p : SignatureProof.t) : bool :=
  length_is (fun n => 65 <=? n)%nat (SignatureProof.app_signature p).

Definition rule_kms_signature (p : SignatureProof.t) : bool :=
  length_is (fun n => 65 <=? n)%nat (SignatureProof.kms_signature p).

Definition rule_purpose (p : SignatureProof.t) : bool :=
  length_is (fun n => negb (n =? 0))%nat (SignatureProof.purpose p).

Definition rule_app_id (p : SignatureProof.t) : bool :=
  length_is (fun n => negb (n =? 0))%nat (SignatureProof.app_id p).

(** The five field rules of the testable property. *)
Definition five_rules (p : SignatureProof.t) : bool :=
  rule_instance_id_hash p && rule_derived_public_key p
  && rule_app_signature p && rule_kms_signature p && rule_purpose p.

(** The six rules of the component design. *)
Definition six_rules (p : SignatureProof.t) : bool :=
  five_rules p && rule_app_id p.

(** A stretch of trace made of log records only. *)
Definition only_logs (evs : trace) : Prop :=
  Forall (fun ev => exists r, ev = LogError r) evs.

(** A signature as a proof carries it: the element of the chain itself
    or, when the element is text, the bytes its hexadecimal digits give
    once every [0x] has been taken out of it. *)
Definition carried (element field : value) : Prop :=
  match element with
  | VStr s => exists b, fromhex (replace_0x s) = Some b /\ field = VBytes b
  | _ => field = element
  end.

End format_rules.

(** ** Concrete collaborators and inputs *)

Module inputs.

Import signature_proof.

(** The same environment with every signature chain cut after index 1. *)
Definition truncate_chain (E : Env) : Env :=
  {| encode := encode E;
     sha256 := sha256 E;
     Account_from_key := Account_from_key E;
     dstack_get_key := fun key_path key_purpose =>
       match dstack_get_key E key_path key_purpose with
       | Returns r =>
           Returns {| key := key r; signature_chain := take 2 (signature_chain r) |}
       | Fails what => Fails what
       end;
     dstack_info_app_id := dstack_info_app_id E;
     walletToTokenId := walletToTokenId E |}.

Definition zeros (n : nat) : list byte := replicate n x00.

(** Well-formed in its first five fields, with an empty [app_id]. *)
Definition proof_empty_app_id : SignatureProof.t :=
  SignatureProof.mk (VBytes (zeros 32)) (VBytes (zeros 20))
    (VBytes (zeros 65)) (VBytes (zeros 65)) (VStr "ethereum") (VBytes []).

Definition address_1 : string := "0x1111111111111111111111111111111111111111".

(** A KeyProvider and ledger answering with the given signature chain,
    application id and token id.  The digest is a stand-in of the right
    length. *)
Definition env (chain : list value) (app_id : string) (token : N) : Env :=
  {| encode := list_byte_of_string;
     sha256 := fun _ => zeros 32;
     Account_from_key := fun _ => Returns address_1;
     dstack_get_key := fun _ _ => Returns {| key := VStr "11"; signature_chain := chain |};
     dstack_info_app_id := Returns app_id;
     walletToTokenId := fun _ => Returns token |}.

Definition chain_3 : list value :=
  [VBytes (zeros 65); VStr "0xabcd"; VBytes (zeros 1)].

Definition app_id_20 : string := "0xea549f02e1a25fabd1cb788380e033ec5461b2ff".
Definition app_id_20' : string := "0xfb549f02e1a25fabd1cb788380e033ec5461b2ff".

(** 33 bytes of hex after the prefix. *)
Definition app_id_33 : string :=
  "0x" ++ "000102030405060708090a0b0c0d0e0f"
       ++ "101112131415161718191a1b1c1d1e1f" ++ "20".

Definition env_ok : Env := env chain_3 app_id_20 7.
Definition env_ok' : Env := env chain_3 app_id_20' 7.
Definition env_bad_hex : Env := env [VStr "zz"; VBytes (zeros 65)] app_id_20 7.
Definition env_long_app_id : Env := env chain_3 app_id_33 7.

(** An application id of 20 bytes as 40 hexadecimal digits, without a
    prefix, and the bytes it names. *)
Definition app_id_unprefixed : string := "ea549f02e1a25fabd1cb788380e033ec5461b2ff".

Definition app_id_bytes : list byte :=
  [ xea; x54; x9f; x02; xe1; xa2; x5f; xab; xd1; xcb;
    x78; x83; x80; xe0; x33; xec; x54; x61; xb2; xff ].

Definition env_unprefixed : Env := env chain_3 app_id_unprefixed 7.
Definition env_no_token : Env := env chain_3 app_id_20 0.

End inputs.

Module scenarios.

Import counter.

Definition me : string := "0x1111111111111111111111111111111111111111".
Definition other : string := "0x2222222222222222222222222222222222222222".

(** A ledger, RPC endpoint and peer that answer every call, with the given
    answer to [currentLeader()]. *)
Definition world (leader : outcome string) : World :=
  {| currentLeader := leader;
     getActiveInstances := Returns [];
     http_get := fun _ => Returns 200%Z;
     get_transaction_count := fun _ => Returns 7%Z;
     gas_price := Returns 1000000000%Z;
     build_transaction := fun _ _ => Returns tt;
     sign_transaction := fun _ _ => Returns (replicate 65 x00);
     send_raw_transaction := fun _ => Returns "0xa1";
     time := 1700000000%Z |}.

Definition world_me : World := world (Returns me).
Definition world_other : World := world (Returns other).
Definition world_none : World := world (Returns zero_address).
Definition world_down : World := world (Fails "connection refused").

(** The module namespace with further names imported. *)
Definition with_imports (names : list string) : gset string :=
  counter_py_globals ∪ list_to_set names.

(** A node that has just learnt it is the leader. *)
Definition st_leader : state :=
  step counter_py_globals world_me MonitorTurn (boot "n1" me).

(** The same node after one increment request. *)
Definition st_incremented : state :=
  step counter_py_globals world_me IncrementRequest st_leader.

(** The leadership flag after a sequence of polls, as the specification
    words it: each poll that reads the ledger sets the flag to whether the
    leader read is the local account; a poll that cannot read it keeps the
    flag. *)
Definition leader_flag (local : string) (turns : list World) (flag : bool) : bool :=
  fold_left
    (fun flag W =>
       match currentLeader W with
       | Returns leader => String.eqb leader local
       | Fails _ => flag
       end)
    turns flag.

(** What a poll decides: the flag to hold after it. *)
Definition polled (W : World) (c : DistributedCounter) : bool :=
  match currentLeader W with
  | Returns leader => String.eqb leader (wallet_address c)
  | Fails _ => is_leader c
  end.

(** A world in which every step of a vote submission succeeds. *)
Definition votes_go_through (W : World) : Prop :=
  (exists n, forall a, get_transaction_count W a = Returns n)
  /\ (exists g, gas_price W = Returns g)
  /\ (forall c p, build_transaction W c p = Returns tt)
  /\ (exists sig, forall tx k, sign_transaction W tx k = Returns sig)
  /\ (exists h, forall raw, send_raw_transaction W raw = Returns h).

(** The counter and its log agree: the counter is the length of the log
    and the i-th entry (from 1) records i. *)
Definition log_in_step (c : DistributedCounter) : Prop :=
  counter_value c = Z.of_nat (length (operation_log c))
  /\ forall (i : nat) (op : Operation),
       operation_log c !! i = Some op -> op_new_value op = Z.of_nat (S i).

End scenarios.

(** ** Errors beyond the first part

    The rest of the two files raises [RuntimeError] and [ValueError] with
    fixed messages, and ends the process through the argument parser. *)

Module Run.

Inductive error : Type :=
| Exn (e : exn)                       (* an exception of the first part *)
| RuntimeError (message : string)
| ValueError' (message : string)
| WalletInitFailed (cause : error)
    (* RuntimeError(f"DStack wallet initialization failed: {cause}") *)
| SystemExit (status : Z)             (* parser.error(..), argparse *)
| KeyboardInterrupt
| CancelledError.

(** What [except Exception] catches: everything but the three that derive
    from [BaseException] only. *)
Definition is_Exception (e : error) : bool :=
  match e with
  | SystemExit _ | KeyboardInterrupt | CancelledError => false
  | _ => true
  end.

Inductive answer (A : Type) : Type :=
| Value (a : A)
| Error (e : error).
Arguments Value {A} a.
Arguments Error {A} e.

Definition is_value {A} (r : answer A) : bool :=
  match r with
  | Value _ => true
  | Error _ => false
  end.

Definition of_result {A} (r : result A) : answer A :=
  match r with
  | Ok a => Value a
  | Raise e => Error (Exn e)
  end.

Definition R (S A : Type) : Type := S -> answer A * S.

Definition pure {S A} (a : A) : R S A := fun s => (Value a, s).

Definition throw {S A} (e : error) : R S A := fun s => (Error e, s).

Definition and_then {S A B} (m : R S A) (k : A -> R S B) : R S B :=
  fun s =>
    match m s with
    | (Value a, s') => k a s'
    | (Error e, s') => (Error e, s')
    end.

(** [try: m  except Exception as e: h e] *)
Definition except_Exception {S A} (m : R S A) (h : error -> R S A) : R S A :=
  fun s =>
    match m s with
    | (Value a, s') => (Value a, s')
    | (Error e, s') => if is_Exception e then h e s' else (Error e, s')
    end.

(** [try: m  except KeyboardInterrupt: h] *)
Definition except_KeyboardInterrupt {S A} (m : R S A) (h : R S A) : R S A :=
  fun s =>
    match m s with
    | (Error KeyboardInterrupt, s') => h s'
    | other => other
    end.

(** [try: m  finally: f]: [f] runs in every case; an error of [f]
    replaces the outcome of [m]. *)
Definition finally {S A} (m : R S A) (f : R S unit) : R S A :=
  fun s =>
    match m s with
    | (r, s') =>
        match f s' with
        | (Value _, s'') => (r, s'')
        | (Error e, s'') => (Error e, s'')
        end
    end.

Definition now {S A} (r : result A) : R S A := fun s => (of_result r, s).

End Run.

Export Run.

Notation "'let*' x ':=' m 'in' k" := (and_then m (fun x => k))
  (at level 10, x name, m at level 100, k at level 200).
Notation "'do*' m 'in' k" := (and_then m (fun _ => k))
  (at level 10, m at level 100, k at level 200).

(** ** signature_proof.py, the rest of the class *)

Module generator.

Import signature_proof.

(** What the module finds when it is imported and a generator is made:
    whether [dstack_sdk] could be imported, what constructing a client for
    a socket does, and the collaborators of the methods. *)
Record Host : Type := {
  DSTACK_AVAILABLE : bool;
  DstackClient : string -> outcome unit;
  env : Env
}.

(** The dict returned by [get_dstack_info]. *)
Inductive dstack_info : Type :=
| Available (app_id socket : string)
    (* {'app_id': .., 'socket': .., 'available': True} *)
| Unavailable (error : exn) (socket : string).
    (* {'error': str(e), 'socket': .., 'available': False} *)

(** The lines [test_signature_proof] prints. *)
Inductive printed : Type :=
| DstackInfoLine (info : dstack_info)
| SkippingLine
| GeneratedProofLine (proof : SignatureProof.t)
| FormatValidLine (is_valid : bool)
| CompletedLine
| TestFailedLine (e : error)
| TracebackLines.

Inductive event : Type :=
| NewDstackClient (socket : string)       (* DstackClient(socket) *)
| Method (e : signature_proof.event)      (* what a method of the class does *)
| Print (line : printed).

(** A [SignatureProofGenerator]: its socket; its client is the host's. *)
Record SignatureProofGenerator : Type := {
  dstack_socket : string
}.

Definition default_socket : string := "./simulator/dstack.sock".

(** [x or default] on an optional text: [None] and the empty text are
    false. *)
Definition or_default (x : option string) (default : string) : string :=
  match x with
  | Some s => if (String.length s =? 0)%nat then default else s
  | None => default
  end.

(** Running a method of the class, its events in order. *)
Definition method {A} (m : M signature_proof.trace A) : R (list event) A :=
  fun evs =>
    match m [] with
    | (r, tr) => (of_result r, evs ++ map Method tr)
    end.

Section Host.

Variable H : Host.

(** [__init__] *)
Definition new (dstack_socket : option string)
  : R (list event) SignatureProofGenerator :=
  if negb (DSTACK_AVAILABLE H)
  then throw (RuntimeError "DStack SDK is required but not available")
  else
    let socket := or_default dstack_socket default_socket in
    fun evs =>
      match DstackClient H socket with
      | Returns _ => (Value {| dstack_socket := socket |}, evs ++ [NewDstackClient socket])
      | Fails what => (Error (Exn (ExternalError what)), evs ++ [NewDstackClient socket])
      end.

Definition get_dstack_info (g : SignatureProofGenerator)
  : M signature_proof.trace dstack_info :=
  try_except
    (let! app_id := signature_proof.call Info (dstack_info_app_id (env H)) in
     ret (Available app_id (dstack_socket g)))
    (fun e => ret (Unavailable e (dstack_socket g))).

Definition print (line : printed) : R (list event) unit :=
  fun evs => (Value tt, evs ++ [Print line]).

(** The module-level [test_signature_proof]. *)
Definition test_signature_proof : R (list event) unit :=
  except_Exception
    (let* generator := new None in
     let* dstack_info := method (get_dstack_info generator) in
     do* print (DstackInfoLine dstack_info) in
     match dstack_info with
     | Unavailable _ _ => print SkippingLine
     | Available _ _ =>
         let* proof :=
           method (generate_proof (env H) "test-node" "test/path" "ethereum") in
         do* print (GeneratedProofLine proof) in
         let* is_valid := method (verify_proof_format proof) in
         do* print (FormatValidLine is_valid) in
         print CompletedLine
     end)
    (fun e => do* print (TestFailedLine e) in print TracebackLines).

End Host.

End generator.

(** ** counter.py, the rest of the class *)

Module service.

(** The background tasks [start] creates. *)
Inductive task : Type :=
| monitor_leader_health_task
| leader_heartbeat_task.

(** A [DistributedCounter] with the attributes the first part left out.
    [base] holds the ones modelled there. *)
Record Node : Type := {
  base : counter.DistributedCounter;
  port : Z;
  dstack_socket : option string;
  dstack_key_path : string;
  dstack_key_purpose : string;
  contract_address : string;
  token_id : option N;
  instance_id_bytes32 : value;
  leader_monitor_task : option task;
  heartbeat_task : option task
}.

Definition set_base (f : counter.DistributedCounter -> counter.DistributedCounter)
    (n : Node) : Node :=
  {| base := f (base n);
     port := port n;
     dstack_socket := dstack_socket n;
     dstack_key_path := dstack_key_path n;
     dstack_key_purpose := dstack_key_purpose n;
     contract_address := contract_address n;
     token_id := token_id n;
     instance_id_bytes32 := instance_id_bytes32 n;
     leader_monitor_task := leader_monitor_task n;
     heartbeat_task := heartbeat_task n |}.

Definition set_token_id (t : option N) (n : Node) : Node :=
  {| base := base n;
     port := port n;
     dstack_socket := dstack_socket n;
     dstack_key_path := dstack_key_path n;
     dstack_key_purpose := dstack_key_purpose n;
     contract_address := contract_address n;
     token_id := t;
     instance_id_bytes32 := instance_id_bytes32 n;
     leader_monitor_task := leader_monitor_task n;
     heartbeat_task := heartbeat_task n |}.

Definition set_instance_id_bytes32 (v : value) (n : Node) : Node :=
  {| base := base n;
     port := port n;
     dstack_socket := dstack_socket n;
     dstack_key_path := dstack_key_path n;
     dstack_key_purpose := dstack_key_purpose n;
     contract_address := contract_address n;
     token_id := token_id n;
     instance_id_bytes32 := v;
     leader_monitor_task := leader_monitor_task n;
     heartbeat_task := heartbeat_task n |}.

Definition set_leader_monitor_task (t : option task) (n : Node) : Node :=
  {| base := base n;
     port := port n;
     dstack_socket := dstack_socket n;
     dstack_key_path := dstack_key_path n;
     dstack_key_purpose := dstack_key_purpose n;
     contract_address := contract_address n;
     token_id := token_id n;
     instance_id_bytes32 := instance_id_bytes32 n;
     leader_monitor_task := t;
     heartbeat_task := heartbeat_task n |}.

Definition set_heartbeat_task (t : option task) (n : Node) : Node :=
  {| base := base n;
     port := port n;
     dstack_socket := dstack_socket n;
     dstack_key_path := dstack_key_path n;
     dstack_key_purpose := dstack_key_purpose n;
     contract_address := contract_address n;
     token_id := token_id n;
     instance_id_bytes32 := instance_id_bytes32 n;
     leader_monitor_task := leader_monitor_task n;
     heartbeat_task := t |}.

(** [self.http_client = session] *)
Definition set_http_client (h : option unit) (c : counter.DistributedCounter)
  : counter.DistributedCounter :=
  {| counter.instance_id := counter.instance_id c;
     counter.wallet_address := counter.wallet_address c;
     counter.counter_value := counter.counter_value c;
     counter.operation_log := counter.operation_log c;
     counter.is_leader := counter.is_leader c;
     counter.last_leader_heartbeat := counter.last_leader_heartbeat c;
     counter.http_client := h;
     counter.wallet_private_key := counter.wallet_private_key c |}.

(** The registration transaction. *)
Inductive Call : Type :=
| registerInstanceWithProof
    (instance_id_bytes32 : value) (token_id : N)
    (derived_public_key app_signature kms_signature purpose : value).

Record Params : Type := {
  tx_from : string;      (* 'from' *)
  tx_gas : Z;            (* 'gas' *)
  tx_nonce : Z           (* 'nonce' *)
}.

Record Transaction : Type := {
  tx_call : Call;
  tx_params : Params
}.

Record Signed : Type := {
  payload : Transaction;
  signature : list byte
}.

(** Log records; the level is the one of the logger method called. *)
Inductive log_record : Type :=
| Registering                               (* info *)
| RegisteredWithProof (tx_hash : string)    (* info *)
| ClusterSizeUpdated                        (* info *)
| ClusterSizeUpdateFailed (e : error)       (* warning *)
| RegistrationFailed (e : error)            (* error *)
| InitializingWallet (key_path key_purpose : string)   (* info *)
| ConnectedToDstack (app_id : string)       (* info *)
| WalletInitialized (address : string)      (* info *)
| KeyDerived (key_path key_purpose : string)           (* info *)
| WalletInitError (e : error)               (* error *)
| Starting (port : Z)                       (* info *)
| Started (port : Z)                        (* info *)
| ShuttingDown.                             (* info *)

Inductive event : Type :=
| Dstack (e : generator.event)
| PathExists (path : string)                (* os.path.exists(path) *)
| ImportEthereum                            (* from dstack_sdk.ethereum import .. *)
| NewWeb3 (rpc_url : string)
| NewContract (address : string)
| GetTransactionCount (account : string)
| BuildTransaction (tx : Transaction)
| SendRawTransaction (raw : Signed)
| WaitForTransactionReceipt (tx_hash : string)
| UpdateClusterSize
| TotalActiveNodes
| RequiredVotes
| CurrentLeader
| GetActiveInstances
| NewClientSession                          (* aiohttp.ClientSession() *)
| CloseClientSession                        (* http_client.close() *)
| CreateTask (t : task)                     (* asyncio.create_task(..) *)
| CancelTask (t : task)                     (* task.cancel() *)
| SetupRunner                               (* runner.setup() *)
| StartSite (host : string) (port : Z)      (* site.start() *)
| Sleep (seconds : Z)
| Log (r : log_record).

(** What was parsed from the command line. *)
Record Args : Type := {
  arg_instance_id : string;
  arg_wallet : option string;
  arg_contract : string;
  arg_rpc_url : string;
  arg_port : Z;
  arg_use_dstack : bool;
  arg_dstack_socket : option string;
  arg_dstack_key_path : option string;
  arg_dstack_key_purpose : option string
}.

(** The collaborators of the class. *)
Record World : Type := {
  host : generator.Host;
  DSTACK_AVAILABLE : bool;                  (* the flag of counter.py *)
  path_exists : string -> outcome bool;
  decode_key : signature_proof.KeyResponse -> outcome unit;
  import_ethereum : outcome unit;
  to_account_secure : signature_proof.KeyResponse -> outcome string;
                                            (* to_account_secure(r).address *)
  new_web3 : string -> outcome unit;
  new_contract : string -> outcome unit;
  check_arguments : Call -> outcome unit;
                            (* contract.functions.registerInstanceWithProof(..) *)
  get_transaction_count : string -> outcome Z;
  build_transaction : Transaction -> outcome unit;
  sign_transaction : Transaction -> outcome (list byte);
  send_raw_transaction : Signed -> outcome string;
  wait_for_transaction_receipt : string -> outcome Z;    (* receipt.status *)
  updateClusterSize : outcome unit;
  totalActiveNodes : outcome Z;
  requiredVotes : outcome Z;
  currentLeader : outcome string;
  getActiveInstances : outcome (list (list byte));
  new_client_session : outcome unit;
  close_client_session : outcome unit;
  setup_runner : outcome unit;
  start_site : Z -> outcome unit;
  interruption : nat * error;
      (* how many sleeps of the serving loop return, and what ends the next *)
  parse_args : Z + Args;                    (* exit status, or the arguments *)
  time : counter.timestamp
}.

(** [x] as a condition: [None] and the empty text are false. *)
Definition truthy_text (x : option string) : bool :=
  match x with
  | Some s => negb (String.length s =? 0)%nat
  | None => false
  end.

(** The text of an argument known to be given. *)
Definition text_of (x : option string) : string :=
  match x with
  | Some s => s
  | None => ""
  end.

(** [b.hex()] *)
Definition hex_char (n : N) : ascii :=
  if (n <? 10)%N then ascii_of_N (48 + n) else ascii_of_N (87 + n).

Fixpoint bytes_hex (b : list byte) : string :=
  match b with
  | [] => ""
  | x :: rest =>
      let n := Byte.to_N x in
      String (hex_char (n / 16)) (String (hex_char (n mod 16)) (bytes_hex rest))
  end.

(** The dict of [get_wallet_info]. *)
Record WalletInfo : Type := {
  info_type : string;          (* 'type' *)
  info_address : string;       (* 'address' *)
  info_key_path : string;      (* 'key_path' *)
  info_key_purpose : string;   (* 'key_purpose' *)
  info_socket : string         (* 'socket' *)
}.

(** What the handlers pass to [web.json_response]. *)
Inductive Body : Type :=
| CounterBody (value : Z) (instance_id : string) (is_leader : bool)
| LogBody (operations : list counter.Operation) (total_operations : nat)
| StatusBody (instance_id wallet_address : string) (is_leader : bool)
    (counter_value total_active_nodes required_votes : Z)
    (current_leader : string) (last_leader_heartbeat : counter.timestamp)
| MembersBody (active_instances : list string) (total_active : nat)
| HealthBody (status instance_id : string) (timestamp : counter.timestamp)
| WalletInfoBody (info : WalletInfo)
| ErrorBody (error : error).             (* {'error': str(e)} *)

Record Response : Type := {
  body : Body;
  status : Z
}.

Record state : Type := {
  self : Node;
  events : list event
}.

Definition emit (ev : event) : R state unit :=
  fun st => (Value tt, {| self := self st; events := events st ++ [ev] |}).

Definition log (r : log_record) : R state unit := emit (Log r).

(** A call to a collaborator: recorded, then its outcome. *)
Definition ext {A} (ev : event) (o : outcome A) : R state A :=
  fun st =>
    (of_result (of_outcome o),
     {| self := self st; events := events st ++ [ev] |}).

(** A call that stays in the process. *)
Definition local {S A} (o : outcome A) : R S A :=
  fun st => (of_result (of_outcome o), st).

Definition update (f : Node -> Node) : R state unit :=
  fun st => (Value tt, {| self := f (self st); events := events st |}).

Definition read {A} (f : Node -> A) : R state A :=
  fun st => (Value (f (self st)), st).

(** Running code of signature_proof.py, its events in order. *)
Definition dstack {A} (m : R (list generator.event) A) : R state A :=
  fun st =>
    match m [] with
    | (r, evs) =>
        (r, {| self := self st; events := events st ++ map Dstack evs |})
    end.

Section Methods.

Variable G : gset string.
Variable W : World.

(** Looking up a global name whose binding is not certain: [os], [time],
    [aiohttp] and [web], which the module does not import, and
    [DstackClient], which it binds only when [dstack_sdk] can be imported.
    The turns of the two background tasks, which run while [start] awaits,
    are the activities of module [counter]; here [start] is followed for
    what it does itself. *)
Definition lookup {S} (name : string) : R S unit :=
  if decide (name ∈ G) then pure tt else throw (Exn (NameError name)).

Definition register_instance : R state unit :=
  do* log Registering in
  except_Exception
    (let* socket := read dstack_socket in
     let* proof_generator := dstack (generator.new (host W) socket) in
     let* wallet_address := read (fun n => counter.wallet_address (base n)) in
     let* instance_id := read (fun n => counter.instance_id (base n)) in
     let* key_path := read dstack_key_path in
     let* key_purpose := read dstack_key_purpose in
     let* registration_data :=
       dstack (generator.method
                 (signature_proof.get_registration_data
                    (generator.env (host W))
                    wallet_address instance_id key_path key_purpose)) in
     do* update (set_token_id
                   (Some (signature_proof.RegistrationData.token_id registration_data))) in
     do* update (set_instance_id_bytes32
                   (signature_proof.RegistrationData.instance_id_bytes32
                      registration_data)) in
     let call :=
       registerInstanceWithProof
         (signature_proof.RegistrationData.instance_id_bytes32 registration_data)
         (signature_proof.RegistrationData.token_id registration_data)
         (signature_proof.RegistrationData.derived_public_key registration_data)
         (signature_proof.RegistrationData.app_signature registration_data)
         (signature_proof.RegistrationData.kms_signature registration_data)
         (signature_proof.RegistrationData.purpose registration_data) in
     do* local (check_arguments W call) in
     let* nonce :=
       ext (GetTransactionCount wallet_address)
           (get_transaction_count W wallet_address) in
     let tx :=
       {| tx_call := call;
          tx_params := {| tx_from := wallet_address; tx_gas := 500000;
                          tx_nonce := nonce |} |} in
     do* ext (BuildTransaction tx) (build_transaction W tx) in
     let* signature := local (sign_transaction W tx) in
     let raw_tx := {| payload := tx; signature := signature |} in
     let* tx_hash := ext (SendRawTransaction raw_tx) (send_raw_transaction W raw_tx) in
     let* receipt_status :=
       ext (WaitForTransactionReceipt tx_hash)
           (wait_for_transaction_receipt W tx_hash) in
     do* (if (receipt_status =? 1)%Z
          then log (RegisteredWithProof tx_hash)
          else throw (RuntimeError "Registration with proof failed")) in
     except_Exception
       (do* ext UpdateClusterSize (updateClusterSize W) in
        log ClusterSizeUpdated)
       (fun e => log (ClusterSizeUpdateFailed e)))
    (fun e => do* log (RegistrationFailed e) in throw e).

(** *** The HTTP handlers *)

Definition get_counter : R state Response :=
  do* lookup "web" in
  let* c := read base in
  pure {| body := CounterBody (counter.counter_value c) (counter.instance_id c)
                    (counter.is_leader c);
          status := 200 |}.

Definition get_log : R state Response :=
  do* lookup "web" in
  let* c := read base in
  pure {| body := LogBody (counter.operation_log c)
                    (length (counter.operation_log c));
          status := 200 |}.

Definition get_status : R state Response :=
  except_Exception
    (let* total_nodes := ext TotalActiveNodes (totalActiveNodes W) in
     let* required_votes := ext RequiredVotes (requiredVotes W) in
     let* current_leader := ext CurrentLeader (currentLeader W) in
     do* lookup "web" in
     let* c := read base in
     pure {| body := StatusBody (counter.instance_id c) (counter.wallet_address c)
                       (counter.is_leader c) (counter.counter_value c)
                       total_nodes required_votes current_leader
                       (counter.last_leader_heartbeat c);
             status := 200 |})
    (fun e =>
       do* lookup "web" in
       pure {| body := ErrorBody e; status := 500 |}).

Definition get_members : R state Response :=
  except_Exception
    (let* active_instances := ext GetActiveInstances (getActiveInstances W) in
     do* lookup "web" in
     pure {| body := MembersBody (map bytes_hex active_instances)
                       (length active_instances);
             status := 200 |})
    (fun e =>
       do* lookup "web" in
       pure {| body := ErrorBody e; status := 500 |}).

Definition health_check : R state Response :=
  do* lookup "web" in
  let* c := read base in
  do* lookup "time" in
  pure {| body := HealthBody "healthy" (counter.instance_id c) (time W);
          status := 200 |}.

(** [get_wallet_info]: a dict built from attributes. *)
Definition get_wallet_info (n : Node) : WalletInfo :=
  {| info_type := "dstack";
     info_address := counter.wallet_address (base n);
     info_key_path := dstack_key_path n;
     info_key_purpose := dstack_key_purpose n;
     info_socket := generator.or_default (dstack_socket n) generator.default_socket |}.

Definition get_wallet_info_endpoint : R state Response :=
  do* lookup "web" in
  let* n := read (fun n => n) in
  pure {| body := WalletInfoBody (get_wallet_info n); status := 200 |}.

(** *** Construction *)

(** [_init_dstack_wallet]: the wallet address derived, or the error of the
    initialisation wrapped in a [RuntimeError]. *)
Definition _init_dstack_wallet
    (dstack_socket : option string) (dstack_key_path dstack_key_purpose : string)
  : R (list event) string :=
  let emit' (ev : event) : R (list event) unit :=
    fun evs => (Value tt, evs ++ [ev]) in
  let ext' {A} (ev : event) (o : outcome A) : R (list event) A :=
    fun evs => (of_result (of_outcome o), evs ++ [ev]) in
  except_Exception
    (do* emit' (Log (InitializingWallet dstack_key_path dstack_key_purpose)) in
     do* (if truthy_text dstack_socket
          then
            do* lookup "DstackClient" in
            ext' (Dstack (generator.NewDstackClient (text_of dstack_socket)))
                 (generator.DstackClient (host W) (text_of dstack_socket))
          else
            do* lookup "os" in
            let* found :=
              ext' (PathExists generator.default_socket)
                   (path_exists W generator.default_socket) in
            if found
            then
              do* lookup "DstackClient" in
              ext' (Dstack (generator.NewDstackClient generator.default_socket))
                   (generator.DstackClient (host W) generator.default_socket)
            else
              throw (ValueError'
                       "No dstack socket specified and ./simulator/dstack.sock not found")) in
     let* app_id :=
       ext' (Dstack (generator.Method signature_proof.Info))
            (signature_proof.dstack_info_app_id (generator.env (host W))) in
     do* emit' (Log (ConnectedToDstack app_id)) in
     let* key_response :=
       ext' (Dstack (generator.Method
                       (signature_proof.GetKey dstack_key_path dstack_key_purpose)))
            (signature_proof.dstack_get_key (generator.env (host W))
               dstack_key_path dstack_key_purpose) in
     do* local (decode_key W key_response) in
     do* ext' ImportEthereum (import_ethereum W) in
     let* wallet_address := local (to_account_secure W key_response) in
     do* emit' (Log (WalletInitialized wallet_address)) in
     do* emit' (Log (KeyDerived dstack_key_path dstack_key_purpose)) in
     pure wallet_address)
    (fun e =>
       do* emit' (Log (WalletInitError e)) in
       throw (WalletInitFailed e)).

(** [__init__].  [Web3(..)] and the middleware injection are one call to
    the collaborator, [w3.eth.contract(..)] another.  [bytes32] is [bytes]
    when [web3.types] has no such name, and [bytes(0)] is the empty
    bytes. *)
Definition __init__
    (instance_id : string) (contract_address : option string)
    (rpc_url : string) (port : Z)
    (dstack_socket dstack_key_path dstack_key_purpose : option string)
  : R (list event) Node :=
  let key_path := generator.or_default dstack_key_path ("node/" ++ instance_id) in
  let key_purpose := generator.or_default dstack_key_purpose "ethereum" in
  let* wallet_address := _init_dstack_wallet dstack_socket key_path key_purpose in
  if negb (truthy_text contract_address)
  then throw (ValueError' "contract_address is required")
  else
    do* (fun evs =>
           (of_result (of_outcome (new_web3 W rpc_url)), evs ++ [NewWeb3 rpc_url])) in
    do* (fun evs =>
           (of_result (of_outcome (new_contract W (text_of contract_address))),
            evs ++ [NewContract (text_of contract_address)])) in
    pure {| base :=
              {| counter.instance_id := instance_id;
                 counter.wallet_address := wallet_address;
                 counter.counter_value := 0;
                 counter.operation_log := [];
                 counter.is_leader := false;
                 counter.last_leader_heartbeat := 0%Z;
                 counter.http_client := None;
                 counter.wallet_private_key := None |};
            port := port;
            dstack_socket := dstack_socket;
            dstack_key_path := key_path;
            dstack_key_purpose := key_purpose;
            contract_address := text_of contract_address;
            token_id := None;
            instance_id_bytes32 := VBytes [];
            leader_monitor_task := None;
            heartbeat_task := None |}.

(** *** Running the service *)

Definition cleanup : R state unit :=
  let* monitor := read leader_monitor_task in
  do* (match monitor with
       | Some t => emit (CancelTask t)
       | None => pure tt
       end) in
  let* heartbeat := read heartbeat_task in
  do* (match heartbeat with
       | Some t => emit (CancelTask t)
       | None => pure tt
       end) in
  let* client := read (fun n => counter.http_client (base n)) in
  match client with
  | Some _ => ext CloseClientSession (close_client_session W)
  | None => pure tt
  end.

(** [while True: await asyncio.sleep(1)]: the sleeps that return, then the
    one that is interrupted. *)
Fixpoint serve (sleeps : nat) (interrupted_by : error) : R state unit :=
  match sleeps with
  | O => do* emit (Sleep 1) in throw interrupted_by
  | S n => do* emit (Sleep 1) in serve n interrupted_by
  end.

Definition start : R state unit :=
  let* port := read port in
  do* log (Starting port) in
  do* lookup "aiohttp" in
  do* ext NewClientSession (new_client_session W) in
  do* update (set_base (set_http_client (Some tt))) in
  do* emit (CreateTask monitor_leader_health_task) in
  do* update (set_leader_monitor_task (Some monitor_leader_health_task)) in
  do* emit (CreateTask leader_heartbeat_task) in
  do* update (set_heartbeat_task (Some leader_heartbeat_task)) in
  do* lookup "web" in
  do* ext SetupRunner (setup_runner W) in
  do* ext (StartSite "0.0.0.0" port) (start_site W port) in
  do* log (Started port) in
  do* register_instance in
  finally
    (except_KeyboardInterrupt
       (serve (fst (interruption W)) (snd (interruption W)))
       (log ShuttingDown))
    cleanup.

(** The parameters of [__init__] after [self], and the keywords [main]
    passes to it. *)
Definition __init___parameters : list string :=
  [ "instance_id"; "contract_address"; "rpc_url"; "port";
    "dstack_socket"; "dstack_key_path"; "dstack_key_purpose" ].

Definition main_keywords : list string :=
  [ "instance_id"; "wallet_private_key"; "contract_address"; "rpc_url";
    "port"; "use_dstack"; "dstack_socket"; "dstack_key_path";
    "dstack_key_purpose" ].

(** A call by keywords raises [TypeError] when a keyword names no
    parameter, before the body runs. *)
Definition accepts (parameters keywords : list string) : bool :=
  forallb (fun k => existsb (String.eqb k) parameters) keywords.

Definition main : R (list event) unit :=
  match parse_args W with
  | inl exit_status => throw (SystemExit exit_status)
  | inr args =>
      if (negb (arg_use_dstack args) && negb (truthy_text (arg_wallet args)))%bool
      then throw (SystemExit 2)
      else if (arg_use_dstack args && negb (DSTACK_AVAILABLE W))%bool
      then throw (SystemExit 2)
      else
        if negb (accepts __init___parameters main_keywords)
        then throw (Exn TypeError)
        else
          let* counter :=
            __init__ (arg_instance_id args) (Some (arg_contract args))
              (arg_rpc_url args) (arg_port args) (arg_dstack_socket args)
              (arg_dstack_key_path args) (arg_dstack_key_purpose args) in
          fun evs =>
            match start {| self := counter; events := evs |} with
            | (r, st) => (r, events st)
            end
  end.

End Methods.

End service.

(** ** Concrete collaborators of the rest of the class *)

Module service_inputs.

Import service.

Definition host_for (available : bool) (E : signature_proof.Env) : generator.Host :=
  {| generator.DSTACK_AVAILABLE := available;
     generator.DstackClient := fun _ => Returns tt;
     generator.env := E |}.

Definition host_ok : generator.Host := host_for true inputs.env_ok.

(** Collaborators that answer every call; the receipt status, the answer
    of [updateClusterSize], what interrupts the serving loop and the
    parsed command line are given. *)
Definition world_for
    (h : generator.Host) (receipt_status : Z) (cluster : outcome unit)
    (interrupt : nat * error) (argv : Z + Args) : World :=
  {| host := h;
     DSTACK_AVAILABLE := true;
     path_exists := fun _ => Returns true;
     decode_key := fun _ => Returns tt;
     import_ethereum := Returns tt;
     to_account_secure := fun _ => Returns scenarios.me;
     new_web3 := fun _ => Returns tt;
     new_contract := fun _ => Returns tt;
     check_arguments := fun _ => Returns tt;
     get_transaction_count := fun _ => Returns 3%Z;
     build_transaction := fun _ => Returns tt;
     sign_transaction := fun _ => Returns (replicate 65 x01);
     send_raw_transaction := fun _ => Returns "0xb2";
     wait_for_transaction_receipt := fun _ => Returns receipt_status;
     updateClusterSize := cluster;
     totalActiveNodes := Returns 3%Z;
     requiredVotes := Returns 2%Z;
     currentLeader := Returns scenarios.other;
     getActiveInstances := Returns [[xab; xcd]; [x01; x02]];
     new_client_session := Returns tt;
     close_client_session := Returns tt;
     setup_runner := Returns tt;
     start_site := fun _ => Returns tt;
     interruption := interrupt;
     parse_args := argv;
     time := 1700000000%Z |}.

Definition args_1 : Args :=
  {| arg_instance_id := "n1";
     arg_wallet := None;
     arg_contract := "0x5FbDB2315678afecb367f032d93F642f64180aa3";
     arg_rpc_url := "http://localhost:8545";
     arg_port := 8080;
     arg_use_dstack := true;
     arg_dstack_socket := Some "/var/run/dstack.sock";
     arg_dstack_key_path := None;
     arg_dstack_key_purpose := None |}.

Definition world_ok : World :=
  world_for host_ok 1 (Returns tt) (2, KeyboardInterrupt) (inr args_1).

Definition world_reverted : World :=
  world_for host_ok 0 (Returns tt) (2, KeyboardInterrupt) (inr args_1).

Definition world_no_token : World :=
  world_for (host_for true inputs.env_no_token) 1 (Returns tt)
    (2, KeyboardInterrupt) (inr args_1).

(** A node as [__init__] leaves it. *)
Definition node_1 : Node :=
  {| base := counter.init "n1" scenarios.me;
     port := 8080;
     dstack_socket := Some "/var/run/dstack.sock";
     dstack_key_path := "node/n1";
     dstack_key_purpose := "ethereum";
     contract_address := "0x5FbDB2315678afecb367f032d93F642f64180aa3";
     token_id := None;
     instance_id_bytes32 := VBytes [];
     leader_monitor_task := None;
     heartbeat_task := None |}.

Definition fresh (n : Node) : state := {| self := n; events := [] |}.

(** The transactions sent, among the events. *)
Definition sent (evs : list event) : list Signed :=
  omap (fun ev =>
          match ev with
          | SendRawTransaction raw => Some raw
          | _ => None
          end) evs.

(** The calls to the ledger and to the RPC endpoint among the events. *)
Definition is_ledger_call (ev : event) : bool :=
  match ev with
  | GetTransactionCount _ | BuildTransaction _ | SendRawTransaction _
  | WaitForTransactionReceipt _ | UpdateClusterSize | TotalActiveNodes
  | RequiredVotes | CurrentLeader | GetActiveInstances
  | Dstack (generator.Method (signature_proof.WalletToTokenId _)) => true
  | _ => false
  end.

(** What [register_instance] asks of signature_proof.py for a node, and
    the transaction that carries registration data. *)
Definition registration_data (W : World) (n : Node) :=
  signature_proof.get_registration_data (generator.env (host W))
    (counter.wallet_address (base n)) (counter.instance_id (base n))
    (dstack_key_path n) (dstack_key_purpose n) [].

Definition registration_call (rd : signature_proof.RegistrationData.t) : Call :=
  registerInstanceWithProof
    (signature_proof.RegistrationData.instance_id_bytes32 rd)
    (signature_proof.RegistrationData.token_id rd)
    (signature_proof.RegistrationData.derived_public_key rd)
    (signature_proof.RegistrationData.app_signature rd)
    (signature_proof.RegistrationData.kms_signature rd)
    (signature_proof.RegistrationData.purpose rd).

Definition registration_tx (n : Node) (rd : signature_proof.RegistrationData.t)
    (nonce : Z) : Transaction :=
  {| tx_call := registration_call rd;
     tx_params := {| tx_from := counter.wallet_address (base n);
                     tx_gas := 500000;
                     tx_nonce := nonce |} |}.

(** The node once registration data is stored in it. *)
Definition registered (rd : signature_proof.RegistrationData.t) (n : Node) : Node :=
  set_instance_id_bytes32 (signature_proof.RegistrationData.instance_id_bytes32 rd)
    (set_token_id (Some (signature_proof.RegistrationData.token_id rd)) n).

(** The socket a generator made for the node uses. *)
Definition generator_socket (n : Node) : string :=
  generator.or_default (dstack_socket n) generator.default_socket.

(** The state in which [start] calls [register_instance]: the client
    session and the two tasks are held, the site is started. *)
Definition started (st : state) : state :=
  {| self :=
       set_heartbeat_task (Some leader_heartbeat_task)
         (set_leader_monitor_task (Some monitor_leader_health_task)
            (set_base (set_http_client (Some tt)) (self st)));
     events :=
       events st ++
       [ Log (Starting (port (self st)));
         NewClientSession;
         CreateTask monitor_leader_health_task;
         CreateTask leader_heartbeat_task;
         SetupRunner;
         StartSite "0.0.0.0" (port (self st));
         Log (Started (port (self st))) ] |}.

(** What ends the serving loop: [KeyboardInterrupt] is caught. *)
Definition interrupted (e : error) : answer unit * list event :=
  match e with
  | KeyboardInterrupt => (Value tt, [Log ShuttingDown])
  | _ => (Error e, [])
  end.

End service_inputs.

(** * The Python fragment on examples *)

Example fromhex_pairs : fromhex "ab cd" = Some [xab; xcd].
Proof. reflexivity. Qed.

Example fromhex_surrounding_space : fromhex " AbCd " = Some [xab; xcd].
Proof. reflexivity. Qed.

Example fromhex_split_byte : fromhex "a b" = None.
Proof. reflexivity. Qed.

Example fromhex_odd : fromhex "abc" = None.
Proof. reflexivity. Qed.

Example fromhex_prefix : bytes_fromhex "0xab" = Raise ValueError.
Proof. reflexivity. Qed.

Example replace_0x_everywhere : replace_0x "0x000x1" = "001".
Proof. reflexivity. Qed.

Example replace_0x_inside : replace_0x "100x" = "10".
Proof. reflexivity. Qed.

Example str_from_prefix : str_from 2 "0xabcd" = "abcd".
Proof. reflexivity. Qed.

Example str_from_no_prefix : str_from 2 "abcd" = "cd".
Proof. reflexivity. Qed.

Example str_from_short : str_from 2 "a" = "".
Proof. reflexivity. Qed.

Example ljust_pads : ljust 4 x00 [xab; xcd] = [xab; xcd; x00; x00].
Proof. reflexivity. Qed.

Example ljust_keeps_longer : ljust 1 x00 [xab; xcd] = [xab; xcd].
Proof. reflexivity. Qed.

(** * Properties of signature_proof.py *)

Import signature_proof format_rules inputs.

Ltac unfold_m :=
  unfold try_except, bind, lift, ret, raise, signature_proof.call, subscript in *.

Lemma is_empty_run v tr :
  is_empty v tr =
    match len v with
    | Ok n => (Ok (n =? 0)%nat, tr)
    | Raise e => if truthy v then (Raise e, tr) else (Ok true, tr)
    end.
Proof.
  destruct v as [b|s|z|]; unfold is_empty; cbn; try reflexivity.
  - destruct (length b); reflexivity.
  - destruct (String.length s); reflexivity.
  - destruct (z =? 0)%Z; reflexivity.
Qed.

Ltac logged := eexists; split; [reflexivity | repeat constructor; eauto].

(** The run of [verify_proof_format]: it returns, its result is the
    conjunction of the six rules, and it only adds log records. *)
Lemma verify_proof_format_run p tr :
  exists logs,
    verify_proof_format p tr = (Ok (six_rules p), tr ++ logs) /\ only_logs logs.
Proof.
  destruct p as [iid pk asig ksig pur aid].
  unfold verify_proof_format, try_except, bind, lift, six_rules, five_rules,
    rule_instance_id_hash, rule_derived_public_key, rule_app_signature,
    rule_kms_signature, rule_purpose, rule_app_id, length_is, log_error, ret.
  cbn [SignatureProof.instance_id_bytes32 SignatureProof.derived_public_key
       SignatureProof.app_signature SignatureProof.kms_signature
       SignatureProof.purpose SignatureProof.app_id].
  cbv beta. destruct (len iid) as [n1|e1]; [|logged].
  destruct (n1 =? 32)%nat; cbn [negb andb]; [|logged].
  destruct (len pk) as [n2|e2]; [|logged].
  destruct (n2 =? 20)%nat; cbn [negb andb]; [|logged].
  destruct (len asig) as [n3|e3]; [|logged].
  rewrite (Nat.leb_antisym n3 65).
  destruct (n3 <? 65)%nat; cbn [negb andb]; [logged|].
  destruct (len ksig) as [n4|e4]; [|logged].
  rewrite (Nat.leb_antisym n4 65).
  destruct (n4 <? 65)%nat; cbn [negb andb]; [logged|].
  cbv beta. rewrite is_empty_run.
  destruct (len pur) as [n5|e5].
  2:{ destruct (truthy pur); logged. }
  destruct (n5 =? 0)%nat; cbn [negb andb]; [logged|].
  cbv beta. rewrite is_empty_run.
  destruct (len aid) as [n6|e6].
  2:{ destruct (truthy aid); logged. }
  destruct (n6 =? 0)%nat; cbn [negb andb]; [logged|].
  exists []. rewrite app_nil_r. split; [reflexivity|constructor].
Qed.

(** C1, as stated, fails: a proof that meets the five listed rules and has
    an empty [app_id] is rejected. *)
Lemma verify_proof_format_five_rules_counterexample :
  five_rules proof_empty_app_id = true
  /\ fst (verify_proof_format proof_empty_app_id []) = Ok false.
Proof. split; reflexivity. Qed.

(** C1, amended: [verify_proof_format] returns false if and only if at
    least one of six rules is violated, the five listed ones or a
    non-empty [app_id], and it returns true if and only if all six hold:
    every proof that meets the six rules is accepted. *)
Theorem verify_proof_format_false_iff (p : SignatureProof.t) (tr : trace) :
  (fst (verify_proof_format p tr) = Ok false
   <-> (rule_instance_id_hash p = false
        \/ rule_derived_public_key p = false
        \/ rule_app_signature p = false
        \/ rule_kms_signature p = false
        \/ rule_purpose p = false
        \/ rule_app_id p = false))
  /\ (fst (verify_proof_format p tr) = Ok true
      <-> (rule_instance_id_hash p = true
           /\ rule_derived_public_key p = true
           /\ rule_app_signature p = true
           /\ rule_kms_signature p = true
           /\ rule_purpose p = true
           /\ rule_app_id p = true)).
Proof.
  destruct (verify_proof_format_run p tr) as (logs & -> & _). cbn [fst].
  unfold six_rules, five_rules.
  destruct (rule_instance_id_hash p), (rule_derived_public_key p),
    (rule_app_signature p), (rule_kms_signature p), (rule_purpose p),
    (rule_app_id p); cbn; intuition congruence.
Qed.

(** C2: [verify_proof_format] is total and lets no exception escape: on
    every proof it returns a boolean after adding only log records to the
    trace, and the boolean is true exactly when all six rules hold. *)
Theorem verify_proof_format_total (p : SignatureProof.t) (tr : trace) :
  exists (b : bool) (logs : trace),
    verify_proof_format p tr = (Ok b, tr ++ logs)
    /\ only_logs logs
    /\ (b = true
        <-> (rule_instance_id_hash p = true
             /\ rule_derived_public_key p = true
             /\ rule_app_signature p = true
             /\ rule_kms_signature p = true
             /\ rule_purpose p = true
             /\ rule_app_id p = true)).
Proof.
  destruct (verify_proof_format_run p tr) as (logs & Hrun & Hlogs).
  exists (six_rules p), logs. split; [exact Hrun|]. split; [exact Hlogs|].
  unfold six_rules, five_rules. rewrite !andb_true_iff. tauto.
Qed.

(** ** generate_proof *)

(** What a successful [generate_proof] went through. *)
Lemma generate_proof_ok E i kp pu tr p tr' :
  generate_proof E i kp pu tr = (Ok p, tr') ->
  exists kr a k rest asig ksig addr pk aid ab,
    dstack_get_key E kp pu = Returns kr /\
    signature_chain kr = a :: k :: rest /\
    ensure_bytes a = Ok asig /\
    ensure_bytes k = Ok ksig /\
    Account_from_key E (key kr) = Returns addr /\
    bytes_fromhex (str_from 2 addr) = Ok pk /\
    dstack_info_app_id E = Returns aid /\
    bytes_fromhex (str_from 2 aid) = Ok ab /\
    p = SignatureProof.mk (VBytes (sha256 E (encode E i))) (VBytes pk)
          asig ksig (VStr pu) (VBytes (ljust 32 x00 ab)) /\
    tr' = tr ++ [GetKey kp pu; Info].
Proof.
  intros H. unfold generate_proof in H. unfold_m.
  destruct (dstack_get_key E kp pu) as [kr|w] eqn:Hk; cbn in H; [|discriminate H].
  destruct (signature_chain kr) as [|a [|k rest]] eqn:Hc; cbn in H; try discriminate H.
  destruct (ensure_bytes a) as [asig|] eqn:Ha; cbn in H; [|discriminate H].
  destruct (ensure_bytes k) as [ksig|] eqn:Hks; cbn in H; [|discriminate H].
  destruct (Account_from_key E (key kr)) as [addr|] eqn:Hacc; cbn in H; [|discriminate H].
  destruct (bytes_fromhex (str_from 2 addr)) as [pk|] eqn:Hpk; cbn in H; [|discriminate H].
  destruct (dstack_info_app_id E) as [aid|] eqn:Hi; cbn in H; [|discriminate H].
  destruct (bytes_fromhex (str_from 2 aid)) as [ab|] eqn:Hab; cbn in H; [|discriminate H].
  injection H as <- <-.
  exists kr, a, k, rest, asig, ksig, addr, pk, aid, ab.
  rewrite <- app_assoc. repeat split; first [reflexivity | assumption].
Qed.

Lemma ensure_bytes_not_insufficient v n :
  ensure_bytes v <> Raise (InsufficientChain n).
Proof.
  destruct v; cbn; try discriminate.
  unfold bytes_fromhex. destruct (fromhex _); discriminate.
Qed.

(** The insufficient-chain error is raised for chains shorter than 2 and
    by nothing else. *)
Lemma generate_proof_insufficient E i kp pu tr kr n :
  dstack_get_key E kp pu = Returns kr ->
  (fst (generate_proof E i kp pu tr) = Raise (InsufficientChain n)
   <-> (length (signature_chain kr) < 2 /\ n = length (signature_chain kr))).
Proof.
  intros Hk. unfold generate_proof. unfold_m. rewrite Hk. cbn.
  destruct (signature_chain kr) as [|a [|k rest]] eqn:Hc; cbn.
  - split; [intros [= <-]; split; [lia|reflexivity] | intros [_ ->]; reflexivity].
  - split; [intros [= <-]; split; [lia|reflexivity] | intros [_ ->]; reflexivity].
  - split; [|intros [H _]; lia].
    destruct (ensure_bytes a) as [asig|] eqn:Ha; cbn.
    2:{ intros [= ->]. exfalso. eapply ensure_bytes_not_insufficient; eauto. }
    destruct (ensure_bytes k) as [ksig|] eqn:Hks; cbn.
    2:{ intros [= ->]. exfalso. eapply ensure_bytes_not_insufficient; eauto. }
    destruct (Account_from_key E (key kr)) as [addr|]; cbn; [|intros [=]].
    unfold bytes_fromhex.
    destruct (fromhex (str_from 2 addr)); cbn; [|intros [=]].
    destruct (dstack_info_app_id E) as [aid|]; cbn; [|intros [=]].
    destruct (fromhex (str_from 2 aid)); cbn; intros [=].
Qed.

(** Elements beyond index 1 play no role. *)
Lemma generate_proof_truncate_chain E i kp pu tr kr :
  dstack_get_key E kp pu = Returns kr ->
  2 <= length (signature_chain kr) ->
  generate_proof (truncate_chain E) i kp pu tr = generate_proof E i kp pu tr.
Proof.
  intros Hk Hlen. unfold generate_proof. unfold_m. cbn. rewrite Hk. cbn.
  destruct (signature_chain kr) as [|a [|k rest]]; cbn in *; try lia.
  reflexivity.
Qed.

(** The first thing [generate_proof] does is to ask the KeyProvider for
    the key. *)
Lemma generate_proof_trace E i kp pu tr :
  exists later, snd (generate_proof E i kp pu tr) = tr ++ GetKey kp pu :: later.
Proof.
  unfold generate_proof. unfold_m.
  destruct (dstack_get_key E kp pu) as [kr|w]; cbn; [|exists []; reflexivity].
  destruct (signature_chain kr) as [|a [|k rest]]; cbn;
    try (exists []; reflexivity).
  destruct (ensure_bytes a); cbn; [|exists []; reflexivity].
  destruct (ensure_bytes k); cbn; [|exists []; reflexivity].
  destruct (Account_from_key E (key kr)); cbn; [|exists []; reflexivity].
  destruct (bytes_fromhex (str_from 2 _)); cbn; [|exists []; reflexivity].
  destruct (dstack_info_app_id E); cbn;
    [|exists [Info]; rewrite <- app_assoc; reflexivity].
  destruct (bytes_fromhex (str_from 2 _)); cbn;
    exists [Info]; rewrite <- app_assoc; reflexivity.
Qed.

(** C3, as stated, fails: a chain of length 2 whose first element is text
    that is not hexadecimal makes [generate_proof] raise [ValueError]. *)
Lemma generate_proof_length_2_counterexample :
  dstack_get_key env_bad_hex "node/n1" "ethereum"
    = Returns {| key := VStr "11";
                 signature_chain := [VStr "zz"; VBytes (zeros 65)] |}
  /\ fst (generate_proof env_bad_hex "n1" "node/n1" "ethereum" []) = Raise ValueError.
Proof. split; reflexivity. Qed.

Lemma ensure_bytes_carried (element field : value) :
  ensure_bytes element = Ok field <-> carried element field.
Proof.
  destruct element as [b|s|z|]; cbn.
  - split; [intros [= <-]; reflexivity | intros ->; reflexivity].
  - unfold bytes_fromhex. destruct (fromhex (replace_0x s)) as [b|].
    + split; [intros [= <-]; exists b; split; reflexivity|].
      intros (b' & [= <-] & ->). reflexivity.
    + split; [intros H; discriminate H | intros (b' & H & _); discriminate H].
  - split; [intros [= <-]; reflexivity | intros ->; reflexivity].
  - split; [intros [= <-]; reflexivity | intros ->; reflexivity].
Qed.

(** [generate_proof] on a chain of at least two elements: it returns
    exactly when each later step does. *)
Lemma generate_proof_returns E i kp pu tr kr a k rest :
  dstack_get_key E kp pu = Returns kr ->
  signature_chain kr = a :: k :: rest ->
  is_ok (fst (generate_proof E i kp pu tr)) = true
  <-> ((exists asig, carried a asig)
       /\ (exists ksig, carried k ksig)
       /\ (exists addr pk,
             Account_from_key E (key kr) = Returns addr
             /\ fromhex (str_from 2 addr) = Some pk)
       /\ (exists aid ab,
             dstack_info_app_id E = Returns aid
             /\ fromhex (str_from 2 aid) = Some ab)).
Proof.
  intros Hk Hc. unfold generate_proof. unfold_m. rewrite Hk. cbn. rewrite Hc. cbn.
  destruct (ensure_bytes a) as [asig|e] eqn:Ha; cbn.
  2:{ split; [intros H; discriminate H|].
      intros ((asig & Hasig) & _). apply ensure_bytes_carried in Hasig.
      rewrite Hasig in Ha. discriminate Ha. }
  destruct (ensure_bytes k) as [ksig|e] eqn:Hks; cbn.
  2:{ split; [intros H; discriminate H|].
      intros (_ & (ksig & Hksig) & _). apply ensure_bytes_carried in Hksig.
      rewrite Hksig in Hks. discriminate Hks. }
  apply ensure_bytes_carried in Ha, Hks.
  destruct (Account_from_key E (key kr)) as [addr|what]; cbn.
  2:{ split; [intros H; discriminate H|].
      intros (_ & _ & (addr & pk & H & _) & _). discriminate H. }
  unfold bytes_fromhex.
  destruct (fromhex (str_from 2 addr)) as [pk|] eqn:Hpk; cbn.
  2:{ split; [intros H; discriminate H|].
      intros (_ & _ & (addr' & pk & [= <-] & H) & _).
      rewrite Hpk in H. discriminate H. }
  destruct (dstack_info_app_id E) as [aid|what]; cbn.
  2:{ split; [intros H; discriminate H|].
      intros (_ & _ & _ & (aid & ab & H & _)). discriminate H. }
  destruct (fromhex (str_from 2 aid)) as [ab|] eqn:Hab; cbn.
  2:{ split; [intros H; discriminate H|].
      intros (_ & _ & _ & (aid' & ab & [= <-] & H)).
      rewrite Hab in H. discriminate H. }
  split; [intros _ | reflexivity].
  split; [exists asig; exact Ha|]. split; [exists ksig; exact Hks|].
  split; [exists addr, pk; split; [reflexivity | exact Hpk]|].
  exists aid, ab. split; [reflexivity | exact Hab].
Qed.

(** C3, amended: when the KeyProvider answers, [generate_proof] raises the
    insufficient-chain error exactly when the chain has length 0 or 1.
    With a chain of length at least 2 it returns a proof exactly when the
    later steps succeed: both signatures, when they are text, are
    hexadecimal, the account is derived and its address decodes, [info()]
    answers and the application id decodes.  The proof it returns has
    element 0 as [app_signature] and element 1 as [kms_signature], each
    decoded from hex when it is text, and the outcome does not depend on
    the elements beyond index 1. *)
Theorem generate_proof_signature_chain
    (E : Env) (i kp pu : string) (tr : trace) (kr : KeyResponse) :
  dstack_get_key E kp pu = Returns kr ->
  (forall n,
     fst (generate_proof E i kp pu tr) = Raise (InsufficientChain n)
     <-> (length (signature_chain kr) < 2 /\ n = length (signature_chain kr)))
  /\ (forall a k rest,
        signature_chain kr = a :: k :: rest ->
        ((exists p, fst (generate_proof E i kp pu tr) = Ok p)
         <-> ((exists asig, carried a asig)
              /\ (exists ksig, carried k ksig)
              /\ (exists addr pk,
                    Account_from_key E (key kr) = Returns addr
                    /\ fromhex (str_from 2 addr) = Some pk)
              /\ (exists aid ab,
                    dstack_info_app_id E = Returns aid
                    /\ fromhex (str_from 2 aid) = Some ab)))
        /\ (forall p,
              fst (generate_proof E i kp pu tr) = Ok p ->
              carried a (SignatureProof.app_signature p)
              /\ carried k (SignatureProof.kms_signature p)))
  /\ (2 <= length (signature_chain kr) ->
      generate_proof (truncate_chain E) i kp pu tr = generate_proof E i kp pu tr).
Proof.
  intros Hk. split; [|split].
  - intros n. apply generate_proof_insufficient. exact Hk.
  - intros a k rest Hc. split.
    + rewrite <- (generate_proof_returns E i kp pu tr kr a k rest Hk Hc).
      destruct (fst (generate_proof E i kp pu tr)) as [p|e]; cbn.
      * split; [reflexivity | intros _; exists p; reflexivity].
      * split; [intros (p & H); discriminate H | intros H; discriminate H].
    + intros p H.
      destruct (generate_proof E i kp pu tr) as [r tr'] eqn:Hrun.
      cbn [fst] in H. subst r.
      destruct (generate_proof_ok _ _ _ _ _ _ _ Hrun)
        as (kr' & a' & k' & rest' & asig & ksig & addr & pk & aid & ab
            & Hk' & Hc' & Ha & Hks & _ & _ & _ & _ & -> & _).
      rewrite Hk in Hk'. injection Hk' as <-.
      rewrite Hc in Hc'. injection Hc' as <- <- <-.
      cbn. split; apply ensure_bytes_carried; assumption.
  - apply generate_proof_truncate_chain. exact Hk.
Qed.

Lemma generate_proof_signature_chain_witness :
  exists p,
    fst (generate_proof env_ok "n1" "node/n1" "ethereum" []) = Ok p
    /\ SignatureProof.app_signature p = VBytes (zeros 65)
    /\ SignatureProof.kms_signature p = VBytes [xab; xcd]
    /\ generate_proof (truncate_chain env_ok) "n1" "node/n1" "ethereum" []
       = generate_proof env_ok "n1" "node/n1" "ethereum" [].
Proof.
  pose proof (generate_proof_signature_chain env_ok "n1" "node/n1" "ethereum" []
                {| key := VStr "11"; signature_chain := chain_3 |} eq_refl)
    as (_ & Hchain & Htrunc).
  destruct (Hchain (VBytes (zeros 65)) (VStr "0xabcd") [VBytes (zeros 1)] eq_refl)
    as (Hreturns & Hcarried).
  destruct (proj2 Hreturns) as (p & Hp).
  { split; [exists (VBytes (zeros 65)); reflexivity|].
    split; [exists (VBytes [xab; xcd]); exists [xab; xcd]; split; reflexivity|].
    split.
    - exists address_1, (replicate 20 x11). split; reflexivity.
    - eexists app_id_20, _. split; reflexivity. }
  exists p. split; [exact Hp|].
  destruct (Hcarried p Hp) as (Happ & Hkms).
  split; [exact Happ|]. split.
  - destruct Hkms as (b & Hb & ->). vm_compute in Hb. injection Hb as <-. reflexivity.
  - apply Htrunc. cbn. lia.
Defined.

(** What [generate_proof] stores as [app_id]: the bytes decoded from the
    KeyProvider's text after its first two characters, whatever they are,
    followed by zero bytes up to a length of 32 and never cut. *)
Lemma generate_proof_app_id_field
    (E : Env) (i kp pu : string) (tr tr' : trace) (p : SignatureProof.t) :
  generate_proof E i kp pu tr = (Ok p, tr') ->
  exists aid ab,
    dstack_info_app_id E = Returns aid
    /\ fromhex (str_from 2 aid) = Some ab
    /\ SignatureProof.app_id p = VBytes (ab ++ replicate (32 - length ab) x00).
Proof.
  intros H.
  destruct (generate_proof_ok _ _ _ _ _ _ _ H)
    as (kr & a & k & rest & asig & ksig & addr & pk & aid & ab
        & _ & _ & _ & _ & _ & _ & Hi & Hab & -> & _).
  exists aid, ab. split; [exact Hi|].
  unfold bytes_fromhex in Hab.
  destruct (fromhex (str_from 2 aid)) as [ab'|]; [|discriminate Hab].
  injection Hab as ->. split; reflexivity.
Qed.

(** C7, on the code as it is.  The KeyProvider reports the application id
    as its 40 hexadecimal digits, without a prefix.  [app_id[2:]] takes
    the first two digits for the prefix: the proof carries the last 19
    bytes of the id followed by 13 zero bytes, where stripping the prefix
    and padding on the right gives the 20 bytes of the id followed by 12.
    With the same id behind [0x] the field is the expected one.  The
    padding never cuts: an id of 33 bytes gives a field of 33 bytes. *)
Theorem generate_proof_app_id_loses_first_byte :
  dstack_info_app_id env_unprefixed = Returns app_id_unprefixed
  /\ fromhex app_id_unprefixed = Some app_id_bytes
  /\ result_map SignatureProof.app_id
       (fst (generate_proof env_unprefixed "n1" "node/n1" "ethereum" []))
     = Ok (VBytes (drop 1 app_id_bytes ++ zeros 13))
  /\ drop 1 app_id_bytes ++ zeros 13 <> app_id_bytes ++ zeros 12
  /\ result_map SignatureProof.app_id
       (fst (generate_proof env_ok "n1" "node/n1" "ethereum" []))
     = Ok (VBytes (app_id_bytes ++ zeros 12))
  /\ result_bind (fst (generate_proof env_long_app_id "n1" "node/n1" "ethereum" []))
       (fun p => len (SignatureProof.app_id p))
     = Ok 33.
Proof.
  split; [reflexivity|].
  split; [vm_compute; reflexivity|].
  split; [vm_compute; reflexivity|].
  split; [intros H; discriminate H|].
  split; vm_compute; reflexivity.
Qed.

(** ** get_registration_data *)

Lemma get_registration_data_run E w i kp pu tr :
  get_registration_data E w i kp pu tr =
    match walletToTokenId E w with
    | Fails what => (Raise (ExternalError what), tr ++ [WalletToTokenId w])
    | Returns t =>
        if (t =? 0)%N
        then (Raise (NoNFTFound w), tr ++ [WalletToTokenId w])
        else
          match generate_proof E i kp pu (tr ++ [WalletToTokenId w]) with
          | (Ok p, tr') =>
              (Ok (RegistrationData.mk t
                     (SignatureProof.instance_id_bytes32 p)
                     (SignatureProof.derived_public_key p)
                     (SignatureProof.app_signature p)
                     (SignatureProof.kms_signature p)
                     (SignatureProof.purpose p)), tr')
          | (Raise e, tr') => (Raise e, tr')
          end
    end.
Proof.
  unfold get_registration_data, bind, signature_proof.call, raise, ret.
  destruct (walletToTokenId E w) as [t|what]; cbn -[generate_proof]; [|reflexivity].
  destruct (t =? 0)%N; reflexivity.
Qed.

(** C4: when [walletToTokenId] returns 0, [get_registration_data] raises
    the no-NFT error having made the ledger query and nothing else (no
    KeyProvider call, no proof); when it returns another token id, proof
    generation runs next, starting with the KeyProvider's [get_key], and
    its outcome decides the result. *)
Theorem get_registration_data_token_check
    (E : Env) (w i kp pu : string) (tr : trace) (t : N) :
  walletToTokenId E w = Returns t ->
  (t = 0%N ->
   get_registration_data E w i kp pu tr
   = (Raise (NoNFTFound w), tr ++ [WalletToTokenId w]))
  /\ (t <> 0%N ->
      exists later,
        snd (get_registration_data E w i kp pu tr)
        = tr ++ WalletToTokenId w :: GetKey kp pu :: later
        /\ snd (get_registration_data E w i kp pu tr)
           = snd (generate_proof E i kp pu (tr ++ [WalletToTokenId w]))
        /\ (forall e,
              fst (generate_proof E i kp pu (tr ++ [WalletToTokenId w])) = Raise e ->
              fst (get_registration_data E w i kp pu tr) = Raise e)
        /\ (forall p,
              fst (generate_proof E i kp pu (tr ++ [WalletToTokenId w])) = Ok p ->
              exists rd,
                fst (get_registration_data E w i kp pu tr) = Ok rd
                /\ RegistrationData.token_id rd = t)).
Proof.
  intros Ht. rewrite get_registration_data_run, Ht.
  split.
  - intros ->. reflexivity.
  - intros Hne. destruct (N.eqb_spec t 0) as [->|_]; [congruence|].
    destruct (generate_proof_trace E i kp pu (tr ++ [WalletToTokenId w]))
      as (later & Htr).
    exists later.
    destruct (generate_proof E i kp pu (tr ++ [WalletToTokenId w]))
      as [[p|e] tr1]; cbn [fst snd] in *; subst tr1; rewrite <- app_assoc;
      cbn [app].
    + split; [reflexivity|]. split; [reflexivity|]. split.
      * intros e He. discriminate He.
      * intros p' [= <-]. eexists. split; reflexivity.
    + split; [reflexivity|]. split; [reflexivity|]. split.
      * intros e' [= <-]. reflexivity.
      * intros p Hp. discriminate Hp.
Qed.

Lemma get_registration_data_token_check_witness :
  get_registration_data env_no_token address_1 "n1" "node/n1" "ethereum" []
  = (Raise (NoNFTFound address_1), [WalletToTokenId address_1]).
Proof.
  exact (proj1 (get_registration_data_token_check env_no_token address_1
                  "n1" "node/n1" "ethereum" [] 0%N eq_refl) eq_refl).
Defined.

(** C9, as stated, fails: two KeyProviders that differ in the application
    id lead to proofs with different [app_id] and to one and the same
    [RegistrationData]. *)
Lemma get_registration_data_app_id_counterexample :
  result_map SignatureProof.app_id
    (fst (generate_proof env_ok "n1" "node/n1" "ethereum" [WalletToTokenId address_1]))
  <> result_map SignatureProof.app_id
       (fst (generate_proof env_ok' "n1" "node/n1" "ethereum" [WalletToTokenId address_1]))
  /\ is_ok (fst (get_registration_data env_ok address_1 "n1" "node/n1" "ethereum" []))
     = true
  /\ fst (get_registration_data env_ok address_1 "n1" "node/n1" "ethereum" [])
     = fst (get_registration_data env_ok' address_1 "n1" "node/n1" "ethereum" []).
Proof.
  split; [|split].
  - vm_compute. discriminate.
  - vm_compute. reflexivity.
  - vm_compute. reflexivity.
Qed.

(** C9, amended: a [RegistrationData] returned by [get_registration_data]
    carries the token id the ledger returned, which is positive, and,
    unchanged, the fields [instance_id_bytes32], [derived_public_key],
    [app_signature], [kms_signature] and [purpose] of the proof generated
    after the token check; it has no [app_id]. *)
Theorem get_registration_data_fields
    (E : Env) (w i kp pu : string) (tr tr' : trace) (rd : RegistrationData.t) :
  get_registration_data E w i kp pu tr = (Ok rd, tr') ->
  exists t p,
    walletToTokenId E w = Returns t
    /\ (0 < t)%N
    /\ generate_proof E i kp pu (tr ++ [WalletToTokenId w]) = (Ok p, tr')
    /\ RegistrationData.token_id rd = t
    /\ RegistrationData.instance_id_bytes32 rd = SignatureProof.instance_id_bytes32 p
    /\ RegistrationData.derived_public_key rd = SignatureProof.derived_public_key p
    /\ RegistrationData.app_signature rd = SignatureProof.app_signature p
    /\ RegistrationData.kms_signature rd = SignatureProof.kms_signature p
    /\ RegistrationData.purpose rd = SignatureProof.purpose p.
Proof.
  intros H. rewrite get_registration_data_run in H.
  destruct (walletToTokenId E w) as [t|what]; [|discriminate H].
  destruct (t =? 0)%N eqn:Hne; [discriminate H|]. apply N.eqb_neq in Hne.
  destruct (generate_proof E i kp pu (tr ++ [WalletToTokenId w]))
    as [[p|e] tr1]; [|discriminate H].
  injection H as <- <-.
  exists t, p. repeat split. lia.
Qed.

Lemma get_registration_data_fields_witness :
  exists t p,
    walletToTokenId env_ok address_1 = Returns t
    /\ (0 < t)%N
    /\ generate_proof env_ok "n1" "node/n1" "ethereum" [WalletToTokenId address_1]
       = (Ok p, [WalletToTokenId address_1; GetKey "node/n1" "ethereum"; Info]).
Proof.
  destruct (get_registration_data_fields env_ok address_1 "n1" "node/n1"
              "ethereum" [] _ _ eq_refl) as (t & p & Ht & Hpos & Hp & _).
  exists t, p. auto.
Defined.

(** * Properties of counter.py *)

Import counter scenarios.

Ltac unfold_c :=
  unfold try_except, bind, lift, ret, raise, counter.call, log, sleep, update,
    read, getattr, modify, load_global in *.

Lemma votes_sent_app evs evs' :
  votes_sent (evs ++ evs') = votes_sent evs ++ votes_sent evs'.
Proof. apply omap_app. Qed.

Lemma set_is_leader_same c b : is_leader c = b -> set_is_leader b c = c.
Proof. intros <-. destruct c; reflexivity. Qed.

Ltac votes :=
  unfold votes_sent in *; rewrite ?omap_app; cbn;
  repeat match goal with H : omap _ _ = [] |- _ => rewrite H end;
  reflexivity.

Ltac ran :=
  rewrite <- ?app_assoc; eexists _, _; split; [reflexivity | split; reflexivity].

(** The probe never succeeds: it ends in the handler, on the failed read
    of the ledger, on the missing name or on the [async with]. *)
Lemma ping_leader_run G W a st :
  exists e,
    ping_leader G W a st
    = (Ok false,
       {| self := self st;
          events := events st ++ [GetActiveInstances; Log Debug (LeaderPingFailed e)] |})
    /\ e = match getActiveInstances W with
           | Fails what => ExternalError what
           | Returns _ =>
               if decide ("aiohttp" ∈ G) then TypeError else NameError "aiohttp"
           end.
Proof.
  unfold ping_leader, async_with_ClientTimeout. unfold_c.
  destruct (getActiveInstances W); cbn;
    [destruct (decide ("aiohttp" ∈ G)); cbn|];
    rewrite <- ?app_assoc; eexists; split; reflexivity.
Qed.

Lemma submit_vote_run W t f st :
  exists r evs,
    submit_vote W t f st = (r, {| self := self st; events := events st ++ evs |})
    /\ (wallet_private_key (self st) = None -> votes_sent evs = [] /\ is_ok r = false).
Proof.
  unfold submit_vote. unfold_c. cbn.
  destruct (get_transaction_count W _); cbn.
  2:{ eexists _, _. split; [reflexivity|]. intros _. split; reflexivity. }
  destruct (gas_price W); cbn.
  2:{ rewrite <- ?app_assoc. eexists _, _. split; [reflexivity|]. intros _. split; reflexivity. }
  destruct (build_transaction W _ _); cbn.
  2:{ rewrite <- ?app_assoc. eexists _, _. split; [reflexivity|]. intros _. split; reflexivity. }
  destruct (wallet_private_key (self st)) as [k|]; cbn.
  2:{ rewrite <- ?app_assoc. eexists _, _. split; [reflexivity|]. intros _. split; reflexivity. }
  destruct (sign_transaction W _ k); cbn.
  2:{ rewrite <- ?app_assoc. eexists _, _. split; [reflexivity|]. intros [=]. }
  rewrite <- ?app_assoc. eexists _, _. split; [reflexivity|]. intros [=].
Qed.

Lemma vote_no_confidence_run W t st :
  exists evs,
    vote_no_confidence W t st = (Ok tt, {| self := self st; events := events st ++ evs |})
    /\ (wallet_private_key (self st) = None -> votes_sent evs = []).
Proof.
  unfold vote_no_confidence, try_except, bind.
  destruct (submit_vote_run W t true st) as (r & evs & -> & Hv).
  destruct r as [h|e]; unfold log; cbn; rewrite <- app_assoc; eexists; (split; [reflexivity|]).
  - intros Hk. destruct (Hv Hk) as [_ Hok]. discriminate Hok.
  - intros Hk. destruct (Hv Hk) as [Hvs _]. rewrite votes_sent_app, Hvs. reflexivity.
Qed.

Lemma vote_confidence_run W t st :
  exists evs,
    vote_confidence W t st = (Ok tt, {| self := self st; events := events st ++ evs |})
    /\ (wallet_private_key (self st) = None -> votes_sent evs = []).
Proof.
  unfold vote_confidence, try_except, bind.
  destruct (submit_vote_run W t false st) as (r & evs & -> & Hv).
  destruct r as [h|e]; unfold log; cbn; rewrite <- app_assoc; eexists; (split; [reflexivity|]).
  - intros Hk. destruct (Hv Hk) as [_ Hok]. discriminate Hok.
  - intros Hk. destruct (Hv Hk) as [Hvs _]. rewrite votes_sent_app, Hvs. reflexivity.
Qed.

(** Probe and vote, the tail of the not-the-leader branch. *)
Lemma probe_and_vote_run G W L st :
  exists evs,
    (let! is_responsive := ping_leader G W L in
     if negb is_responsive
     then do! log Info (LeaderUnresponsive L) in vote_no_confidence W L
     else vote_confidence W L) st
    = (Ok tt, {| self := self st; events := events st ++ evs |})
    /\ (wallet_private_key (self st) = None -> votes_sent evs = []).
Proof.
  unfold bind at 1.
  destruct (ping_leader_run G W L st) as (e & -> & _).
  cbn [negb]. unfold bind, log. cbn [self events].
  match goal with
  | |- context [vote_no_confidence W L ?s] =>
      destruct (vote_no_confidence_run W L s) as (evs2 & -> & Hv2)
  end.
  cbn [self events] in *.
  rewrite <- !app_assoc. eexists. split; [reflexivity|].
  intros Hk. rewrite !votes_sent_app, (Hv2 Hk). reflexivity.
Qed.

Lemma check_leader_status_run G W st :
  exists evs,
    check_leader_status G W st
    = (Ok tt, {| self := set_is_leader (polled W (self st)) (self st);
                 events := events st ++ evs |})
    /\ (wallet_private_key (self st) = None -> votes_sent evs = []).
Proof.
  unfold check_leader_status, polled, try_except.
  unfold bind at 1. unfold counter.call at 1.
  destruct (currentLeader W) as [L|what]; cbn [of_outcome].
  2:{ unfold log. cbn [self events]. rewrite <- app_assoc.
      rewrite (set_is_leader_same (self st) _ eq_refl).
      eexists. split; [reflexivity|]. reflexivity. }
  unfold bind at 1. unfold read at 1. cbn [self events].
  unfold bind at 1. unfold read at 1. cbn [self events].
  destruct (String.eqb L (wallet_address (self st))) eqn:Hme.
  - destruct (is_leader (self st)) eqn:Hl; cbn [negb].
    + unfold ret. rewrite (set_is_leader_same (self st) true Hl).
      eexists. split; reflexivity.
    + unfold bind, log, update, modify. cbn [self events].
      rewrite <- app_assoc. eexists. split; reflexivity.
  - unfold bind at 1.
    destruct (is_leader (self st)) eqn:Hl.
    + unfold bind at 1. unfold log at 1, update at 1, modify at 1. cbn [self events].
      destruct (negb (String.eqb L zero_address)).
      * match goal with
        | |- context [bind (ping_leader G W L) ?k ?s] =>
            destruct (probe_and_vote_run G W L s) as (evs & Hrun & Hv)
        end.
        cbn [self events] in *. rewrite Hrun.
        rewrite <- !app_assoc. eexists. split; [reflexivity|].
        intros Hk. specialize (Hv Hk). votes.
      * unfold ret. rewrite <- app_assoc. eexists. split; reflexivity.
    + unfold ret at 1.
      destruct (negb (String.eqb L zero_address)).
      * destruct (probe_and_vote_run G W L {| self := self st; events := events st ++ [CurrentLeader] |}) as (evs & Hrun & Hv).
        cbn [self events] in *. rewrite Hrun.
        rewrite (set_is_leader_same (self st) false Hl).
        rewrite <- !app_assoc. eexists. split; [reflexivity|].
        intros Hk. specialize (Hv Hk). votes.
      * unfold ret. rewrite (set_is_leader_same (self st) false Hl).
        eexists. split; reflexivity.
Qed.

Lemma monitor_leader_health_turn_run G W st :
  exists evs,
    monitor_leader_health_turn G W st
    = (Ok tt, {| self := set_is_leader (polled W (self st)) (self st);
                 events := events st ++ evs |})
    /\ (wallet_private_key (self st) = None -> votes_sent evs = []).
Proof.
  unfold monitor_leader_health_turn, try_except, bind.
  destruct (check_leader_status_run G W st) as (evs & -> & Hv).
  unfold sleep. cbn [self events]. rewrite <- app_assoc.
  eexists. split; [reflexivity|].
  intros Hk. specialize (Hv Hk). votes.
Qed.

(** Over any number of turns of the monitor loop, the flag is the one the
    successive reads of the ledger decide. *)
Lemma monitor_leader_health_flag G (turns : list World) : forall st,
  fst (monitor_leader_health G turns st) = Ok tt
  /\ wallet_address (self (snd (monitor_leader_health G turns st)))
     = wallet_address (self st)
  /\ is_leader (self (snd (monitor_leader_health G turns st)))
     = leader_flag (wallet_address (self st)) turns (is_leader (self st)).
Proof.
  induction turns as [|W later IH]; intros st.
  - cbn. auto.
  - cbn [monitor_leader_health]. unfold bind.
    destruct (monitor_leader_health_turn_run G W st) as (evs & -> & _).
    specialize (IH {| self := set_is_leader (polled W (self st)) (self st);
                      events := events st ++ evs |}).
    cbn [self events wallet_address is_leader set_is_leader] in IH.
    destruct IH as (Hok & Haddr & Hflag).
    split; [exact Hok|]. split; [exact Haddr|].
    rewrite Hflag. cbn [leader_flag fold_left]. unfold polled.
    reflexivity.
Qed.

(** C5, as stated, fails: a leader whose next poll cannot read the ledger
    keeps [is_leader] true, although [currentLeader()] returned nothing on
    that cycle. *)
Lemma check_leader_status_stale_counterexample :
  currentLeader world_down = Fails "connection refused"
  /\ is_leader (self st_leader) = true
  /\ is_leader (self (snd (check_leader_status counter_py_globals world_down st_leader)))
     = true.
Proof. repeat split; vm_compute; reflexivity. Qed.

(** C5, amended: [check_leader_status] never raises; after a poll in which
    [currentLeader()] returned a value, [is_leader] is true if and only if
    that value is the local account; a poll in which the read failed
    leaves [is_leader] as it was.  Hence a follower becomes leader exactly
    in a poll that reads the local account, and a leader becomes follower
    exactly in a poll that reads another value. *)
Theorem check_leader_status_is_leader (G : gset string) (W : World) (st : state) :
  fst (check_leader_status G W st) = Ok tt
  /\ wallet_address (self (snd (check_leader_status G W st)))
     = wallet_address (self st)
  /\ (forall leader,
        currentLeader W = Returns leader ->
        (is_leader (self (snd (check_leader_status G W st))) = true
         <-> leader = wallet_address (self st)))
  /\ (forall what,
        currentLeader W = Fails what ->
        is_leader (self (snd (check_leader_status G W st))) = is_leader (self st))
  /\ (is_leader (self st) = false ->
      (is_leader (self (snd (check_leader_status G W st))) = true
       <-> currentLeader W = Returns (wallet_address (self st))))
  /\ (is_leader (self st) = true ->
      (is_leader (self (snd (check_leader_status G W st))) = false
       <-> exists leader,
             currentLeader W = Returns leader
             /\ leader <> wallet_address (self st))).
Proof.
  destruct (check_leader_status_run G W st) as (evs & -> & _).
  cbn [fst snd self is_leader wallet_address set_is_leader]. unfold polled.
  split; [reflexivity|]. split; [reflexivity|]. split; [|split; [|split]].
  - intros leader ->. apply String.eqb_eq.
  - intros what ->. reflexivity.
  - intros Hl. destruct (currentLeader W) as [leader|what].
    + rewrite String.eqb_eq. split; [intros ->; reflexivity | intros [= ->]; reflexivity].
    + rewrite Hl. split; intros H; discriminate H.
  - intros Hl. destruct (currentLeader W) as [leader|what].
    + rewrite String.eqb_neq. split.
      * intros Hne. exists leader. split; [reflexivity | exact Hne].
      * intros (leader' & [= <-] & Hne). exact Hne.
    + rewrite Hl. split; [intros H; discriminate H|].
      intros (leader & H & _). discriminate H.
Qed.

(** ** Votes *)

(** With a private key on the object and an endpoint that accepts every
    step, a submission sends exactly the vote asked for. *)
Lemma submit_vote_with_key W t f st k :
  wallet_private_key (self st) = Some k ->
  votes_go_through W ->
  exists h evs,
    submit_vote W t f st = (Ok h, {| self := self st; events := events st ++ evs |})
    /\ votes_sent evs = [castVote t f].
Proof.
  intros Hk ((n & Hn) & (g & Hg) & Hb & (sig & Hs) & (h & Hh)).
  unfold submit_vote. unfold_c. cbn.
  rewrite Hn, Hg. cbn. rewrite Hb. cbn. rewrite Hk. cbn. rewrite Hs. cbn.
  rewrite Hh. cbn. rewrite <- !app_assoc.
  eexists _, _. split; reflexivity.
Qed.

Lemma vote_no_confidence_with_key W t st k :
  wallet_private_key (self st) = Some k ->
  votes_go_through W ->
  exists evs,
    vote_no_confidence W t st
    = (Ok tt, {| self := self st; events := events st ++ evs |})
    /\ votes_sent evs = [castVote t true].
Proof.
  intros Hk HW. unfold vote_no_confidence, try_except, bind.
  destruct (submit_vote_with_key W t true st k Hk HW) as (h & evs & -> & Hv).
  unfold log. cbn. rewrite <- app_assoc. eexists. split; [reflexivity|].
  rewrite votes_sent_app, Hv. reflexivity.
Qed.

Lemma vote_confidence_with_key W t st k :
  wallet_private_key (self st) = Some k ->
  votes_go_through W ->
  exists evs,
    vote_confidence W t st
    = (Ok tt, {| self := self st; events := events st ++ evs |})
    /\ votes_sent evs = [castVote t false].
Proof.
  intros Hk HW. unfold vote_confidence, try_except, bind.
  destruct (submit_vote_with_key W t false st k Hk HW) as (h & evs & -> & Hv).
  unfold log. cbn. rewrite <- app_assoc. eexists. split; [reflexivity|].
  rewrite votes_sent_app, Hv. reflexivity.
Qed.

Lemma probe_and_vote_with_key G W L st k :
  wallet_private_key (self st) = Some k ->
  votes_go_through W ->
  exists evs,
    (let! is_responsive := ping_leader G W L in
     if negb is_responsive
     then do! log Info (LeaderUnresponsive L) in vote_no_confidence W L
     else vote_confidence W L) st
    = (Ok tt, {| self := self st; events := events st ++ evs |})
    /\ votes_sent evs = [castVote L true].
Proof.
  intros Hk HW. unfold bind at 1.
  destruct (ping_leader_run G W L st) as (e & -> & _).
  cbn [negb]. unfold bind, log. cbn [self events].
  match goal with
  | |- context [vote_no_confidence W L ?s] =>
      destruct (vote_no_confidence_with_key W L s k Hk HW) as (evs2 & -> & Hv2)
  end.
  cbn [self events] in *.
  rewrite <- !app_assoc. eexists. split; [reflexivity|].
  rewrite !votes_sent_app, Hv2. reflexivity.
Qed.

(** Once the object has a private key, a poll that reads a leader other
    than the local account sends no vote for the zero address and
    otherwise exactly one vote against the leader read.  It is always the
    vote of no confidence, since the probe never succeeds. *)
Lemma check_leader_status_votes_with_key G W st k L :
  wallet_private_key (self st) = Some k ->
  votes_go_through W ->
  currentLeader W = Returns L ->
  L <> wallet_address (self st) ->
  exists evs,
    events (snd (check_leader_status G W st)) = events st ++ evs
    /\ votes_sent evs
       = if String.eqb L zero_address
         then []
         else [castVote L true].
Proof.
  intros Hk HW HL Hne.
  unfold check_leader_status, try_except.
  unfold bind at 1. unfold counter.call at 1. rewrite HL. cbn [of_outcome].
  unfold bind at 1. unfold read at 1. cbn [self events].
  unfold bind at 1. unfold read at 1. cbn [self events].
  apply String.eqb_neq in Hne. rewrite Hne.
  unfold bind at 1.
  destruct (is_leader (self st)) eqn:Hl.
  - unfold bind at 1. unfold log at 1, update at 1, modify at 1. cbn [self events].
    destruct (String.eqb L zero_address); cbn [negb].
    + unfold ret. cbn. rewrite <- app_assoc. eexists. split; reflexivity.
    + match goal with
      | |- context [bind (ping_leader G W L) ?f ?s] =>
          destruct (probe_and_vote_with_key G W L s k Hk HW) as (evs & Hrun & Hv)
      end.
      cbn [self events] in *. rewrite Hrun. cbn [snd events].
      rewrite <- !app_assoc. eexists. split; [reflexivity|].
      rewrite !votes_sent_app, Hv. reflexivity.
  - unfold ret at 1.
    destruct (String.eqb L zero_address); cbn [negb].
    + unfold ret. cbn. eexists. split; reflexivity.
    + destruct (probe_and_vote_with_key G W L
                  {| self := self st; events := events st ++ [CurrentLeader] |}
                  k Hk HW) as (evs & Hrun & Hv).
      cbn [self events] in *. rewrite Hrun. cbn [snd events].
      rewrite <- !app_assoc. eexists. split; [reflexivity|].
      rewrite !votes_sent_app, Hv. reflexivity.
Qed.

(** ** The heartbeat and the increment handler *)

Lemma leader_heartbeat_turn_run G W st :
  exists c evs,
    leader_heartbeat_turn G W st
    = (Ok tt, {| self := c; events := events st ++ evs |})
    /\ votes_sent evs = []
    /\ (c = self st \/ c = set_last_leader_heartbeat (time W) (self st)).
Proof.
  unfold leader_heartbeat_turn. unfold_c. cbn.
  destruct (is_leader (self st)); cbn.
  - destruct (decide ("time" ∈ G)); cbn; rewrite <- ?app_assoc;
      eexists _, _; (split; [reflexivity|]); (split; [reflexivity|]); auto.
  - eexists _, _. split; [reflexivity|]. split; [reflexivity|]. auto.
Qed.

(** A follower turns the request down and changes nothing; the response
    itself needs the name [web]. *)
Lemma increment_counter_follower G W st :
  is_leader (self st) = false ->
  increment_counter G W st
  = (if decide ("web" ∈ G)
     then Ok {| body := ErrorBody "Only leader can increment counter"; status := 403 |}
     else Raise (NameError "web"),
     st).
Proof.
  intros Hl. unfold increment_counter. unfold_c. rewrite Hl. cbn.
  destruct (decide ("web" ∈ G)); reflexivity.
Qed.

(** A leader without the name [time]: the counter has been incremented
    when the log entry fails to be built. *)
Lemma increment_counter_leader_without_time G W st :
  is_leader (self st) = true ->
  "time" ∉ G ->
  increment_counter G W st
  = (Raise (NameError "time"),
     {| self := set_counter_value (counter_value (self st) + 1) (self st);
        events := events st |}).
Proof.
  intros Hl Ht. unfold increment_counter. unfold_c. rewrite Hl. cbn.
  rewrite decide_False by exact Ht. reflexivity.
Qed.

(** A leader with the name [time]: counter and log move together. *)
Lemma increment_counter_leader_with_time G W st :
  is_leader (self st) = true ->
  "time" ∈ G ->
  let n := (counter_value (self st) + 1)%Z in
  let operation :=
    {| op_timestamp := time W; op_operation := "increment";
       op_new_value := n; op_leader := wallet_address (self st) |} in
  increment_counter G W st
  = (if decide ("web" ∈ G)
     then Ok {| body := IncrementBody true n (length (operation_log (self st) ++ [operation]));
                status := 200 |}
     else Raise (NameError "web"),
     {| self := append_operation operation (set_counter_value n (self st));
        events := events st ++ [Log Info (CounterIncremented n)] |}).
Proof.
  intros Hl Ht. unfold increment_counter. unfold_c. rewrite Hl. cbn.
  rewrite decide_True by exact Ht. cbn.
  destruct (decide ("web" ∈ G)); reflexivity.
Qed.

Lemma time_unbound : "time" ∉ counter_py_globals.
Proof. apply (bool_decide_unpack _). vm_compute. exact I. Qed.

Lemma web_unbound : "web" ∉ counter_py_globals.
Proof. apply (bool_decide_unpack _). vm_compute. exact I. Qed.

Lemma aiohttp_unbound : "aiohttp" ∉ counter_py_globals.
Proof. apply (bool_decide_unpack _). vm_compute. exact I. Qed.

(** ** Reachable states *)

(** Nothing gives the object a private key, and so no vote is ever
    sent. *)
Lemma reachable_no_vote G st :
  reachable G st ->
  wallet_private_key (self st) = None /\ votes_sent (events st) = [].
Proof.
  induction 1 as [i w | W a st Hr [Hk Hv]].
  - split; reflexivity.
  - destruct a; cbn [step].
    + destruct (monitor_leader_health_turn_run G W st) as (evs & -> & Hvs).
      cbn. split; [exact Hk|]. rewrite votes_sent_app, Hv, (Hvs Hk). reflexivity.
    + destruct (leader_heartbeat_turn_run G W st) as (c & evs & -> & Hvs & [->| ->]);
        cbn; (split; [exact Hk|]); rewrite votes_sent_app, Hv, Hvs; reflexivity.
    + destruct (is_leader (self st)) eqn:Hl.
      * destruct (decide ("time" ∈ G)) as [Ht|Ht].
        -- pose proof (increment_counter_leader_with_time G W st Hl Ht) as Hrun.
           cbv zeta in Hrun. rewrite Hrun. cbn.
           split; [exact Hk|]. rewrite votes_sent_app, Hv. reflexivity.
        -- rewrite (increment_counter_leader_without_time G W st Hl Ht). cbn.
           split; [exact Hk | exact Hv].
      * rewrite (increment_counter_follower G W st Hl). cbn.
        split; [exact Hk | exact Hv].
Qed.

(** With [time] imported, counter and log stay in step. *)
Lemma reachable_log_in_step G st :
  "time" ∈ G -> reachable G st -> log_in_step (self st).
Proof.
  intros Ht. induction 1 as [i w | W a st Hr IH].
  - split; [reflexivity|]. intros j op Hj. discriminate Hj.
  - destruct a; cbn [step].
    + destruct (monitor_leader_health_turn_run G W st) as (evs & -> & _).
      exact IH.
    + destruct (leader_heartbeat_turn_run G W st) as (c & evs & -> & _ & [->| ->]);
        exact IH.
    + destruct (is_leader (self st)) eqn:Hl.
      * pose proof (increment_counter_leader_with_time G W st Hl Ht) as Hrun.
        cbv zeta in Hrun. rewrite Hrun. clear Hrun.
        destruct IH as [Hc Hlog]. unfold log_in_step. cbn.
        split.
        -- rewrite length_app. cbn. lia.
        -- intros j op Hj.
           apply lookup_app_Some in Hj as [Hj | [Hge Hj]].
           ++ apply Hlog. exact Hj.
           ++ apply list_lookup_singleton_Some in Hj as [Hj <-].
              cbn. lia.
      * rewrite (increment_counter_follower G W st Hl). exact IH.
Qed.

(** With [time] and [web] imported, a leader's increment answers with the
    new counter value, which is also the operation id. *)
Lemma increment_counter_response G W st :
  "time" ∈ G -> "web" ∈ G ->
  reachable G st ->
  is_leader (self st) = true ->
  exists n,
    fst (increment_counter G W st)
    = Ok {| body := IncrementBody true (Z.of_nat n) n; status := 200 |}
    /\ counter_value (self (snd (increment_counter G W st)))
       = (counter_value (self st) + 1)%Z
    /\ Z.of_nat n = (counter_value (self st) + 1)%Z
    /\ exists op,
         operation_log (self (snd (increment_counter G W st)))
         = operation_log (self st) ++ [op]
         /\ op_new_value op = Z.of_nat n.
Proof.
  intros Ht Hw Hr Hl.
  pose proof (increment_counter_leader_with_time G W st Hl Ht) as Hrun.
  cbv zeta in Hrun. rewrite Hrun. clear Hrun.
  rewrite decide_True by exact Hw.
  destruct (reachable_log_in_step G st Ht Hr) as [Hc _].
  exists (length (operation_log (self st) ++ [
            {| op_timestamp := time W; op_operation := "increment";
               op_new_value := (counter_value (self st) + 1)%Z;
               op_leader := wallet_address (self st) |}])).
  rewrite length_app. cbn.
  assert (Z.of_nat (length (operation_log (self st)) + 1) = (counter_value (self st) + 1)%Z)
    as Hn by lia.
  split; [rewrite Hn; reflexivity|]. split; [reflexivity|]. split; [exact Hn|].
  eexists. split; [reflexivity|]. cbn. lia.
Qed.

(** With [time] imported, the values recorded in the log increase. *)
Lemma reachable_log_increasing G st (i j : nat) (op op' : Operation) :
  "time" ∈ G -> reachable G st ->
  i < j ->
  operation_log (self st) !! i = Some op ->
  operation_log (self st) !! j = Some op' ->
  (op_new_value op < op_new_value op')%Z.
Proof.
  intros Ht Hr Hij Hi Hj.
  destruct (reachable_log_in_step G st Ht Hr) as [_ Hlog].
  rewrite (Hlog i op Hi), (Hlog j op' Hj). lia.
Qed.

Example increment_counter_with_imports :
  fst (increment_counter (with_imports ["time"; "web"]) world_me st_leader)
  = Ok {| body := IncrementBody true 1 1; status := 200 |}.
Proof. vm_compute. reflexivity. Qed.

Example check_leader_status_with_key :
  votes_sent
    (events
       (snd (check_leader_status counter_py_globals world_other
               {| self :=
                    {| instance_id := "n1"; wallet_address := me;
                       counter_value := 0; operation_log := [];
                       is_leader := false; last_leader_heartbeat := 0%Z;
                       http_client := None;
                       wallet_private_key := Some (VStr "11") |};
                  events := [] |})))
  = [castVote other true].
Proof. vm_compute. reflexivity. Qed.

Example check_leader_status_no_leader :
  events (snd (check_leader_status counter_py_globals world_none (boot "n1" me)))
  = [CurrentLeader].
Proof. vm_compute. reflexivity. Qed.

(** C6, on the code as it is: the current leader is another account, not
    the zero address, and the probe fails; the poll reads the nonce and
    the gas price and builds the no-confidence transaction, then fails on
    [self.wallet_private_key], which no statement of the class assigns;
    the error is logged and no vote transaction is sent. *)
Theorem check_leader_status_sends_no_vote :
  currentLeader world_other = Returns other
  /\ other <> me
  /\ other <> zero_address
  /\ events (snd (check_leader_status counter_py_globals world_other (boot "n1" me)))
     = [ CurrentLeader;
         GetActiveInstances;
         Log Debug (LeaderPingFailed (NameError "aiohttp"));
         Log Info (LeaderUnresponsive other);
         GetTransactionCount me;
         GasPrice;
         BuildTransaction (castVote other true)
           {| tx_from := me; tx_nonce := 7; tx_gas := 200000;
              tx_gasPrice := 1000000000 |};
         Log Error (ErrorVotingNoConfidence (AttributeError "wallet_private_key")) ]
  /\ votes_sent
       (events (snd (check_leader_status counter_py_globals world_other (boot "n1" me))))
     = [].
Proof.
  split; [reflexivity|].
  split; [apply String.eqb_neq; reflexivity|].
  split; [apply String.eqb_neq; reflexivity|].
  split; vm_compute; reflexivity.
Qed.

(** C8, on the code as it is: a leader with counter 0 and an empty log
    receives an increment request; the counter becomes 1, then building
    the log entry raises [NameError] on [time], which [counter.py] never
    imports; the request fails and nothing is appended to the log. *)
Theorem increment_counter_leader_drops_log_entry :
  is_leader (self st_leader) = true
  /\ counter_value (self st_leader) = 0%Z
  /\ operation_log (self st_leader) = []
  /\ fst (increment_counter counter_py_globals world_me st_leader)
     = Raise (NameError "time")
  /\ counter_value (self (snd (increment_counter counter_py_globals world_me st_leader)))
     = 1%Z
  /\ operation_log (self (snd (increment_counter counter_py_globals world_me st_leader)))
     = [].
Proof. repeat split; vm_compute; reflexivity. Qed.

(** C10, on the code as it is: after a poll that makes the node leader and
    one increment request, the service is in a state whose counter is 1
    and whose log is empty. *)
Theorem reachable_counter_ahead_of_log :
  reachable counter_py_globals st_incremented
  /\ counter_value (self st_incremented) = 1%Z
  /\ length (operation_log (self st_incremented)) = 0.
Proof.
  split; [|split; vm_compute; reflexivity].
  unfold st_incremented, st_leader.
  apply reachable_step, reachable_step, reachable_boot.
Qed.

(** * Further properties of signature_proof.py *)

Lemma ensure_bytes_ok v v' :
  ensure_bytes v = Ok v' -> isinstance_str v' = false /\ ensure_bytes v' = Ok v'.
Proof.
  destruct v as [b|s|z|]; cbn.
  - intros [= <-]. split; reflexivity.
  - unfold bytes_fromhex. destruct (fromhex (replace_0x s)); intros [= <-].
    split; reflexivity.
  - intros [= <-]. split; reflexivity.
  - intros [= <-]. split; reflexivity.
Qed.

(** X1: the signature normalisation of [generate_proof] leaves every value
    that is not text as it is, reads hexadecimal text with or without a
    leading [0x] to the same bytes, and never returns text: applying it
    twice is applying it once. *)
Theorem ensure_bytes_normalizes (v : value) :
  (isinstance_str v = false -> ensure_bytes v = Ok v)
  /\ (forall s, v = VStr s -> ensure_bytes (VStr ("0x" ++ s)) = ensure_bytes v)
  /\ (forall v',
        ensure_bytes v = Ok v' ->
        isinstance_str v' = false /\ ensure_bytes v' = Ok v').
Proof.
  split; [|split].
  - destruct v; cbn; intros H; try reflexivity. discriminate H.
  - intros s ->. reflexivity.
  - apply ensure_bytes_ok.
Qed.

Lemma ljust_length width fill b :
  length (ljust width fill b) = Nat.max width (length b).
Proof. unfold ljust. rewrite length_app, length_replicate. lia. Qed.

(** X2: a proof returned by [generate_proof] always meets the [app_id]
    rule of [verify_proof_format] (it is padded to at least 32 bytes, also
    when the KeyProvider's application id decodes to nothing); it meets the
    purpose rule exactly when the key purpose is not empty and the
    instance-id rule exactly when the digest has 32 bytes. *)
Theorem generate_proof_then_verify
    (E : Env) (i kp pu : string) (tr tr' : signature_proof.trace)
    (p : SignatureProof.t) :
  generate_proof E i kp pu tr = (Ok p, tr') ->
  rule_app_id p = true
  /\ rule_purpose p = negb (String.length pu =? 0)%nat
  /\ rule_instance_id_hash p = (length (sha256 E (encode E i)) =? 32)%nat
  /\ (forall tr0,
        fst (verify_proof_format p tr0) = Ok true
        <-> (length (sha256 E (encode E i)) = 32
             /\ rule_derived_public_key p = true
             /\ rule_app_signature p = true
             /\ rule_kms_signature p = true
             /\ pu <> "")).
Proof.
  intros H.
  destruct (generate_proof_ok _ _ _ _ _ _ _ H)
    as (kr & a & k & rest & asig & ksig & addr & pk & aid & ab
        & _ & _ & _ & _ & _ & _ & _ & _ & -> & _).
  assert (Hid : rule_app_id
                  (SignatureProof.mk (VBytes (sha256 E (encode E i))) (VBytes pk)
                     asig ksig (VStr pu) (VBytes (ljust 32 x00 ab))) = true).
  { unfold rule_app_id, length_is. cbn. rewrite ljust_length.
    destruct (Nat.max 32 (length ab)) eqn:Hm; [lia | reflexivity]. }
  split; [exact Hid|]. split; [reflexivity|]. split; [reflexivity|].
  intros tr0.
  destruct (verify_proof_format_run
              (SignatureProof.mk (VBytes (sha256 E (encode E i))) (VBytes pk)
                 asig ksig (VStr pu) (VBytes (ljust 32 x00 ab))) tr0)
    as (logs & -> & _).
  cbn [fst]. unfold six_rules, five_rules. rewrite Hid.
  unfold rule_instance_id_hash, rule_purpose, length_is.
  cbn [SignatureProof.instance_id_bytes32 SignatureProof.purpose len].
  rewrite !andb_true_r.
  destruct pu as [|c pu']; cbn [String.length Nat.eqb negb].
  - rewrite andb_false_r. split; [intros [=] | intros (_ & _ & _ & _ & Hne); congruence].
  - rewrite andb_true_r. split.
    + intros [= Hall]. rewrite !andb_true_iff in Hall.
      destruct Hall as [[[Hlen Hpk] Ha] Hk].
      apply Nat.eqb_eq in Hlen. repeat split; try assumption. discriminate.
    + intros (Hlen & Hpk & Ha & Hk & _).
      apply Nat.eqb_eq in Hlen. rewrite Hlen, Hpk, Ha, Hk. reflexivity.
Qed.

Lemma generate_proof_then_verify_witness :
  exists p tr',
    generate_proof env_ok "n1" "node/n1" "ethereum" [] = (Ok p, tr')
    /\ rule_app_id p = true.
Proof.
  destruct (generate_proof env_ok "n1" "node/n1" "ethereum" [])
    as [[p|e] tr'] eqn:H; [|vm_compute in H; discriminate H].
  exists p, tr'. split; [reflexivity|].
  exact (proj1 (generate_proof_then_verify env_ok "n1" "node/n1" "ethereum"
                  [] tr' p H)).
Defined.

Ltac chain_case Hc :=
  let kr := fresh "kr" in
  let H := fresh "H" in
  let Hlen := fresh "Hlen" in
  intros kr H Hlen;
  first
    [ discriminate H
    | injection H as <-; try rewrite Hc in Hlen; cbn in Hlen;
      first [reflexivity | lia] ].

Ltac fails_case :=
  let what := fresh "what" in
  let H := fresh "H" in
  intros what H;
  first [discriminate H | injection H as <-; split; reflexivity].

Ltac one_call Hc :=
  eexists; split; [reflexivity|]; split; [left; reflexivity|];
  split; [intros H; discriminate H|]; split; [chain_case Hc | fails_case].

Ltac two_calls Hc :=
  rewrite <- app_assoc; eexists; split; [reflexivity|];
  split; [right; reflexivity|]; split; [intros _; reflexivity|];
  split; [chain_case Hc | fails_case].

Lemma generate_proof_calls_from E i kp pu tr :
  exists calls,
    snd (generate_proof E i kp pu tr) = tr ++ calls
    /\ (calls = [GetKey kp pu] \/ calls = [GetKey kp pu; signature_proof.Info])
    /\ (is_ok (fst (generate_proof E i kp pu tr)) = true ->
        calls = [GetKey kp pu; signature_proof.Info])
    /\ (forall kr,
          dstack_get_key E kp pu = Returns kr ->
          length (signature_chain kr) < 2 ->
          calls = [GetKey kp pu])
    /\ (forall what,
          dstack_get_key E kp pu = Fails what ->
          calls = [GetKey kp pu]
          /\ fst (generate_proof E i kp pu tr) = Raise (ExternalError what)).
Proof.
  unfold generate_proof. unfold_m.
  destruct (dstack_get_key E kp pu) as [kr|w] eqn:Hk; cbn;
    [|pose proof (eq_refl : 0 = 0) as Hc; one_call Hc].
  destruct (signature_chain kr) as [|a [|k rest]] eqn:Hc; cbn; try one_call Hc.
  destruct (ensure_bytes a); cbn; [|one_call Hc].
  destruct (ensure_bytes k); cbn; [|one_call Hc].
  destruct (Account_from_key E (key kr)); cbn; [|one_call Hc].
  destruct (bytes_fromhex (str_from 2 _)); cbn; [|one_call Hc].
  destruct (dstack_info_app_id E); cbn; [|two_calls Hc].
  destruct (bytes_fromhex (str_from 2 _)); cbn; two_calls Hc.
Qed.

(** X3: [generate_proof] talks to the KeyProvider and to nobody else: it
    asks for the key first and asks for the identity metadata at most
    once, afterwards.  A run that returns a proof made exactly these two
    calls; when the key request fails, or the chain is shorter than 2, the
    metadata is never requested. *)
Theorem generate_proof_calls
    (E : Env) (i kp pu : string) (tr : signature_proof.trace) :
  exists calls,
    snd (generate_proof E i kp pu tr) = tr ++ calls
    /\ (calls = [GetKey kp pu] \/ calls = [GetKey kp pu; signature_proof.Info])
    /\ (is_ok (fst (generate_proof E i kp pu tr)) = true ->
        calls = [GetKey kp pu; signature_proof.Info])
    /\ (forall kr,
          dstack_get_key E kp pu = Returns kr ->
          length (signature_chain kr) < 2 ->
          calls = [GetKey kp pu])
    /\ (forall what,
          dstack_get_key E kp pu = Fails what ->
          calls = [GetKey kp pu]
          /\ fst (generate_proof E i kp pu tr) = Raise (ExternalError what)).
Proof. apply generate_proof_calls_from. Qed.

(** X4: [get_registration_data] queries the ledger exactly once, before
    anything else; the KeyProvider is called only after the ledger has
    returned a token id other than 0; a failing ledger query is passed on
    to the caller as it is. *)
Theorem get_registration_data_calls
    (E : Env) (w i kp pu : string) (tr : signature_proof.trace) :
  exists rest,
    snd (get_registration_data E w i kp pu tr) = tr ++ WalletToTokenId w :: rest
    /\ (rest = [] \/ rest = [GetKey kp pu]
        \/ rest = [GetKey kp pu; signature_proof.Info])
    /\ (rest <> [] -> exists t, walletToTokenId E w = Returns t /\ t <> 0%N)
    /\ (forall what,
          walletToTokenId E w = Fails what ->
          get_registration_data E w i kp pu tr
          = (Raise (ExternalError what), tr ++ [WalletToTokenId w])).
Proof.
  rewrite get_registration_data_run.
  destruct (walletToTokenId E w) as [t|what].
  - destruct (N.eqb_spec t 0) as [Hz|Hnz].
    + exists []. split; [reflexivity|]. split; [left; reflexivity|].
      split; [congruence|]. intros what H. discriminate H.
    + destruct (generate_proof_calls_from E i kp pu (tr ++ [WalletToTokenId w]))
        as (calls & Hsnd & Hcalls & _).
      exists calls. split.
      * destruct (generate_proof E i kp pu (tr ++ [WalletToTokenId w]))
          as [[p|e] tr1]; cbn [snd] in *; rewrite Hsnd, <- app_assoc; reflexivity.
      * split; [right; exact Hcalls|]. split.
        -- intros _. exists t. split; [reflexivity | exact Hnz].
        -- intros what H. discriminate H.
  - exists []. split; [reflexivity|]. split; [left; reflexivity|].
    split; [congruence|]. intros what' [= <-]. reflexivity.
Qed.

(** * Further properties of counter.py *)

(** X5: [ping_leader] never raises, changes no attribute of the node and
    never answers true.  It reads the instance list from the ledger, logs
    why the probe failed and returns false: the failed read, the name
    [aiohttp] that is not bound, or the [TypeError] of entering an
    [aiohttp.ClientTimeout] with [async with].  The HTTP request is never
    made, and the leader address it is given plays no role. *)
Theorem ping_leader_outcome
    (G : gset string) (W : World) (leader leader' : string) (st : state) :
  ping_leader G W leader st = ping_leader G W leader' st
  /\ exists e,
       ping_leader G W leader st
       = (Ok false,
          {| self := self st;
             events :=
               events st ++ [GetActiveInstances; Log Debug (LeaderPingFailed e)] |})
       /\ (forall what, getActiveInstances W = Fails what -> e = ExternalError what)
       /\ (forall instances,
             getActiveInstances W = Returns instances ->
             (("aiohttp" ∉ G) -> e = NameError "aiohttp")
             /\ (("aiohttp" ∈ G) -> e = TypeError)).
Proof.
  split; [reflexivity|].
  destruct (ping_leader_run G W leader st) as (e & Hrun & He).
  exists e. split; [exact Hrun|].
  destruct (getActiveInstances W) as [l|what'].
  - split; [intros what H; discriminate H|].
    intros instances _.
    destruct (decide ("aiohttp" ∈ G)) as [Hin|Hout];
      (split; [intros H | intros H]); first [exact He | contradiction].
  - split; [intros what [= <-]; exact He | intros instances H; discriminate H].
Qed.

Lemma submit_vote_outcome W t f st :
  exists r evs,
    submit_vote W t f st = (r, {| self := self st; events := events st ++ evs |})
    /\ (votes_sent evs = [] \/ votes_sent evs = [castVote t f])
    /\ (is_ok r = true -> votes_sent evs = [castVote t f])
    /\ (votes_sent evs = [castVote t f] ->
        exists k n g sig,
          wallet_private_key (self st) = Some k
          /\ get_transaction_count W (wallet_address (self st)) = Returns n
          /\ gas_price W = Returns g
          /\ sign_transaction W
               {| tx_call := castVote t f;
                  tx_params := {| tx_from := wallet_address (self st);
                                  tx_nonce := n; tx_gas := 200000;
                                  tx_gasPrice := g |} |} k
             = Returns sig).
Proof.
  unfold submit_vote. unfold_c. cbn.
  destruct (get_transaction_count W _) as [n|] eqn:Hn; cbn.
  2:{ eexists _, _. split; [reflexivity|]. split; [left; reflexivity|].
      split; intros H; discriminate H. }
  destruct (gas_price W) as [g|] eqn:Hg; cbn.
  2:{ rewrite <- ?app_assoc. eexists _, _. split; [reflexivity|].
      split; [left; reflexivity|]. split; intros H; discriminate H. }
  destruct (build_transaction W _ _); cbn.
  2:{ rewrite <- ?app_assoc. eexists _, _. split; [reflexivity|].
      split; [left; reflexivity|]. split; intros H; discriminate H. }
  destruct (wallet_private_key (self st)) as [k|]; cbn.
  2:{ rewrite <- ?app_assoc. eexists _, _. split; [reflexivity|].
      split; [left; reflexivity|]. split; intros H; discriminate H. }
  destruct (sign_transaction W _ k) as [sig|] eqn:Hs; cbn.
  2:{ rewrite <- ?app_assoc. eexists _, _. split; [reflexivity|].
      split; [left; reflexivity|]. split; intros H; discriminate H. }
  rewrite <- ?app_assoc. eexists _, _. split; [reflexivity|].
  split; [right; reflexivity|]. split; [intros _; reflexivity|].
  intros _. exists k, n, g, sig. auto.
Qed.

(** X6: [vote_no_confidence] and [vote_confidence] never raise and change
    no attribute of the node.  Each sends at most one transaction, the
    vote against the given leader with its own flag; none is sent when
    the object has no private key. *)
Theorem vote_outcome (W : World) (target : string) (st : state) :
  (exists evs,
     vote_no_confidence W target st
     = (Ok tt, {| self := self st; events := events st ++ evs |})
     /\ (votes_sent evs = [] \/ votes_sent evs = [castVote target true])
     /\ (wallet_private_key (self st) = None -> votes_sent evs = []))
  /\ (exists evs,
        vote_confidence W target st
        = (Ok tt, {| self := self st; events := events st ++ evs |})
        /\ (votes_sent evs = [] \/ votes_sent evs = [castVote target false])
        /\ (wallet_private_key (self st) = None -> votes_sent evs = [])).
Proof.
  split.
  - unfold vote_no_confidence, try_except, bind.
    destruct (submit_vote_outcome W target true st) as (r & evs & -> & Hv & _ & Hk).
    destruct r as [h|e]; unfold log; cbn [self events]; rewrite <- app_assoc;
      eexists; (split; [reflexivity|]); rewrite votes_sent_app, app_nil_r;
      (split; [exact Hv|]); intros Hnone;
      (destruct Hv as [Hv|Hv]; [exact Hv|]);
      destruct (Hk Hv) as (k & _ & _ & _ & Hsome & _); congruence.
  - unfold vote_confidence, try_except, bind.
    destruct (submit_vote_outcome W target false st) as (r & evs & -> & Hv & _ & Hk).
    destruct r as [h|e]; unfold log; cbn [self events]; rewrite <- app_assoc;
      eexists; (split; [reflexivity|]); rewrite votes_sent_app, app_nil_r;
      (split; [exact Hv|]); intros Hnone;
      (destruct Hv as [Hv|Hv]; [exact Hv|]);
      destruct (Hk Hv) as (k & _ & _ & _ & Hsome & _); congruence.
Qed.

(** X7: an increment request on a node that is not the leader changes
    nothing, neither attributes nor events, and is never answered with
    success: the answer is status 403 with the leader-only error when the
    name [web] resolves, and an exception otherwise. *)
Theorem increment_counter_follower_rejects
    (G : gset string) (W : World) (st : state) :
  is_leader (self st) = false ->
  snd (increment_counter G W st) = st
  /\ (forall r,
        fst (increment_counter G W st) = Ok r ->
        status r = 403%Z
        /\ body r = ErrorBody "Only leader can increment counter")
  /\ ("web" ∈ G -> is_ok (fst (increment_counter G W st)) = true)
  /\ ("web" ∉ G -> fst (increment_counter G W st) = Raise (NameError "web")).
Proof.
  intros Hl. rewrite (increment_counter_follower G W st Hl). cbn [fst snd].
  split; [reflexivity|].
  destruct (decide ("web" ∈ G)) as [Hin|Hout].
  - split; [intros r [= <-]; split; reflexivity|].
    split; [reflexivity | contradiction].
  - split; [intros r H; discriminate H|].
    split; [contradiction | reflexivity].
Qed.

Lemma increment_counter_follower_rejects_witness :
  snd (increment_counter (with_imports ["web"]) world_me (boot "n1" me))
  = boot "n1" me.
Proof.
  exact (proj1 (increment_counter_follower_rejects
                  (with_imports ["web"]) world_me (boot "n1" me) eq_refl)).
Defined.

(** What one activity may change. *)
Lemma step_effect G W a st :
  exists c evs,
    step G W a st = {| self := c; events := events st ++ evs |}
    /\ match a with
       | MonitorTurn => c = set_is_leader (polled W (self st)) (self st)
       | HeartbeatTurn =>
           c = self st
           \/ (is_leader (self st) = true /\ "time" ∈ G
               /\ c = set_last_leader_heartbeat (time W) (self st))
       | IncrementRequest =>
           c = self st
           \/ (is_leader (self st) = true /\ ("time" ∉ G)
               /\ c = set_counter_value (counter_value (self st) + 1) (self st))
           \/ (is_leader (self st) = true /\ "time" ∈ G
               /\ exists op,
                    op_new_value op = (counter_value (self st) + 1)%Z
                    /\ c = append_operation op
                             (set_counter_value (counter_value (self st) + 1) (self st)))
       end.
Proof.
  destruct a; cbn [step].
  - destruct (monitor_leader_health_turn_run G W st) as (evs & -> & _).
    eexists _, _. split; reflexivity.
  - unfold leader_heartbeat_turn. unfold_c. cbn.
    destruct (is_leader (self st)) eqn:Hl; cbn.
    + destruct (decide ("time" ∈ G)) as [Ht|Ht]; cbn; rewrite <- ?app_assoc;
        eexists _, _; (split; [reflexivity|]); auto.
    + eexists _, _. split; [reflexivity|]. auto.
  - destruct (is_leader (self st)) eqn:Hl.
    + destruct (decide ("time" ∈ G)) as [Ht|Ht].
      * pose proof (increment_counter_leader_with_time G W st Hl Ht) as Hrun.
        cbv zeta in Hrun. rewrite Hrun. cbn [snd].
        eexists _, _. split; [reflexivity|].
        right. right. split; [reflexivity|]. split; [exact Ht|].
        eexists. split; [|reflexivity]. reflexivity.
      * rewrite (increment_counter_leader_without_time G W st Hl Ht). cbn [snd].
        exists (set_counter_value (counter_value (self st) + 1) (self st)), [].
        rewrite app_nil_r. split; [reflexivity|].
        right. left. auto.
    + rewrite (increment_counter_follower G W st Hl). cbn [snd].
      exists (self st), []. rewrite app_nil_r.
      split; [destruct st; reflexivity|]. left. reflexivity.
Qed.

(** X8: whatever the service does in one activity (a turn of the monitor,
    a turn of the heartbeat, an increment request), the identity of the
    node is kept, events are only added, the log only grows, by at most
    one entry, and the counter either stays or grows by one; counter and
    log change only in an increment request received while [is_leader] is
    true, and [is_leader] changes only in a turn of the monitor. *)
Theorem step_frame (G : gset string) (W : World) (a : activity) (st : state) :
  instance_id (self (step G W a st)) = instance_id (self st)
  /\ wallet_address (self (step G W a st)) = wallet_address (self st)
  /\ wallet_private_key (self (step G W a st)) = wallet_private_key (self st)
  /\ http_client (self (step G W a st)) = http_client (self st)
  /\ (exists evs, events (step G W a st) = events st ++ evs)
  /\ (exists ops,
        operation_log (self (step G W a st)) = operation_log (self st) ++ ops
        /\ length ops <= 1)
  /\ (counter_value (self (step G W a st)) = counter_value (self st)
      \/ counter_value (self (step G W a st)) = (counter_value (self st) + 1)%Z)
  /\ (counter_value (self (step G W a st)) <> counter_value (self st)
      \/ operation_log (self (step G W a st)) <> operation_log (self st) ->
      a = IncrementRequest /\ is_leader (self st) = true)
  /\ (is_leader (self (step G W a st)) <> is_leader (self st) -> a = MonitorTurn).
Proof.
  destruct (step_effect G W a st) as (c & evs & -> & Hc).
  cbn [self events].
  destruct a.
  - subst c. cbn.
    repeat (split; [reflexivity|]).
    split; [exists evs; reflexivity|].
    split; [exists []; rewrite app_nil_r; split; [reflexivity | cbn; lia]|].
    split; [left; reflexivity|].
    split; [intros [H|H]; congruence | reflexivity].
  - assert (Hsame : instance_id c = instance_id (self st)
                    /\ wallet_address c = wallet_address (self st)
                    /\ wallet_private_key c = wallet_private_key (self st)
                    /\ http_client c = http_client (self st)
                    /\ operation_log c = operation_log (self st)
                    /\ counter_value c = counter_value (self st)
                    /\ is_leader c = is_leader (self st)).
    { destruct Hc as [->|(_ & _ & ->)]; cbn; repeat split. }
    destruct Hsame as (-> & -> & -> & -> & -> & -> & ->).
    repeat (split; [reflexivity|]).
    split; [exists evs; reflexivity|].
    split; [exists []; rewrite app_nil_r; split; [reflexivity | cbn; lia]|].
    split; [left; reflexivity|].
    split; [intros [H|H]; congruence | congruence].
  - destruct Hc as [->|[(Hl & _ & ->)|(Hl & _ & op & _ & ->)]]; cbn.
    + repeat (split; [reflexivity|]).
      split; [exists evs; reflexivity|].
      split; [exists []; rewrite app_nil_r; split; [reflexivity | cbn; lia]|].
      split; [left; reflexivity|].
      split; [intros [H|H]; congruence | congruence].
    + repeat (split; [reflexivity|]).
      split; [exists evs; reflexivity|].
      split; [exists []; rewrite app_nil_r; split; [reflexivity | cbn; lia]|].
      split; [right; reflexivity|].
      split; [intros _; split; [reflexivity | exact Hl] | congruence].
    + repeat (split; [reflexivity|]).
      split; [exists evs; reflexivity|].
      split; [exists [op]; split; [reflexivity | cbn; lia]|].
      split; [right; reflexivity|].
      split; [intros _; split; [reflexivity | exact Hl] | congruence].
Qed.

(** X9: at every reachable state, whatever names the module has imported,
    the log is never longer than the counter and its i-th entry (from 1)
    records i, so the recorded values increase; the log stays empty
    without the name [time], and counter and log agree with it. *)
Theorem reachable_log_bounded (G : gset string) (st : state) :
  reachable G st ->
  (Z.of_nat (length (operation_log (self st))) <= counter_value (self st))%Z
  /\ (forall (i : nat) (op : Operation),
        operation_log (self st) !! i = Some op ->
        op_new_value op = Z.of_nat (S i))
  /\ ("time" ∉ G -> operation_log (self st) = [])
  /\ ("time" ∈ G ->
      counter_value (self st) = Z.of_nat (length (operation_log (self st)))).
Proof.
  induction 1 as [i w | W a st Hr (Hle & Hlog & Hempty & Heq)].
  - cbn. split; [lia|]. split; [intros j op Hj; discriminate Hj|].
    split; reflexivity.
  - destruct (step_effect G W a st) as (c & evs & -> & Hc). cbn [self].
    assert (Hsame : operation_log c = operation_log (self st)
                    /\ counter_value c = counter_value (self st) ->
                    (Z.of_nat (length (operation_log c)) <= counter_value c)%Z
                    /\ (forall (i : nat) (op : Operation),
                          operation_log c !! i = Some op ->
                          op_new_value op = Z.of_nat (S i))
                    /\ ("time" ∉ G -> operation_log c = [])
                    /\ ("time" ∈ G ->
                        counter_value c = Z.of_nat (length (operation_log c)))).
    { intros [-> ->]. auto. }
    destruct a.
    + subst c. apply Hsame. split; reflexivity.
    + destruct Hc as [->|(_ & _ & ->)]; apply Hsame; split; reflexivity.
    + destruct Hc as [->|[(_ & Ht & ->)|(_ & Ht & op & Hop & ->)]].
      * apply Hsame. split; reflexivity.
      * cbn. split; [lia|]. split; [exact Hlog|].
        split; [exact Hempty | contradiction].
      * specialize (Heq Ht). cbn. rewrite length_app. cbn.
        split; [lia|]. split; [|split; [contradiction | intros _; lia]].
        intros j op' Hj.
        apply lookup_app_Some in Hj as [Hj | [Hge Hj]].
        -- apply Hlog. exact Hj.
        -- apply list_lookup_singleton_Some in Hj as [Hj <-].
           rewrite Hop, Heq. lia.
Qed.

Lemma reachable_log_bounded_witness :
  (Z.of_nat (length (operation_log (self st_incremented)))
   <= counter_value (self st_incremented))%Z.
Proof.
  refine (proj1 (reachable_log_bounded counter_py_globals st_incremented _)).
  unfold st_incremented, st_leader.
  apply reachable_step, reachable_step, reachable_boot.
Defined.

(** X10: any number of turns of the monitor loop never raise; they leave
    counter, log and identity of the node untouched, and the leadership
    flag they leave is decided by the last turn that could read the
    ledger: true exactly when that read returned the local account, and
    the flag from before when no turn could read it. *)
Theorem monitor_leader_health_turns (G : gset string) (turns : list World) :
  forall st,
    fst (monitor_leader_health G turns st) = Ok tt
    /\ is_leader (self (snd (monitor_leader_health G turns st)))
       = leader_flag (wallet_address (self st)) turns (is_leader (self st))
    /\ wallet_address (self (snd (monitor_leader_health G turns st)))
       = wallet_address (self st)
    /\ counter_value (self (snd (monitor_leader_health G turns st)))
       = counter_value (self st)
    /\ operation_log (self (snd (monitor_leader_health G turns st)))
       = operation_log (self st).
Proof.
  induction turns as [|W later IH]; intros st.
  - cbn. auto.
  - cbn [monitor_leader_health]. unfold bind.
    destruct (monitor_leader_health_turn_run G W st) as (evs & -> & _).
    specialize (IH {| self := set_is_leader (polled W (self st)) (self st);
                      events := events st ++ evs |}).
    cbn [self events wallet_address is_leader counter_value operation_log
         set_is_leader] in IH.
    destruct IH as (Hok & Hflag & Haddr & Hc & Hlog).
    split; [exact Hok|]. split; [|auto].
    rewrite Hflag. cbn [leader_flag fold_left]. unfold polled. reflexivity.
Qed.

(** * Properties of the rest of signature_proof.py *)

Import generator.

Lemma or_default_not_empty x d : d <> "" -> or_default x d <> "".
Proof.
  intros Hd. destruct x as [s|]; cbn; [|exact Hd].
  destruct s; cbn; [exact Hd | discriminate].
Qed.

Lemma get_dstack_info_run H g tr :
  get_dstack_info H g tr
  = (Ok match dstack_info_app_id (env H) with
        | Returns app_id => Available app_id (dstack_socket g)
        | Fails what => Unavailable (ExternalError what) (dstack_socket g)
        end,
     tr ++ [signature_proof.Info]).
Proof.
  unfold get_dstack_info, try_except, bind, signature_proof.call, ret.
  destruct (dstack_info_app_id (env H)); reflexivity.
Qed.

(** X11: a generator can only be made when [dstack_sdk] was importable;
    its socket is the one given, or the default path when none or an empty
    one is given, and so is never empty.  [get_dstack_info] never raises:
    it asks the KeyProvider once and reports the application id when the
    call returned and the error when it failed, with the socket in both
    cases. *)
Theorem generator_socket_and_info (H : Host) (socket : option string)
    (evs evs' : list event) (g : SignatureProofGenerator) :
  new H socket evs = (Value g, evs') ->
  DSTACK_AVAILABLE H = true
  /\ dstack_socket g <> ""
  /\ dstack_socket g
     = match socket with
       | Some s => if (String.length s =? 0)%nat then "./simulator/dstack.sock" else s
       | None => "./simulator/dstack.sock"
       end
  /\ evs' = evs ++ [NewDstackClient (dstack_socket g)]
  /\ forall tr,
       exists info,
         get_dstack_info H g tr = (Ok info, tr ++ [signature_proof.Info])
         /\ (forall app_id,
               dstack_info_app_id (env H) = Returns app_id <->
               info = Available app_id (dstack_socket g))
         /\ (forall what,
               dstack_info_app_id (env H) = Fails what <->
               info = Unavailable (ExternalError what) (dstack_socket g)).
Proof.
  unfold new. destruct (DSTACK_AVAILABLE H); cbn; [|intros Hn; discriminate Hn].
  destruct (DstackClient H _); intros [= <- <-]. cbn.
  split; [reflexivity|].
  split; [apply or_default_not_empty; discriminate|].
  split; [reflexivity|]. split; [reflexivity|].
  intros tr. rewrite get_dstack_info_run. eexists. split; [reflexivity|].
  destruct (dstack_info_app_id (env H)) as [aid|w]; cbn; split.
  - intros b. split; [intros [= <-]; reflexivity | intros [= <-]; reflexivity].
  - intros what. split; intros Hx; discriminate Hx.
  - intros b. split; intros Hx; discriminate Hx.
  - intros what. split; [intros [= <-]; reflexivity | intros [= <-]; reflexivity].
Qed.

Lemma generator_socket_and_info_witness :
  exists g,
    new service_inputs.host_ok None [] = (Value g, [NewDstackClient "./simulator/dstack.sock"])
    /\ dstack_socket g = "./simulator/dstack.sock"
    /\ fst (get_dstack_info service_inputs.host_ok g [])
       = Ok (Available inputs.app_id_20 "./simulator/dstack.sock").
Proof.
  exists {| dstack_socket := "./simulator/dstack.sock" |}. split; [reflexivity|].
  destruct (generator_socket_and_info service_inputs.host_ok None []
              [NewDstackClient "./simulator/dstack.sock"]
              {| dstack_socket := "./simulator/dstack.sock" |} eq_refl)
    as (_ & _ & Hsocket & _ & Hinfo).
  split; [exact Hsocket|].
  destruct (Hinfo []) as (info & Hrun & Hav & _).
  rewrite Hrun. cbn [fst]. f_equal.
  exact (proj1 (Hav inputs.app_id_20) eq_refl).
Defined.

Lemma method_run {A} (m : M signature_proof.trace A) evs :
  method m evs = (of_result (fst (m [])), evs ++ map Method (snd (m []))).
Proof. unfold method. destruct (m []) as [r tr]. reflexivity. Qed.

Ltac absurd_in Hin :=
  cbn in Hin;
  repeat (destruct Hin as [Hin|Hin]; [try discriminate Hin|]);
  try contradiction.

Ltac is_in := cbn; repeat (first [left; reflexivity | right]).

(** X12: [test_signature_proof] never raises.  It asks for a key only
    after the KeyProvider's [info()] has answered, and whenever a proof
    was generated it prints the verdict of [verify_proof_format] and then
    reports completion, whether the verdict is true or false; every run
    prints the completion line, the skipping line or the failure line. *)
Theorem test_signature_proof_outcome (H : Host) (evs : list event) :
  exists out,
    test_signature_proof H evs = (Value tt, evs ++ out)
    /\ (In (Method (GetKey "test/path" "ethereum")) out ->
        DSTACK_AVAILABLE H = true
        /\ exists app_id, dstack_info_app_id (env H) = Returns app_id)
    /\ (forall p,
          In (Print (GeneratedProofLine p)) out ->
          In (Print (FormatValidLine (six_rules p))) out
          /\ In (Print CompletedLine) out)
    /\ (In (Print CompletedLine) out
        \/ In (Print SkippingLine) out
        \/ exists e, In (Print (TestFailedLine e)) out).
Proof.
  unfold test_signature_proof, except_Exception.
  unfold and_then at 1. unfold new.
  destruct (DSTACK_AVAILABLE H) eqn:Hav; cbn [negb].
  2:{ eexists. split; [unfold and_then, print; cbn; rewrite <- ?app_assoc; reflexivity|].
      split; [intros Hin; absurd_in Hin|].
      split; [intros p Hin; absurd_in Hin|].
      right. right. eexists. is_in. }
  destruct (DstackClient H (or_default None default_socket)) as [[]|what]; cbn [is_Exception].
  2:{ eexists. split; [unfold and_then, print; cbn; rewrite <- ?app_assoc; reflexivity|].
      split; [intros Hin; absurd_in Hin|].
      split; [intros p Hin; absurd_in Hin|].
      right. right. eexists. is_in. }
  unfold and_then at 1. rewrite method_run, get_dstack_info_run. cbn [fst snd of_result map].
  destruct (dstack_info_app_id (env H)) as [aid|what] eqn:Hinfo.
  2:{ eexists. split; [unfold and_then, print; cbn; rewrite <- ?app_assoc; reflexivity|].
      split; [intros Hin; absurd_in Hin|].
      split; [intros p Hin; absurd_in Hin|].
      right. left. is_in. }
  unfold and_then at 1. unfold print at 1.
  unfold and_then at 1. rewrite method_run.
  destruct (generate_proof_calls_from (env H) "test-node" "test/path" "ethereum" [])
    as (calls & Hsnd & Hcalls & _).
  cbn [app] in Hsnd. rewrite Hsnd.
  destruct (fst (generate_proof (env H) "test-node" "test/path" "ethereum" []))
    as [p|e]; cbn [of_result is_Exception].
  2:{ eexists. split; [unfold and_then, print; cbn; rewrite <- ?app_assoc; reflexivity|].
      split; [intros _; split; [reflexivity | eexists; reflexivity]|].
      split; [intros p Hin; destruct Hcalls as [-> | ->]; absurd_in Hin|].
      right. right. eexists. destruct Hcalls as [-> | ->]; is_in. }
  unfold and_then at 1. unfold print at 1.
  unfold and_then at 1. rewrite method_run.
  destruct (verify_proof_format_run p []) as (logs & Hv & Hlogs). rewrite Hv.
  cbn [fst snd of_result app].
  unfold and_then, print. cbn [fst snd].
  eexists. split; [rewrite <- ?app_assoc; reflexivity|].
  split; [intros _; split; [reflexivity | eexists; reflexivity]|].
  split.
  - intros p' Hin.
    assert (p' = p) as ->.
    { destruct Hcalls as [-> | ->]; cbn in Hin;
        repeat (destruct Hin as [Hin|Hin]; [try discriminate Hin|]);
        try (injection Hin as ->; reflexivity).
      all: apply in_app_or in Hin as [Hin|Hin];
        [ apply in_map_iff in Hin as (x & Hx & _); discriminate Hx
        | absurd_in Hin ]. }
    split; destruct Hcalls as [-> | ->]; cbn;
      repeat (first [left; reflexivity | right]);
      apply in_or_app; right; is_in.
  - left. destruct Hcalls as [-> | ->]; cbn;
      repeat (first [left; reflexivity | right]);
      apply in_or_app; right; is_in.
Qed.

(** * Properties of the rest of counter.py *)

Import service service_inputs.

(** ** register_instance *)

Lemma dstack_run {A} (m : R (list generator.event) A) st :
  dstack m st
  = (fst (m []), {| self := self st; events := events st ++ map Dstack (snd (m [])) |}).
Proof. unfold dstack. destruct (m []) as [r evs]. reflexivity. Qed.

Lemma generator_new_run H socket evs :
  generator.new H socket evs
  = if generator.DSTACK_AVAILABLE H
    then
      (match generator.DstackClient H
               (generator.or_default socket generator.default_socket) with
       | Returns _ =>
           Value {| generator.dstack_socket :=
                      generator.or_default socket generator.default_socket |}
       | Fails what => Run.Error (Exn (ExternalError what))
       end,
       evs ++ [generator.NewDstackClient
                 (generator.or_default socket generator.default_socket)])
    else (Run.Error (RuntimeError "DStack SDK is required but not available"), evs).
Proof.
  unfold generator.new. destruct (generator.DSTACK_AVAILABLE H); cbn; [|reflexivity].
  destruct (generator.DstackClient H _); reflexivity.
Qed.

Lemma sent_methods (tr : signature_proof.trace) :
  sent (map Dstack (map generator.Method tr)) = [].
Proof. induction tr as [|ev tr IH]; [reflexivity | exact IH]. Qed.

Lemma sent_app (l k : list event) : sent (l ++ k) = sent l ++ sent k.
Proof. apply omap_app. Qed.

Lemma not_in_methods (ev : event) (tr : signature_proof.trace) :
  (forall e, ev <> Dstack (generator.Method e)) ->
  ~ In ev (map Dstack (map generator.Method tr)).
Proof.
  intros Hev Hin. rewrite map_map in Hin.
  apply in_map_iff in Hin as (e & He & _). exact (Hev e (eq_sym He)).
Qed.

(** Steps of a run. *)
Ltac step_read := unfold and_then at 1; unfold read at 1; cbn [self events].
Ltac step_update := unfold and_then at 1; unfold update at 1; cbn [self events].
Ltac step_local := unfold and_then at 1; unfold local at 1.
Ltac step_ext := unfold and_then at 1; unfold ext at 1; cbn [self events].
Ltac step_log := unfold and_then at 1; unfold log at 1, emit at 1; cbn [self events].

(** [register_instance] up to the request for registration data. *)
Ltac register_prefix :=
  unfold register_instance;
  step_log;
  unfold except_Exception;
  step_read;
  unfold and_then at 1; rewrite dstack_run, generator_new_run.

Ltac register_data :=
  cbn [fst snd map app self events];
  do 4 step_read;
  unfold and_then at 1; rewrite dstack_run, method_run;
  cbn [fst snd map self events].

Ltac show_in :=
  cbn [app In]; rewrite ?in_app_iff; cbn [In];
  repeat (first [left; reflexivity | right]).

Ltac close_run := cbn; rewrite <- ?app_assoc; reflexivity.

(** X13: a wallet that holds no NFT is not registered.  When the ledger's
    [walletToTokenId] answers 0, [register_instance] logs the failure and
    re-raises the no-NFT error of [get_registration_data]; the KeyProvider
    is not asked for a key, no transaction is built or sent, and the node
    is left as it was. *)
Theorem register_instance_without_token (W : World) (st : state) :
  generator.DSTACK_AVAILABLE (host W) = true ->
  generator.DstackClient (host W) (generator_socket (self st)) = Returns tt ->
  signature_proof.walletToTokenId (generator.env (host W))
    (counter.wallet_address (base (self st))) = Returns 0%N ->
  register_instance W st
  = (Run.Error (Exn (NoNFTFound (counter.wallet_address (base (self st))))),
     {| self := self st;
        events :=
          events st ++
          [ Log Registering;
            Dstack (generator.NewDstackClient (generator_socket (self st)));
            Dstack (generator.Method
                      (signature_proof.WalletToTokenId
                         (counter.wallet_address (base (self st)))));
            Log (RegistrationFailed
                   (Exn (NoNFTFound (counter.wallet_address (base (self st)))))) ] |}).
Proof.
  unfold generator_socket. intros Hav Hclient Htoken.
  register_prefix. rewrite Hav, Hclient. register_data.
  rewrite get_registration_data_run, Htoken. close_run.
Qed.

Lemma register_instance_without_token_witness :
  register_instance world_no_token (fresh node_1)
  = (Run.Error (Exn (NoNFTFound scenarios.me)),
     {| self := node_1;
        events :=
          [ Log Registering;
            Dstack (generator.NewDstackClient "/var/run/dstack.sock");
            Dstack (generator.Method (signature_proof.WalletToTokenId scenarios.me));
            Log (RegistrationFailed (Exn (NoNFTFound scenarios.me))) ] |}).
Proof.
  exact (register_instance_without_token world_no_token (fresh node_1)
           eq_refl eq_refl eq_refl).
Defined.

(** X14: when registration data was assembled and every call up to the
    receipt answers, [register_instance] stores the token id and the
    instance id hash in the node and sends exactly one transaction: the
    call [registerInstanceWithProof] on the six fields of the registration
    data, from the node's wallet, with gas 500000 and the nonce read from
    the endpoint, signed by the node's account.  It returns normally when
    the receipt's status is 1, whatever [updateClusterSize] answers, and
    raises the RuntimeError of line 192 otherwise; [updateClusterSize] is
    called exactly when the status is 1.  With any other status the token
    id stays stored although the registration failed. *)
Theorem register_instance_submits (W : World) (st : state)
    (rd : signature_proof.RegistrationData.t) (tr : signature_proof.trace)
    (nonce : Z) (sig : list byte) (tx_hash : string) (receipt_status : Z) :
  generator.DSTACK_AVAILABLE (host W) = true ->
  generator.DstackClient (host W) (generator_socket (self st)) = Returns tt ->
  registration_data W (self st) = (Ok rd, tr) ->
  check_arguments W (registration_call rd) = Returns tt ->
  get_transaction_count W (counter.wallet_address (base (self st))) = Returns nonce ->
  build_transaction W (registration_tx (self st) rd nonce) = Returns tt ->
  sign_transaction W (registration_tx (self st) rd nonce) = Returns sig ->
  send_raw_transaction W
    {| payload := registration_tx (self st) rd nonce; signature := sig |}
  = Returns tx_hash ->
  wait_for_transaction_receipt W tx_hash = Returns receipt_status ->
  exists out,
    register_instance W st
    = (if (receipt_status =? 1)%Z then Value tt
       else Run.Error (RuntimeError "Registration with proof failed"),
       {| self := registered rd (self st); events := events st ++ out |})
    /\ sent out
       = [ {| payload := registration_tx (self st) rd nonce; signature := sig |} ]
    /\ (In UpdateClusterSize out <-> receipt_status = 1%Z)
    /\ (receipt_status = 1%Z -> In (Log (RegisteredWithProof tx_hash)) out)
    /\ (receipt_status <> 1%Z ->
        last out
        = Some (Log (RegistrationFailed
                       (RuntimeError "Registration with proof failed")))).
Proof.
  unfold generator_socket, registration_data, registration_tx.
  intros Hav Hclient Hdata Hcheck Hnonce Hbuild Hsign Hsend Hwait.
  register_prefix. rewrite Hav, Hclient. register_data. rewrite Hdata.
  cbn [fst snd of_result app].
  do 2 step_update.
  step_local. fold (registration_call rd). rewrite Hcheck. cbn [of_outcome of_result].
  step_ext. cbn [base set_instance_id_bytes32 set_token_id]. rewrite Hnonce.
  cbn [of_outcome of_result].
  step_ext. rewrite Hbuild. cbn [of_outcome of_result].
  step_local. rewrite Hsign. cbn [of_outcome of_result].
  step_ext. rewrite Hsend. cbn [of_outcome of_result].
  step_ext. rewrite Hwait. cbn [of_outcome of_result].
  unfold and_then at 1.
  destruct (receipt_status =? 1)%Z eqn:Hstatus.
  - apply Z.eqb_eq in Hstatus. subst receipt_status.
    unfold log at 1, emit at 1. cbn [self events].
    unfold except_Exception, and_then, ext, log, emit. cbn [self events].
    destruct (updateClusterSize W) as [[]|what];
      cbn [of_outcome of_result is_Exception self events];
      (eexists; split; [unfold registered; rewrite <- ?app_assoc; reflexivity|]);
      (split;
       [ rewrite !sent_app, sent_methods; reflexivity
       | split; [split; [reflexivity | intros _; show_in]|] ]);
      (split; [intros _; show_in | intros Hne; contradiction]).
  - apply Z.eqb_neq in Hstatus.
    unfold throw at 1. cbn [is_Exception].
    unfold and_then, log, emit, throw. cbn [self events].
    eexists; split; [unfold registered; rewrite <- ?app_assoc; reflexivity|].
    split; [rewrite !sent_app, sent_methods; reflexivity|].
    split.
    + split; [|intros Heq; contradiction].
      intros Hin. exfalso. cbn [app] in Hin.
      destruct Hin as [Hin|[Hin|Hin]]; [discriminate Hin | discriminate Hin |].
      apply in_app_or in Hin as [Hin|Hin].
      * revert Hin. apply not_in_methods. intros e He. discriminate He.
      * absurd_in Hin.
    + split; [intros Heq; contradiction|].
      intros _. cbn [app]. rewrite !last_cons, last_app. reflexivity.
Qed.

Lemma register_instance_submits_witness :
  exists out,
    register_instance world_reverted (fresh node_1)
    = (Run.Error (RuntimeError "Registration with proof failed"),
       {| self := set_instance_id_bytes32 (VBytes (inputs.zeros 32))
                    (set_token_id (Some 7%N) node_1);
          events := out |})
    /\ length (sent out) = 1%nat
    /\ ~ In UpdateClusterSize out.
Proof.
  destruct (registration_data world_reverted node_1) as [[rd|e] tr] eqn:Hdata;
    [|vm_compute in Hdata; discriminate Hdata].
  destruct (register_instance_submits world_reverted (fresh node_1) rd tr
              3 (replicate 65 x01) "0xb2" 0
              eq_refl eq_refl Hdata eq_refl eq_refl eq_refl eq_refl eq_refl eq_refl)
    as (out & Hrun & Hsent & Hcluster & _).
  exists out. rewrite Hrun, Hsent.
  vm_compute in Hdata. injection Hdata as <- _.
  split; [reflexivity|]. split; [reflexivity|].
  intros Hin. apply Hcluster in Hin. discriminate Hin.
Defined.

Ltac sent_out := rewrite ?sent_app, ?sent_methods; cbn [sent omap app].

Ltac no_send :=
  let raw := fresh "raw" in
  let Hin := fresh "Hin" in
  intros raw Hin; exfalso; revert Hin;
  rewrite ?sent_app, ?sent_methods; cbn; tauto.

(** X15: every run of [register_instance], whatever the collaborators
    answer.  The node is unchanged or differs by the stored registration
    data only; at most one transaction is sent, and it is the registration
    call on data [get_registration_data] returned, with the nonce read and
    the signature made for it; every error is logged as the last record and
    re-raised as it is; the method returns normally only when the
    transaction was sent and its receipt has status 1. *)
Theorem register_instance_frame (W : World) (st : state) :
  exists r n' out,
    register_instance W st = (r, {| self := n'; events := events st ++ out |})
    /\ (n' = self st
        \/ exists rd tr,
             registration_data W (self st) = (Ok rd, tr)
             /\ n' = registered rd (self st))
    /\ (forall raw,
          In raw (sent out) ->
          sent out = [raw]
          /\ exists rd tr nonce,
               registration_data W (self st) = (Ok rd, tr)
               /\ get_transaction_count W (counter.wallet_address (base (self st)))
                  = Returns nonce
               /\ payload raw = registration_tx (self st) rd nonce
               /\ sign_transaction W (payload raw) = Returns (signature raw))
    /\ (forall e, r = Run.Error e -> last out = Some (Log (RegistrationFailed e)))
    /\ (r = Value tt ->
        exists raw tx_hash,
          sent out = [raw]
          /\ send_raw_transaction W raw = Returns tx_hash
          /\ wait_for_transaction_receipt W tx_hash = Returns 1%Z).
Proof.
  unfold registration_data, registration_tx.
  register_prefix.
  destruct (generator.DSTACK_AVAILABLE (host W)).
  2:{ eexists _, _, _. split; [close_run|].
      split; [left; reflexivity|]. split; [no_send|].
      split; [intros e [= <-]; reflexivity | intros Hr; discriminate Hr]. }
  destruct (generator.DstackClient (host W) _) as [[]|what].
  2:{ eexists _, _, _. split; [close_run|].
      split; [left; reflexivity|]. split; [no_send|].
      split; [intros e [= <-]; reflexivity | intros Hr; discriminate Hr]. }
  register_data.
  destruct (signature_proof.get_registration_data _ _ _ _ _ []) as [[rd|e] tr] eqn:Hdata.
  2:{ cbn [fst snd of_result app is_Exception].
      unfold and_then, log, emit, throw. cbn [self events].
      eexists _, _, _. split; [rewrite <- ?app_assoc; reflexivity|].
      split; [left; reflexivity|]. split; [no_send|].
      split; [|intros Hr; discriminate Hr].
      intros e' [= <-]. rewrite !last_app. reflexivity. }
  cbn [fst snd of_result app].
  do 2 step_update.
  step_local. fold (registration_call rd).
  destruct (check_arguments W (registration_call rd)) as [[]|what];
    cbn [of_outcome of_result is_Exception].
  2:{ unfold and_then, log, emit, throw. cbn [self events].
      eexists _, _, _. split; [rewrite <- ?app_assoc; reflexivity|].
      split; [right; eexists _, _; split; reflexivity|]. split; [no_send|].
      split; [|intros Hr; discriminate Hr].
      intros e' [= <-]. rewrite !last_app. reflexivity. }
  step_ext. cbn [base set_instance_id_bytes32 set_token_id].
  destruct (get_transaction_count W _) as [nonce|what] eqn:Hnonce;
    cbn [of_outcome of_result is_Exception].
  2:{ unfold and_then, log, emit, throw. cbn [self events].
      eexists _, _, _. split; [rewrite <- ?app_assoc; reflexivity|].
      split; [right; eexists _, _; split; reflexivity|]. split; [no_send|].
      split; [|intros Hr; discriminate Hr].
      intros e' [= <-]. rewrite !last_app. reflexivity. }
  step_ext.
  destruct (build_transaction W _) as [[]|what];
    cbn [of_outcome of_result is_Exception].
  2:{ unfold and_then, log, emit, throw. cbn [self events].
      eexists _, _, _. split; [rewrite <- ?app_assoc; reflexivity|].
      split; [right; eexists _, _; split; reflexivity|]. split; [no_send|].
      split; [|intros Hr; discriminate Hr].
      intros e' [= <-]. rewrite !last_app. reflexivity. }
  step_local.
  destruct (sign_transaction W _) as [sig|what] eqn:Hsign;
    cbn [of_outcome of_result is_Exception].
  2:{ unfold and_then, log, emit, throw. cbn [self events].
      eexists _, _, _. split; [rewrite <- ?app_assoc; reflexivity|].
      split; [right; eexists _, _; split; reflexivity|]. split; [no_send|].
      split; [|intros Hr; discriminate Hr].
      intros e' [= <-]. rewrite !last_app. reflexivity. }
  step_ext.
  assert (forall out : list event,
             sent out = [ {| payload :=
                               {| tx_call := registration_call rd;
                                  tx_params :=
                                    {| tx_from := counter.wallet_address (base (self st));
                                       tx_gas := 500000; tx_nonce := nonce |} |};
                             signature := sig |} ] ->
             forall raw,
               In raw (sent out) ->
               sent out = [raw]
               /\ exists rd' tr' nonce',
                    (Ok rd, tr) = (Ok rd', tr')
                    /\ Returns nonce = Returns nonce'
                    /\ payload raw
                       = {| tx_call := registration_call rd';
                            tx_params :=
                              {| tx_from := counter.wallet_address (base (self st));
                                 tx_gas := 500000; tx_nonce := nonce' |} |}
                    /\ sign_transaction W (payload raw) = Returns (signature raw))
    as Hsent.
  { intros out Hout raw Hin. rewrite Hout in Hin |- *.
    destruct Hin as [<-|[]]. split; [reflexivity|].
    eexists _, _, _. split; [reflexivity|]. split; [reflexivity|].
    split; [reflexivity|]. exact Hsign. }
  destruct (send_raw_transaction W _) as [tx_hash|what] eqn:Hsend;
    cbn [of_outcome of_result is_Exception].
  2:{ unfold and_then, log, emit, throw. cbn [self events].
      eexists _, _, _. split; [rewrite <- ?app_assoc; reflexivity|].
      split; [right; eexists _, _; split; reflexivity|].
      split; [apply Hsent; rewrite !sent_app, sent_methods; reflexivity|].
      split; [|intros Hr; discriminate Hr].
      intros e' [= <-]. rewrite !last_app. reflexivity. }
  step_ext.
  destruct (wait_for_transaction_receipt W tx_hash) as [receipt_status|what] eqn:Hwait;
    cbn [of_outcome of_result is_Exception].
  2:{ unfold and_then, log, emit, throw. cbn [self events].
      eexists _, _, _. split; [rewrite <- ?app_assoc; reflexivity|].
      split; [right; eexists _, _; split; reflexivity|].
      split; [apply Hsent; rewrite !sent_app, sent_methods; reflexivity|].
      split; [|intros Hr; discriminate Hr].
      intros e' [= <-]. rewrite !last_app. reflexivity. }
  unfold and_then at 1.
  destruct (receipt_status =? 1)%Z eqn:Hstatus.
  2:{ unfold throw at 1. cbn [is_Exception].
      unfold and_then, log, emit, throw. cbn [self events].
      eexists _, _, _. split; [rewrite <- ?app_assoc; reflexivity|].
      split; [right; eexists _, _; split; reflexivity|].
      split; [apply Hsent; rewrite !sent_app, sent_methods; reflexivity|].
      split; [|intros Hr; discriminate Hr].
      intros e' [= <-]. rewrite !last_app. reflexivity. }
  apply Z.eqb_eq in Hstatus. subst receipt_status.
  unfold log at 1, emit at 1. cbn [self events].
  unfold except_Exception, and_then, ext, log, emit. cbn [self events].
  destruct (updateClusterSize W) as [[]|what];
    cbn [of_outcome of_result is_Exception self events];
    (eexists _, _, _; split; [rewrite <- ?app_assoc; reflexivity|]);
    (split; [right; eexists _, _; split; reflexivity|]);
    (split; [apply Hsent; rewrite !sent_app, sent_methods; reflexivity|]);
    (split; [intros e' He'; discriminate He'|]);
    intros _; eexists _, _;
    (split; [rewrite !sent_app, sent_methods; reflexivity|]);
    (split; [exact Hsend | exact Hwait]).
Qed.

(** ** The HTTP handlers *)

Lemma lookup_bound {S} (G : gset string) (name : string) (s : S) :
  name ∈ G -> lookup G name s = (Value tt, s).
Proof. intros Hin. unfold lookup. destruct (decide (name ∈ G)); [reflexivity | contradiction]. Qed.

Lemma lookup_unbound {S} (G : gset string) (name : string) (s : S) :
  name ∉ G -> lookup G name s = (Run.Error (Exn (NameError name)), s).
Proof. intros Hin. unfold lookup. destruct (decide (name ∈ G)); [contradiction | reflexivity]. Qed.

(** X16: the HTTP handlers need the name [web], which counter.py never
    imports.  [get_counter], [get_log], [get_status], [get_members] and
    [get_wallet_info_endpoint] answer exactly when [web] is bound and raise
    NameError otherwise ([get_status] and [get_members] also from their
    [except] branch, after the ledger was read); [health_check] needs
    [time] as well.  No handler changes the node, and [health_check] calls
    nobody. *)
Theorem handlers_need_web (G : gset string) (W : World) (st : state) :
  (forall handler : R state Response,
      In handler
         [ get_counter G; get_log G; get_status G W; get_members G W;
           get_wallet_info_endpoint G ] ->
      (is_value (fst (handler st)) = true <-> "web" ∈ G)
      /\ (("web" ∉ G) -> fst (handler st) = Run.Error (Exn (NameError "web")))
      /\ self (snd (handler st)) = self st)
  /\ (is_value (fst (health_check G W st)) = true <-> ("web" ∈ G) /\ ("time" ∈ G))
  /\ (("web" ∉ G) -> fst (health_check G W st) = Run.Error (Exn (NameError "web")))
  /\ (("web" ∈ G) -> ("time" ∉ G) ->
      fst (health_check G W st) = Run.Error (Exn (NameError "time")))
  /\ snd (health_check G W st) = st.
Proof.
  assert (forall name : string,
             ((name ∈ G) /\ forall s : state, lookup G name s = (Value tt, s))
             \/ ((name ∉ G)
                 /\ forall s : state, lookup G name s = (Run.Error (Exn (NameError name)), s)))
    as Hname.
  { intros name. destruct (decide (name ∈ G)) as [Hb|Hb];
      [left | right]; (split; [exact Hb|]); intros s;
      [apply lookup_bound | apply lookup_unbound]; exact Hb. }
  split.
  - intros handler Hin.
    destruct (Hname "web") as [[Hweb Hlookup] | [Hweb Hlookup]];
      cbn [In] in Hin;
      repeat (destruct Hin as [<- | Hin]); try contradiction;
      unfold get_counter, get_log, get_status, get_members,
        get_wallet_info_endpoint, except_Exception, and_then, ext, read, pure;
      rewrite ?Hlookup.
    all: try (destruct (totalActiveNodes W); cbn; rewrite ?Hlookup;
              [destruct (requiredVotes W); cbn; rewrite ?Hlookup;
               [destruct (currentLeader W); cbn; rewrite ?Hlookup|]|]).
    all: try (destruct (getActiveInstances W); cbn; rewrite ?Hlookup).
    all: cbn.
    all: repeat split; try reflexivity; try (intros; assumption);
      try (intros; contradiction); try (intros Hx; discriminate Hx).
  - unfold health_check, and_then, read, pure.
    destruct (Hname "web") as [[Hweb Hlookup] | [Hweb Hlookup]]; rewrite ?Hlookup;
      [destruct (Hname "time") as [[Htime Hlookup'] | [Htime Hlookup']];
       rewrite ?Hlookup'|].
    all: cbn.
    all: repeat split; try reflexivity; try (intros; assumption);
      try (intros; contradiction); try (intros Hx; discriminate Hx);
      try (intros [Ha Hb]; contradiction);
      try match goal with Hx : false = true |- _ => discriminate Hx end.
Qed.

(** X17: with [web] bound, [get_status] always answers and never raises.
    It reads [totalActiveNodes], [requiredVotes] and [currentLeader] in
    this order and stops at the first read that fails: status 200 with the
    three values and the node's own fields when all three returned, status
    500 with the error of the failing read otherwise.  The node is not
    changed. *)
Theorem get_status_outcome (G : gset string) (W : World) (st : state) :
  "web" ∈ G ->
  exists response out,
    get_status G W st
    = (Value response, {| self := self st; events := events st ++ out |})
    /\ ((exists total_nodes required_votes current_leader,
           totalActiveNodes W = Returns total_nodes
           /\ requiredVotes W = Returns required_votes
           /\ currentLeader W = Returns current_leader
           /\ out = [TotalActiveNodes; RequiredVotes; CurrentLeader]
           /\ response
              = {| body :=
                     StatusBody (counter.instance_id (base (self st)))
                       (counter.wallet_address (base (self st)))
                       (counter.is_leader (base (self st)))
                       (counter.counter_value (base (self st)))
                       total_nodes required_votes current_leader
                       (counter.last_leader_heartbeat (base (self st)));
                   status := 200 |})
        \/ (exists what,
              response = {| body := ErrorBody (Exn (ExternalError what)); status := 500 |}
              /\ ((totalActiveNodes W = Fails what /\ out = [TotalActiveNodes])
                  \/ (is_ok (of_outcome (totalActiveNodes W)) = true
                      /\ requiredVotes W = Fails what
                      /\ out = [TotalActiveNodes; RequiredVotes])
                  \/ (is_ok (of_outcome (totalActiveNodes W)) = true
                      /\ is_ok (of_outcome (requiredVotes W)) = true
                      /\ currentLeader W = Fails what
                      /\ out = [TotalActiveNodes; RequiredVotes; CurrentLeader])))).
Proof.
  intros Hweb.
  unfold get_status, except_Exception, and_then, ext, read, pure.
  destruct (totalActiveNodes W) as [total_nodes|what]; cbn.
  2:{ rewrite (lookup_bound G "web") by exact Hweb.
      eexists _, _. split; [reflexivity|]. right. exists what.
      split; [reflexivity|]. left. split; reflexivity. }
  destruct (requiredVotes W) as [required_votes|what]; cbn.
  2:{ rewrite (lookup_bound G "web") by exact Hweb.
      eexists _, _. split; [rewrite <- ?app_assoc; reflexivity|]. right. exists what.
      split; [reflexivity|]. right. left. repeat split; reflexivity. }
  destruct (currentLeader W) as [current_leader|what]; cbn.
  2:{ rewrite (lookup_bound G "web") by exact Hweb.
      eexists _, _. split; [rewrite <- ?app_assoc; reflexivity|]. right. exists what.
      split; [reflexivity|]. right. right. repeat split; reflexivity. }
  rewrite (lookup_bound G "web") by exact Hweb. cbn.
  eexists _, _. split; [rewrite <- ?app_assoc; reflexivity|]. left.
  eexists _, _, _. repeat split; reflexivity.
Qed.

Lemma fromhex_hex_byte (x : byte) (rest : string) :
  fromhex (String (hex_char (Byte.to_N x / 16))
             (String (hex_char (Byte.to_N x mod 16)) rest))
  = cons x <$> fromhex rest.
Proof. destruct x; reflexivity. Qed.

Lemma fromhex_bytes_hex (b : list byte) : fromhex (bytes_hex b) = Some b.
Proof.
  induction b as [|x b IH]; [reflexivity|].
  cbn [bytes_hex]. rewrite fromhex_hex_byte, IH. reflexivity.
Qed.

Lemma bytes_hex_length (b : list byte) :
  String.length (bytes_hex b) = (2 * length b)%nat.
Proof. induction b as [|x b IH]; cbn [bytes_hex String.length length]; lia. Qed.

(** X18: with [web] bound, [get_members] reads [getActiveInstances] once
    and always answers: status 500 with the error when the read failed,
    and otherwise status 200 with one text per instance, in the same
    order, and [total_active] their number.  Each text has two characters
    per byte and [bytes.fromhex] maps it back to the instance id. *)
Theorem get_members_outcome (G : gset string) (W : World) (st : state) :
  "web" ∈ G ->
  exists response,
    get_members G W st
    = (Value response,
       {| self := self st; events := events st ++ [GetActiveInstances] |})
    /\ (forall what,
          getActiveInstances W = Fails what ->
          response = {| body := ErrorBody (Exn (ExternalError what)); status := 500 |})
    /\ (forall instances,
          getActiveInstances W = Returns instances ->
          exists texts,
            response = {| body := MembersBody texts (length instances); status := 200 |}
            /\ length texts = length instances
            /\ forall i instance,
                 instances !! i = Some instance ->
                 exists text,
                   texts !! i = Some text
                   /\ String.length text = (2 * length instance)%nat
                   /\ fromhex text = Some instance).
Proof.
  intros Hweb.
  unfold get_members, except_Exception, and_then, ext, pure.
  destruct (getActiveInstances W) as [instances|what]; cbn;
    rewrite (lookup_bound G "web") by exact Hweb;
    (eexists; split; [reflexivity|]).
  - split; [intros what Hf; discriminate Hf|].
    intros l [= <-]. exists (map bytes_hex instances).
    split; [reflexivity|]. split; [apply length_map|].
    intros i instance Hi. exists (bytes_hex instance).
    split; [rewrite list_lookup_fmap, Hi; reflexivity|].
    split; [apply bytes_hex_length | apply fromhex_bytes_hex].
  - split; [intros w [= <-]; reflexivity | intros l Hf; discriminate Hf].
Qed.

Lemma web_imported : "web" ∈ with_imports ["aiohttp"; "web"].
Proof. apply (bool_decide_unpack _). vm_compute. exact I. Qed.

Lemma aiohttp_imported : "aiohttp" ∈ with_imports ["aiohttp"; "web"].
Proof. apply (bool_decide_unpack _). vm_compute. exact I. Qed.

Lemma get_status_outcome_witness :
  fst (get_status (with_imports ["aiohttp"; "web"]) world_ok (fresh node_1))
  = Value {| body := StatusBody "n1" me false 0 3 2 other 0%Z; status := 200 |}.
Proof.
  destruct (get_status_outcome (with_imports ["aiohttp"; "web"]) world_ok
              (fresh node_1) web_imported)
    as (response & out & Hrun & [(t & r & l & [= <-] & [= <-] & [= <-] & _ & ->)
                                | (what & _ & [[Hx _] | [(_ & Hx & _) | (_ & _ & Hx & _)]])]);
    try discriminate Hx.
  rewrite Hrun. reflexivity.
Defined.

Lemma get_members_outcome_witness :
  exists texts,
    fst (get_members (with_imports ["aiohttp"; "web"]) world_ok (fresh node_1))
    = Value {| body := MembersBody texts 2; status := 200 |}
    /\ length texts = 2%nat
    /\ (forall text, In text texts -> String.length text = 4%nat).
Proof.
  destruct (get_members_outcome (with_imports ["aiohttp"; "web"]) world_ok
              (fresh node_1) web_imported)
    as (response & Hrun & _ & Hok).
  destruct (Hok _ eq_refl) as (texts & -> & Hlen & Htexts).
  exists texts. rewrite Hrun. split; [reflexivity|]. split; [exact Hlen|].
  destruct (Htexts 0%nat _ eq_refl) as (t0 & H0 & Hlen0 & _).
  destruct (Htexts 1%nat _ eq_refl) as (t1 & H1 & Hlen1 & _).
  destruct texts as [|x0 [|x1 [|x2 rest]]]; try discriminate Hlen.
  injection H0 as ->. injection H1 as ->.
  intros text [<- | [<- | []]]; assumption.
Defined.

(** ** Construction *)

Ltac wallet_fails :=
  cbn [of_outcome of_result is_Exception];
  unfold and_then, throw; cbn [is_Exception];
  eexists _, _; (split; [rewrite <- ?app_assoc; reflexivity|]);
  (split; [intros addr Hr; discriminate Hr|]);
  (split; [intros e [= <-]; eexists; split; [reflexivity | rewrite ?last_app; reflexivity]|]);
  (split; [intros rpc_url Hin; absurd_in Hin|]).

Lemma _init_dstack_wallet_cases (G : gset string) (W : World)
    (socket : option string) (key_path key_purpose : string) (evs : list event) :
  exists r out,
    _init_dstack_wallet G W socket key_path key_purpose evs = (r, evs ++ out)
    /\ (forall address,
          r = Value address ->
          "DstackClient" ∈ G
          /\ (truthy_text socket = false ->
              ("os" ∈ G) /\ path_exists W generator.default_socket = Returns true)
          /\ In (Dstack (NewDstackClient
                           (if truthy_text socket then text_of socket
                            else generator.default_socket))) out
          /\ In (Dstack (Method (GetKey key_path key_purpose))) out
          /\ exists key_response,
               dstack_get_key (generator.env (host W)) key_path key_purpose
               = Returns key_response
               /\ to_account_secure W key_response = Returns address)
    /\ (forall e,
          r = Run.Error e ->
          exists cause,
            e = WalletInitFailed cause
            /\ last out = Some (Log (WalletInitError cause)))
    /\ (forall rpc_url, ~ In (NewWeb3 rpc_url) out)
    /\ (truthy_text socket = false -> ("os" ∉ G) ->
        r = Run.Error (WalletInitFailed (Exn (NameError "os")))
        /\ out = [ Log (InitializingWallet key_path key_purpose);
                   Log (WalletInitError (Exn (NameError "os"))) ]).
Proof.
  unfold _init_dstack_wallet, except_Exception.
  unfold and_then at 1. unfold and_then at 1.
  assert (forall (name : string) (s : list event),
             ((name ∈ G) /\ lookup G name s = (Value tt, s))
             \/ ((name ∉ G) /\ lookup G name s = (Run.Error (Exn (NameError name)), s)))
    as Hname.
  { intros name s. destruct (decide (name ∈ G)) as [Hb|Hb];
      [left | right]; (split; [exact Hb|]);
      [apply lookup_bound | apply lookup_unbound]; exact Hb. }
  destruct (truthy_text socket) eqn:Hsocket.
  - unfold and_then at 1.
    destruct (Hname "DstackClient" (evs ++ [Log (InitializingWallet key_path key_purpose)]))
      as [[Hclient ->] | [Hclient ->]].
    2:{ wallet_fails. intros Hx; discriminate Hx. }
    destruct (generator.DstackClient (host W) (text_of socket)) as [[]|what].
    2:{ wallet_fails. intros Hx; discriminate Hx. }
    cbn [of_outcome of_result].
    unfold and_then at 1.
    destruct (dstack_info_app_id (generator.env (host W))) as [app_id|what].
    2:{ wallet_fails. intros Hx; discriminate Hx. }
    cbn [of_outcome of_result].
    unfold and_then at 1. unfold and_then at 1.
    destruct (dstack_get_key (generator.env (host W)) key_path key_purpose)
      as [key_response|what] eqn:Hkey.
    2:{ wallet_fails. intros Hx; discriminate Hx. }
    cbn [of_outcome of_result].
    unfold and_then at 1. unfold local at 1.
    destruct (decode_key W key_response) as [[]|what].
    2:{ wallet_fails. intros Hx; discriminate Hx. }
    cbn [of_outcome of_result].
    unfold and_then at 1.
    destruct (import_ethereum W) as [[]|what].
    2:{ wallet_fails. intros Hx; discriminate Hx. }
    cbn [of_outcome of_result].
    unfold and_then at 1. unfold local at 1.
    destruct (to_account_secure W key_response) as [address|what] eqn:Haccount.
    2:{ wallet_fails. intros Hx; discriminate Hx. }
    cbn [of_outcome of_result].
    unfold and_then, pure.
    eexists _, _. split; [rewrite <- ?app_assoc; reflexivity|].
    split.
    + intros a [= <-]. split; [exact Hclient|].
      split; [intros Hx; discriminate Hx|].
      split; [show_in|]. split; [show_in|].
      exists key_response. split; [reflexivity | exact Haccount].
    + split; [intros e He; discriminate He|].
      split; [intros rpc_url Hin; absurd_in Hin | intros Hx; discriminate Hx].
  - unfold and_then at 1.
    destruct (Hname "os" (evs ++ [Log (InitializingWallet key_path key_purpose)]))
      as [[Hos ->] | [Hos ->]].
    2:{ wallet_fails. intros _ _. split; reflexivity. }
    unfold and_then at 1.
    destruct (path_exists W generator.default_socket) as [[|]|what] eqn:Hpath.
    2:{ unfold throw at 1. wallet_fails. intros _ Hx; contradiction. }
    2:{ wallet_fails. intros _ Hx; contradiction. }
    cbn [of_outcome of_result].
    unfold and_then at 1.
    match goal with
    | |- context [lookup G "DstackClient" ?s] =>
        destruct (Hname "DstackClient" s) as [[Hclient ->] | [Hclient ->]]
    end.
    2:{ wallet_fails. intros _ Hx; contradiction. }
    destruct (generator.DstackClient (host W) generator.default_socket) as [[]|what].
    2:{ wallet_fails. intros _ Hx; contradiction. }
    cbn [of_outcome of_result].
    unfold and_then at 1.
    destruct (dstack_info_app_id (generator.env (host W))) as [app_id|what].
    2:{ wallet_fails. intros _ Hx; contradiction. }
    cbn [of_outcome of_result].
    unfold and_then at 1. unfold and_then at 1.
    destruct (dstack_get_key (generator.env (host W)) key_path key_purpose)
      as [key_response|what] eqn:Hkey.
    2:{ wallet_fails. intros _ Hx; contradiction. }
    cbn [of_outcome of_result].
    unfold and_then at 1. unfold local at 1.
    destruct (decode_key W key_response) as [[]|what].
    2:{ wallet_fails. intros _ Hx; contradiction. }
    cbn [of_outcome of_result].
    unfold and_then at 1.
    destruct (import_ethereum W) as [[]|what].
    2:{ wallet_fails. intros _ Hx; contradiction. }
    cbn [of_outcome of_result].
    unfold and_then at 1. unfold local at 1.
    destruct (to_account_secure W key_response) as [address|what] eqn:Haccount.
    2:{ wallet_fails. intros _ Hx; contradiction. }
    cbn [of_outcome of_result].
    unfold and_then, pure.
    eexists _, _. split; [rewrite <- ?app_assoc; reflexivity|].
    split.
    + intros a [= <-]. split; [exact Hclient|].
      split; [intros _; split; [exact Hos | reflexivity]|].
      split; [show_in|]. split; [show_in|].
      exists key_response. split; [reflexivity | exact Haccount].
    + split; [intros e He; discriminate He|].
      split; [intros rpc_url Hin; absurd_in Hin | intros _ Hx; contradiction].
Qed.

(** X19: [_init_dstack_wallet] returns an address or raises the wrapping
    RuntimeError, never anything else, and logs the cause as the last
    record before it raises.  An address is the one [to_account_secure]
    gave for the key at the given path and purpose, obtained through a
    client on the given socket, or on the default path when no socket was
    given; that case needs [os] and the socket file.  Without a socket and
    without [os], which counter.py does not import, the method fails on the
    NameError before it contacts the KeyProvider. *)
Theorem _init_dstack_wallet_outcome (G : gset string) (W : World)
    (socket : option string) (key_path key_purpose : string) (evs : list event) :
  exists r out,
    _init_dstack_wallet G W socket key_path key_purpose evs = (r, evs ++ out)
    /\ (forall address,
          r = Value address ->
          ("DstackClient" ∈ G)
          /\ (truthy_text socket = false ->
              ("os" ∈ G) /\ path_exists W generator.default_socket = Returns true)
          /\ In (Dstack (NewDstackClient
                           (if truthy_text socket then text_of socket
                            else generator.default_socket))) out
          /\ exists key_response,
               dstack_get_key (generator.env (host W)) key_path key_purpose
               = Returns key_response
               /\ to_account_secure W key_response = Returns address)
    /\ (forall e,
          r = Run.Error e ->
          exists cause,
            e = WalletInitFailed cause
            /\ last out = Some (Log (WalletInitError cause)))
    /\ (truthy_text socket = false -> ("os" ∉ G) ->
        r = Run.Error (WalletInitFailed (Exn (NameError "os")))
        /\ out = [ Log (InitializingWallet key_path key_purpose);
                   Log (WalletInitError (Exn (NameError "os"))) ]).
Proof.
  destruct (_init_dstack_wallet_cases G W socket key_path key_purpose evs)
    as (r & out & Hrun & Hvalue & Herror & _ & Hos).
  exists r, out. split; [exact Hrun|]. split; [|split; [exact Herror | exact Hos]].
  intros address Hr.
  destruct (Hvalue address Hr) as (Hclient & Hpath & Hnew & _ & Hkey).
  split; [exact Hclient|]. split; [exact Hpath|]. split; [exact Hnew | exact Hkey].
Qed.

Lemma node_path_not_empty (instance_id : string) :
  ("node/" ++ instance_id)%string <> "".
Proof. intros Hx. discriminate Hx. Qed.

(** X20: what [__init__] returns and when.  A node is returned only for
    a non-empty contract address; it starts as a follower with counter 0,
    an empty log, no token id and no tasks, its key path is the one given
    or [node/<instance_id>], its purpose the one given or [ethereum],
    neither empty, and its wallet address is the one derived from the key
    at that path and purpose.  A missing contract address is reported only
    after the wallet was derived: the KeyProvider was asked for the key,
    the RPC endpoint is never contacted, and a failing wallet
    initialisation is reported instead of the missing address. *)
Theorem __init___outcome (G : gset string) (W : World)
    (instance_id : string) (contract : option string) (rpc_url : string) (port' : Z)
    (socket key_path key_purpose : option string) (evs : list event) :
  exists r out,
    __init__ G W instance_id contract rpc_url port' socket key_path key_purpose evs
    = (r, evs ++ out)
    /\ (forall n,
          r = Value n ->
          truthy_text contract = true
          /\ base n = counter.init instance_id (counter.wallet_address (base n))
          /\ port n = port'
          /\ dstack_socket n = socket
          /\ dstack_key_path n = or_default key_path ("node/" ++ instance_id)%string
          /\ dstack_key_path n <> ""
          /\ dstack_key_purpose n = or_default key_purpose "ethereum"
          /\ dstack_key_purpose n <> ""
          /\ contract_address n = text_of contract
          /\ token_id n = None
          /\ leader_monitor_task n = None
          /\ heartbeat_task n = None
          /\ exists key_response,
               dstack_get_key (generator.env (host W))
                 (dstack_key_path n) (dstack_key_purpose n)
               = Returns key_response
               /\ to_account_secure W key_response
                  = Returns (counter.wallet_address (base n)))
    /\ (truthy_text contract = false ->
        ~ In (NewWeb3 rpc_url) out
        /\ ((exists cause, r = Run.Error (WalletInitFailed cause))
            \/ (r = Run.Error (ValueError' "contract_address is required")
                /\ In (Dstack (Method (GetKey (or_default key_path ("node/" ++ instance_id)%string)
                                         (or_default key_purpose "ethereum")))) out))).
Proof.
  unfold __init__. unfold and_then at 1.
  destruct (_init_dstack_wallet_cases G W socket
              (or_default key_path ("node/" ++ instance_id)%string)
              (or_default key_purpose "ethereum") evs)
    as (r & out & -> & Hvalue & Herror & Hweb3 & _).
  destruct r as [address|e].
  2:{ destruct (Herror e eq_refl) as (cause & -> & Hlast).
      exists (Run.Error (WalletInitFailed cause)), out. split; [reflexivity|].
      split; [intros n Hr; discriminate Hr|].
      intros _. split; [|left; eexists; reflexivity].
      apply Hweb3. }
  destruct (Hvalue address eq_refl) as (_ & _ & _ & Hget & key_response & Hkey & Haccount).
  destruct (truthy_text contract) eqn:Hcontract; cbn [negb].
  2:{ unfold throw. exists (Run.Error (ValueError' "contract_address is required")), out.
      split; [reflexivity|]. split; [intros n Hr; discriminate Hr|].
      intros _. split; [apply Hweb3|]. right. split; [reflexivity | exact Hget]. }
  unfold and_then at 1.
  destruct (new_web3 W rpc_url) as [[]|what]; cbn [of_outcome of_result].
  2:{ eexists _, _. split; [rewrite <- ?app_assoc; reflexivity|].
      split; [intros n Hr; discriminate Hr | intros Hx; discriminate Hx]. }
  unfold and_then at 1.
  destruct (new_contract W (text_of contract)) as [[]|what]; cbn [of_outcome of_result].
  2:{ eexists _, _. split; [rewrite <- ?app_assoc; reflexivity|].
      split; [intros n Hr; discriminate Hr | intros Hx; discriminate Hx]. }
  unfold pure.
  eexists _, _. split; [rewrite <- ?app_assoc; reflexivity|].
  split; [|intros Hx; discriminate Hx].
  intros n [= <-]. cbn.
  repeat (split; [reflexivity|]).
  split; [apply or_default_not_empty, node_path_not_empty|].
  split; [reflexivity|].
  split; [apply or_default_not_empty; intros Hx; discriminate Hx|].
  repeat (split; [reflexivity|]).
  exists key_response. split; [exact Hkey | exact Haccount].
Qed.

(** ** Running the service *)

(** X21: [main] never constructs a [DistributedCounter].  It ends in the
    parser's exit, or, exactly when the command line parses and passes the
    two validations, in the TypeError of the constructor call, which
    passes the keywords [wallet_private_key] and [use_dstack] that
    [__init__] does not take.  No collaborator is contacted. *)
Theorem main_never_starts (G : gset string) (W : World) (evs : list event) :
  exists e,
    main G W evs = (Run.Error e, evs)
    /\ ((exists exit_status, e = SystemExit exit_status) \/ e = Exn TypeError)
    /\ (e = Exn TypeError <->
        exists args,
          parse_args W = inr args
          /\ (arg_use_dstack args = true \/ truthy_text (arg_wallet args) = true)
          /\ (arg_use_dstack args = true -> DSTACK_AVAILABLE W = true)).
Proof.
  unfold main.
  destruct (parse_args W) as [exit_status|args].
  { eexists. split; [reflexivity|]. split; [left; eexists; reflexivity|].
    split; [intros Hx; discriminate Hx | intros (a & Hx & _); discriminate Hx]. }
  destruct (arg_use_dstack args) eqn:Huse; cbn [negb andb].
  - destruct (DSTACK_AVAILABLE W) eqn:Hav; cbn [negb].
    + eexists. split; [reflexivity|]. split; [right; reflexivity|].
      split; [|reflexivity]. intros _. exists args.
      split; [reflexivity|]. split; [left; exact Huse | reflexivity].
    + eexists. split; [reflexivity|]. split; [left; eexists; reflexivity|].
      split; [intros Hx; discriminate Hx|].
      intros (a & [= <-] & _ & Hx). rewrite Huse in Hx.
      specialize (Hx eq_refl). discriminate Hx.
  - destruct (truthy_text (arg_wallet args)) eqn:Hwallet; cbn [negb].
    + eexists. split; [reflexivity|]. split; [right; reflexivity|].
      split; [|reflexivity]. intros _. exists args.
      split; [reflexivity|]. split; [right; exact Hwallet|].
      rewrite Huse. intros Hx; discriminate Hx.
    + eexists. split; [reflexivity|]. split; [left; eexists; reflexivity|].
      split; [intros Hx; discriminate Hx|].
      intros (a & [= <-] & [Hx | Hx] & _);
        [rewrite Huse in Hx | rewrite Hwallet in Hx]; discriminate Hx.
Qed.

(** X22: [start] needs the name [aiohttp], which counter.py never
    imports.  Without it [start] raises NameError after its first log
    record: no task is created, no site is started, the node is not
    registered and nothing is left to clean up. *)
Theorem start_without_aiohttp (G : gset string) (W : World) (st : state) :
  "aiohttp" ∉ G ->
  start G W st
  = (Run.Error (Exn (NameError "aiohttp")),
     {| self := self st;
        events := events st ++ [Log (Starting (port (self st)))] |}).
Proof.
  intros Himport. unfold start.
  step_read. step_log.
  unfold and_then at 1. rewrite lookup_unbound by exact Himport. reflexivity.
Qed.

Lemma start_without_aiohttp_witness :
  start counter_py_globals world_ok (fresh node_1)
  = (Run.Error (Exn (NameError "aiohttp")),
     {| self := node_1; events := [Log (Starting 8080)] |}).
Proof.
  exact (start_without_aiohttp counter_py_globals world_ok (fresh node_1)
           aiohttp_unbound).
Defined.

Lemma serve_run (sleeps : nat) (e : error) (st : state) :
  serve sleeps e st
  = (Run.Error e,
     {| self := self st; events := events st ++ replicate (S sleeps) (Sleep 1) |}).
Proof.
  revert st. induction sleeps as [|k IH]; intros st; cbn [serve].
  - reflexivity.
  - unfold and_then, emit. rewrite IH. cbn [self events replicate].
    rewrite <- app_assoc. reflexivity.
Qed.

Lemma start_run (G : gset string) (W : World) (st : state) :
  "aiohttp" ∈ G -> "web" ∈ G ->
  new_client_session W = Returns tt ->
  setup_runner W = Returns tt ->
  start_site W (port (self st)) = Returns tt ->
  start G W st
  = match register_instance W (started st) with
    | (Value _, st2) =>
        finally
          (except_KeyboardInterrupt
             (serve (fst (interruption W)) (snd (interruption W)))
             (log ShuttingDown))
          (cleanup W) st2
    | (Run.Error e, st2) => (Run.Error e, st2)
    end.
Proof.
  intros Haiohttp Hweb Hsession Hrunner Hsite. unfold start.
  step_read. step_log.
  unfold and_then at 1. rewrite lookup_bound by exact Haiohttp.
  step_ext. rewrite Hsession. cbn [of_outcome of_result].
  step_update.
  unfold and_then at 1. unfold emit at 1. cbn [self events].
  step_update.
  unfold and_then at 1. unfold emit at 1. cbn [self events].
  step_update.
  unfold and_then at 1. rewrite lookup_bound by exact Hweb.
  step_ext. rewrite Hrunner. cbn [of_outcome of_result].
  step_ext. rewrite Hsite. cbn [of_outcome of_result].
  step_log.
  unfold and_then at 1. unfold started.
  rewrite <- ?app_assoc. cbn [app]. reflexivity.
Qed.

Ltac not_in_out :=
  let Hin := fresh "Hin" in
  intros Hin; cbn [app In map] in Hin; rewrite ?in_app_iff in Hin;
  cbn [In map] in Hin;
  repeat (destruct Hin as [Hin|Hin];
          [first [ discriminate Hin
                 | contradiction
                 | revert Hin; apply not_in_methods; intros ? [=] ]|]);
  first [ contradiction
        | discriminate Hin
        | revert Hin; apply not_in_methods; intros ? [=] ].

Ltac keeps_leaf :=
  cbn [of_outcome of_result is_Exception fst snd app];
  unfold and_then, log, emit, throw;
  cbn [of_outcome of_result is_Exception fst snd self events];
  eexists _, _, _; (split; [rewrite <- ?app_assoc; reflexivity|]);
  (split; [intros t; not_in_out|]);
  (split; [not_in_out|]);
  repeat split; reflexivity.

Lemma register_instance_keeps (W : World) (st : state) :
  exists r n' out,
    register_instance W st = (r, {| self := n'; events := events st ++ out |})
    /\ (forall t, ~ In (CancelTask t) out)
    /\ ~ In CloseClientSession out
    /\ base n' = base (self st)
    /\ leader_monitor_task n' = leader_monitor_task (self st)
    /\ heartbeat_task n' = heartbeat_task (self st).
Proof.
  register_prefix.
  destruct (generator.DSTACK_AVAILABLE (host W)); [|keeps_leaf].
  destruct (generator.DstackClient (host W) _) as [[]|what]; [|keeps_leaf].
  register_data.
  destruct (signature_proof.get_registration_data _ _ _ _ _ []) as [[rd|e] tr];
    [|keeps_leaf].
  cbn [fst snd of_result app].
  do 2 step_update.
  step_local.
  destruct (check_arguments W _) as [[]|what]; [|keeps_leaf].
  cbn [of_outcome of_result].
  step_ext.
  destruct (get_transaction_count W _) as [nonce|what]; [|keeps_leaf].
  cbn [of_outcome of_result].
  step_ext.
  destruct (build_transaction W _) as [[]|what]; [|keeps_leaf].
  cbn [of_outcome of_result].
  step_local.
  destruct (sign_transaction W _) as [sig|what]; [|keeps_leaf].
  cbn [of_outcome of_result].
  step_ext.
  destruct (send_raw_transaction W _) as [tx_hash|what]; [|keeps_leaf].
  cbn [of_outcome of_result].
  step_ext.
  destruct (wait_for_transaction_receipt W tx_hash) as [receipt_status|what]; [|keeps_leaf].
  cbn [of_outcome of_result].
  unfold and_then at 1.
  destruct (receipt_status =? 1)%Z; [|unfold throw at 1; keeps_leaf].
  unfold log at 1, emit at 1. cbn [self events].
  unfold except_Exception, ext.
  destruct (updateClusterSize W) as [[]|what]; keeps_leaf.
Qed.

(** X23: [register_instance] is awaited outside the [try] of [start].
    When the registration fails, [start] raises the same error and stops
    in the state the registration left: no task is cancelled and the
    client session is not closed, although the node still holds both
    tasks and the session. *)
Theorem start_registration_failure (G : gset string) (W : World)
    (st st2 : state) (e : error) :
  "aiohttp" ∈ G -> "web" ∈ G ->
  new_client_session W = Returns tt ->
  setup_runner W = Returns tt ->
  start_site W (port (self st)) = Returns tt ->
  register_instance W (started st) = (Run.Error e, st2) ->
  start G W st = (Run.Error e, st2)
  /\ leader_monitor_task (self st2) = Some monitor_leader_health_task
  /\ heartbeat_task (self st2) = Some leader_heartbeat_task
  /\ counter.http_client (base (self st2)) = Some tt
  /\ exists out,
       events st2 = events (started st) ++ out
       /\ (forall t, ~ In (CancelTask t) out)
       /\ ~ In CloseClientSession out.
Proof.
  intros Haiohttp Hweb Hsession Hrunner Hsite Hregister.
  rewrite (start_run G W st Haiohttp Hweb Hsession Hrunner Hsite), Hregister.
  split; [reflexivity|].
  destruct (register_instance_keeps W (started st))
    as (r & n' & out & Hrun & Hcancel & Hclose & Hbase & Hmonitor & Hheartbeat).
  rewrite Hregister in Hrun. injection Hrun as _ ->. cbn [self events].
  rewrite Hbase, Hmonitor, Hheartbeat.
  repeat (split; [reflexivity|]).
  exists out. split; [reflexivity|]. split; [exact Hcancel | exact Hclose].
Qed.

Lemma start_registration_failure_witness :
  exists st2,
    start (with_imports ["aiohttp"; "web"]) world_no_token (fresh node_1)
    = (Run.Error (Exn (NoNFTFound me)), st2)
    /\ leader_monitor_task (self st2) = Some monitor_leader_health_task
    /\ counter.http_client (base (self st2)) = Some tt.
Proof.
  destruct (register_instance world_no_token (started (fresh node_1)))
    as [r st2] eqn:Hregister.
  assert (r = Run.Error (Exn (NoNFTFound me))) as ->.
  { vm_compute in Hregister. injection Hregister as <- _. reflexivity. }
  exists st2.
  destruct (start_registration_failure (with_imports ["aiohttp"; "web"])
              world_no_token (fresh node_1) st2 (Exn (NoNFTFound me))
              aiohttp_imported web_imported eq_refl eq_refl eq_refl Hregister)
    as (Hstart & Hmonitor & _ & Hclient & _).
  split; [exact Hstart|]. split; [exact Hmonitor | exact Hclient].
Defined.

(** X24: once the node is registered, [start] sleeps one second at a
    time until a sleep is interrupted, and [cleanup] runs whatever the
    interruption is: both tasks are cancelled, monitor first, and then the
    client session is closed.  A [KeyboardInterrupt] is logged and [start]
    returns normally; any other interruption is raised again after the
    cleanup. *)
Theorem start_serves_until_interrupted (G : gset string) (W : World)
    (st st2 : state) :
  "aiohttp" ∈ G -> "web" ∈ G ->
  new_client_session W = Returns tt ->
  setup_runner W = Returns tt ->
  start_site W (port (self st)) = Returns tt ->
  register_instance W (started st) = (Value tt, st2) ->
  close_client_session W = Returns tt ->
  start G W st
  = (fst (interrupted (snd (interruption W))),
     {| self := self st2;
        events :=
          events st2
          ++ replicate (S (fst (interruption W))) (Sleep 1)
          ++ snd (interrupted (snd (interruption W)))
          ++ [ CancelTask monitor_leader_health_task;
               CancelTask leader_heartbeat_task;
               CloseClientSession ] |}).
Proof.
  intros Haiohttp Hweb Hsession Hrunner Hsite Hregister Hclose.
  rewrite (start_run G W st Haiohttp Hweb Hsession Hrunner Hsite), Hregister.
  destruct (register_instance_keeps W (started st))
    as (r & n' & out & Hrun & _ & _ & Hbase & Hmonitor & Hheartbeat).
  rewrite Hregister in Hrun. injection Hrun as _ ->.
  unfold finally, except_KeyboardInterrupt. rewrite serve_run.
  cbn [self events].
  assert (forall evs,
             cleanup W {| self := n'; events := evs |}
             = (Value tt,
                {| self := n';
                   events := evs ++ [ CancelTask monitor_leader_health_task;
                                      CancelTask leader_heartbeat_task;
                                      CloseClientSession ] |}))
    as Hcleanup.
  { intros evs. unfold cleanup, and_then, read, emit, ext, pure. cbn [self events].
    rewrite Hmonitor. cbn. rewrite Hheartbeat. cbn. rewrite Hbase. cbn.
    rewrite Hclose. cbn. rewrite <- ?app_assoc. reflexivity. }
  destruct (snd (interruption W)); cbn [interrupted fst snd app];
    try (rewrite Hcleanup, <- ?app_assoc; reflexivity).
  unfold log, emit. cbn [self events]. rewrite Hcleanup, <- ?app_assoc. reflexivity.
Qed.

Lemma start_serves_until_interrupted_witness :
  exists st2,
    register_instance world_ok (started (fresh node_1)) = (Value tt, st2)
    /\ start (with_imports ["aiohttp"; "web"]) world_ok (fresh node_1)
       = (Value tt,
          {| self := self st2;
             events :=
               events st2
               ++ [ Sleep 1; Sleep 1; Sleep 1; Log ShuttingDown;
                    CancelTask monitor_leader_health_task;
                    CancelTask leader_heartbeat_task;
                    CloseClientSession ] |}).
Proof.
  destruct (register_instance world_ok (started (fresh node_1)))
    as [r st2] eqn:Hregister.
  assert (r = Value tt) as ->.
  { vm_compute in Hregister. injection Hregister as <- _. reflexivity. }
  exists st2. split; [reflexivity|].
  exact (start_serves_until_interrupted (with_imports ["aiohttp"; "web"])
           world_ok (fresh node_1) st2
           aiohttp_imported web_imported eq_refl eq_refl eq_refl Hregister eq_refl).
Defined.
